(** * Context compaction engine of gemini-cli: a shallow embedding

    The development follows the TypeScript sources

    - [packages/core/src/services/goalExtractionService.ts]
      ([GoalExtractionService]),
    - [chatCompressionService.ts] ([findCompressSplitPoint],
      [ChatCompressionService.compress]),
    - [deliberateCompressionHandler.ts] ([DeliberateCompressionHandler]),
    - [deliberateCompressionOrchestrator.ts],
    - [core/client.ts] ([GeminiClient.shouldTriggerCompression],
      [handleCompressionSelection], [tryCompressChat]).

    JavaScript numbers are IEEE 754 binary64 values; they are modelled by the
    specification floats of the standard library at precision 53.  Array
    indices and lengths are natural numbers.  A character of a Rocq string
    stands for one UTF-16 code unit below 256. *)

From Stdlib Require Import ZArith List String Ascii Bool Lia PeanoNat.
From Stdlib Require Import Floats.SpecFloat.
Import ListNotations.

(* ================================================================== *)
(** * JavaScript numbers *)
(* ================================================================== *)

Module JS.

Definition number := spec_float.

Definition prec : Z := 53.
Definition emax : Z := 1024.

Definition NaN : number := S754_nan.
Definition Infinity : number := S754_infinity false.

(** The number denoted by an integer literal (rounded to nearest even when
    it needs more than 53 bits). *)
Definition of_Z (z : Z) : number := binary_normalize prec emax z 0 false.
Definition of_nat (n : nat) : number := of_Z (Z.of_nat n).

(** [m * 2^e] as a number, for decimal literals written in the source. *)
Definition of_dyadic (m : Z) (e : Z) : number :=
  binary_normalize prec emax m e false.

Definition add : number -> number -> number := SFadd prec emax.
Definition sub : number -> number -> number := SFsub prec emax.
Definition mul : number -> number -> number := SFmul prec emax.
Definition div : number -> number -> number := SFdiv prec emax.

(** The relational operators [<], [<=], [>], [>=]: every comparison with
    [NaN] is false. *)
Definition lt (a b : number) : bool := SFltb a b.
Definition le (a b : number) : bool := SFleb a b.
Definition gt (a b : number) : bool := SFltb b a.
Definition ge (a b : number) : bool := SFleb b a.

Definition isNaN (a : number) : bool :=
  match a with S754_nan => true | _ => false end.

(** [Math.round]: a value that is not finite is returned unchanged; any
    other value goes to the closest integer, ties towards [+Infinity];
    the results in [[-0.5, 0)] are [-0]. *)
Definition Math_round (x : number) : number :=
  match x with
  | S754_finite s m e =>
      if (0 <=? e)%Z then x
      else
        let k := (- e)%Z in
        let n := ((2 * cond_Zopp s (Zpos m) + 2 ^ k) / 2 ^ (k + 1))%Z in
        binary_normalize prec emax n 0 s
  | _ => x
  end.

(** One iteration of the loop of [Math.min] over its arguments. *)
Definition Math_min_step (lowest n : number) : number :=
  match n, lowest with
  | S754_zero true, S754_zero false => n
  | _, _ => if lt n lowest then n else lowest
  end.

(** [Math.min(a, b)]: [NaN] when an argument is [NaN], else the result of
    the loop started at [+Infinity]. *)
Definition Math_min (a b : number) : number :=
  if isNaN a || isNaN b then NaN
  else Math_min_step (Math_min_step Infinity a) b.

(** Decimal literals of the sources, as the nearest binary64 value. *)
Definition n0 : number := S754_zero false.
Definition n1 : number := of_Z 1.
Definition n0_5 : number := of_dyadic 1 (-1).
Definition n1_5 : number := of_dyadic 3 (-1).
Definition n0_3 : number := of_dyadic 5404319552844595 (-54).
Definition n1000 : number := of_Z 1000.

End JS.

Import JS.

Local Open Scope string_scope.

(* ================================================================== *)
(** * Thrown values and completions *)
(* ================================================================== *)

(** A value that a [throw] or a rejected promise carries: an [Error] object
    with its message, or any other value. *)
Variant Thrown : Type :=
  | ErrorObject (message : string)
  | NonError (description : string).

(** How a call ends: it returns a value or throws (an [async] function
    resolves or rejects). *)
Variant Completion (A : Type) : Type :=
  | Returns (a : A)
  | Throws (e : Thrown).

Arguments Returns {A} a.
Arguments Throws {A} e.

(* ================================================================== *)
(** * Data model: messages of the conversation *)
(* ================================================================== *)

(** A [Part] of [@google/genai]: the optional fields the engine looks at.
    The payload of a function call or response is an object, so it is truthy
    whenever it is present. *)
Record Part : Type := {
  text : option string;
  functionCall : option string;
  functionResponse : option string
}.

(** [Content]: both fields are optional in the library's type. *)
Record Content : Type := {
  role : option string;
  parts : option (list Part)
}.

(** [JSON.stringify(content).length], the weight of a message. *)
Class Stringifier : Type :=
  JSON_stringify_length : Content -> nat.

Definition isSome {A} (o : option A) : bool :=
  match o with Some _ => true | None => false end.

Definition role_is (r : string) (c : Content) : bool :=
  match role c with
  | Some r' => String.eqb r' r
  | None => false
  end.

(** [content.parts?.some((part) => !!part.functionResponse)], where
    [undefined] counts as false. *)
Definition some_functionResponse (c : Content) : bool :=
  match parts c with
  | Some ps => existsb (fun part => isSome (functionResponse part)) ps
  | None => false
  end.

(** [content.parts?.some((part) => part.functionCall)]. *)
Definition some_functionCall (c : Content) : bool :=
  match parts c with
  | Some ps => existsb (fun part => isSome (functionCall part)) ps
  | None => false
  end.

(* ================================================================== *)
(** * SplitPlanner: [findCompressSplitPoint] *)
(* ================================================================== *)

Variant Strategy : Type := percentage | since_last_prompt.

Record SplitPointOptions : Type := {
  strategy : Strategy;
  minMessagesToCompress : option nat;
  preserveThreshold : option number
}.

Record SplitPointResult : Type := {
  splitIndex : nat;
  historyToCompress : list Content;
  historyToKeep : list Content
}.

(** The return type [number | SplitPointResult | null]. *)
Variant SplitReturn : Type :=
  | RetNumber (n : nat)
  | RetResult (r : SplitPointResult)
  | RetNull.

(** The test of the loop body: a user message that carries no function
    response. *)
Definition isSplitCandidate (content : Content) : bool :=
  role_is "user" content && negb (some_functionResponse content).

(** How the [for] loop over [contents] ends. *)
Variant LoopExit : Type :=
  | LoopReturn (i : nat)
  | LoopDone (lastSplitPoint : nat).

Section SplitLoop.
Context {J : Stringifier}.

Definition charCount (content : Content) : number :=
  of_nat (JSON_stringify_length content).

(** [charCounts.reduce((a, b) => a + b, 0)]. *)
Definition totalCharCount (contents : list Content) : number :=
  fold_left add (map charCount contents) n0.

(** The loop [for (let i = 0; i < contents.length; i++)], entered at index
    [i] with the messages from [i] on. *)
Fixpoint splitLoop (targetCharCount : number) (rest : list Content)
    (i lastSplitPoint : nat) (cumulativeCharCount : number) : LoopExit :=
  match rest with
  | [] => LoopDone lastSplitPoint
  | content :: rest' =>
      if isSplitCandidate content then
        if ge cumulativeCharCount targetCharCount then LoopReturn i
        else splitLoop targetCharCount rest' (i + 1) i
               (add cumulativeCharCount (charCount content))
      else splitLoop targetCharCount rest' (i + 1) lastSplitPoint
             (add cumulativeCharCount (charCount content))
  end.

(** [contents[contents.length - 1]]; [undefined] on the empty array. *)
Definition lastContent (contents : list Content) : option Content :=
  nth_error contents (List.length contents - 1).

(** [lastContent?.role === 'model' &&
     !lastContent?.parts?.some((part) => part.functionCall)]. *)
Definition safeToCompressEverything (contents : list Content) : bool :=
  match lastContent contents with
  | Some c => role_is "model" c && negb (some_functionCall c)
  | None => false
  end.

(** The index both percentage branches compute. *)
Definition percentageSplitIndex (contents : list Content)
    (fraction : number) : nat :=
  let targetCharCount := mul (totalCharCount contents) fraction in
  match splitLoop targetCharCount contents 0 0 n0 with
  | LoopReturn i => i
  | LoopDone lastSplitPoint =>
      if safeToCompressEverything contents then List.length contents
      else lastSplitPoint
  end.

(** The backward scan [for (let i = contents.length - 1; i >= 0; i--)]
    with [n] indices left to visit; [-1] when no user message is met. *)
Fixpoint lastUserMessageIndex (contents : list Content) (n : nat) : Z :=
  match n with
  | O => (-1)%Z
  | S i =>
      match nth_error contents i with
      | Some c =>
          if role_is "user" c then Z.of_nat i
          else lastUserMessageIndex contents i
      | None => lastUserMessageIndex contents i
      end
  end.

Definition slice_to (contents : list Content) (i : nat) := firstn i contents.
Definition slice_from (contents : list Content) (i : nat) := skipn i contents.

Definition findCompressSplitPoint (contents : list Content)
    (fractionOrOptions : number + SplitPointOptions)
  : Completion SplitReturn :=
  match fractionOrOptions with
  | inl fraction =>
      if le fraction n0 || ge fraction n1 then
        Throws (ErrorObject "Fraction must be between 0 and 1")
      else Returns (RetNumber (percentageSplitIndex contents fraction))
  | inr options =>
      match strategy options with
      | since_last_prompt =>
          let k := lastUserMessageIndex contents (List.length contents) in
          if (k <=? 0)%Z then Returns RetNull
          else
            let min :=
              match minMessagesToCompress options with
              | Some m => m
              | None => 5
              end in
            if (k <? Z.of_nat min)%Z then Returns RetNull
            else
              Returns (RetResult
                {| splitIndex := Z.to_nat k;
                   historyToCompress := slice_to contents (Z.to_nat k);
                   historyToKeep := slice_from contents (Z.to_nat k) |})
      | percentage =>
          let threshold :=
            match preserveThreshold options with
            | Some p => p
            | None => n0_3
            end in
          let fraction := sub n1 threshold in
          let targetCharCount := mul (totalCharCount contents) fraction in
          match splitLoop targetCharCount contents 0 0 n0 with
          | LoopReturn i =>
              Returns (RetResult
                {| splitIndex := i;
                   historyToCompress := slice_to contents i;
                   historyToKeep := slice_from contents i |})
          | LoopDone lastSplitPoint =>
              if safeToCompressEverything contents then
                Returns (RetResult
                  {| splitIndex := List.length contents;
                     historyToCompress := contents;
                     historyToKeep := [] |})
              else
                Returns (RetResult
                  {| splitIndex := lastSplitPoint;
                     historyToCompress := slice_to contents lastSplitPoint;
                     historyToKeep := slice_from contents lastSplitPoint |})
          end
      end
  end.

End SplitLoop.

(* ================================================================== *)
(** * Strings: white space, [trim], and the two tag-matching regexps *)
(* ================================================================== *)

(** White space of [\s] and of [String.prototype.trim] among the code units
    below 256: TAB, LF, VT, FF, CR, SP and NBSP. *)
Definition isWhiteSpace (c : ascii) : bool :=
  let n := nat_of_ascii c in
  ((n =? 9) || (n =? 10) || (n =? 11) || (n =? 12) || (n =? 13)
   || (n =? 32) || (n =? 160))%nat.

Fixpoint trimStart (s : string) : string :=
  match s with
  | EmptyString => EmptyString
  | String c s' => if isWhiteSpace c then trimStart s' else s
  end.

Fixpoint trimEnd (s : string) : string :=
  match s with
  | EmptyString => EmptyString
  | String c s' =>
      match trimEnd s' with
      | EmptyString => if isWhiteSpace c then EmptyString else String c EmptyString
      | t => String c t
      end
  end.

Definition trim (s : string) : string := trimEnd (trimStart s).

(** [s] without the prefix [p], when it starts with [p]. *)
Fixpoint stripPrefix (p s : string) : option string :=
  match p, s with
  | EmptyString, _ => Some s
  | String a p', String b s' =>
      if Ascii.eqb a b then stripPrefix p' s' else None
  | String _ _, EmptyString => None
  end.

(** The text before and the text after the first occurrence of [pat]. *)
Fixpoint splitAtFirst (pat s : string) : option (string * string) :=
  match stripPrefix pat s with
  | Some rest => Some (EmptyString, rest)
  | None =>
      match s with
      | EmptyString => None
      | String c s' =>
          match splitAtFirst pat s' with
          | Some (before, after) => Some (String c before, after)
          | None => None
          end
      end
  end.

(** One match of a regexp of the shape [open \s* (.*?) \s* close] with the
    dot matching every character: the leftmost [open] that has a [close]
    after it, up to the first such [close].  The greedy [\s*] and the lazy
    group leave in group 1 the text between the tags without the white space
    at its ends.  The result is group 1 and the input after the match. *)
Definition tagRegex_exec (open close input : string)
  : option (string * string) :=
  match splitAtFirst open input with
  | None => None
  | Some (_, afterOpen) =>
      match splitAtFirst close afterOpen with
      | None => None
      | Some (body, rest) => Some (trimEnd (trimStart body), rest)
      end
  end.

(** [/<goal>\s*(.*?)\s*<\/goal>/gs], from [lastIndex] on. *)
Definition goalRegex_exec : string -> option (string * string) :=
  tagRegex_exec "<goal>" "</goal>".

(* ================================================================== *)
(** * GoalExtractor: [GoalExtractionService] *)
(* ================================================================== *)

Variant Confidence : Type := high | medium | low | none.

Record GoalExtractionResult : Type := {
  goals : list string;
  confidence : Confidence;
  error : option string
}.

Record GoalExtractionOptions : Type := {
  maxMessages : option nat;
  timeoutMs : option number
}.

(** [goals.push(goal)] under [if (goal)]: the empty string is falsy. *)
Definition pushGoal (goals : list string) (goal : string) : list string :=
  match goal with
  | EmptyString => goals
  | _ => goals ++ [goal]
  end.

(** The loop [while ((match = goalRegex.exec(text)) !== null)], as a
    relation: [text] is the input from [lastIndex] on. *)
Inductive execLoop : string -> list string -> list string -> Prop :=
  | execLoop_null : forall text goals,
      goalRegex_exec text = None ->
      execLoop text goals goals
  | execLoop_match : forall text goals group rest result,
      goalRegex_exec text = Some (group, rest) ->
      execLoop rest (pushGoal goals (trim group)) result ->
      execLoop text goals result.

(** The same loop as a function; every match consumes characters, so the
    length of the text bounds the number of iterations. *)
Fixpoint execLoop_run (fuel : nat) (text : string) (goals : list string)
  : list string :=
  match fuel with
  | O => goals
  | S fuel' =>
      match goalRegex_exec text with
      | None => goals
      | Some (group, rest) =>
          execLoop_run fuel' rest (pushGoal goals (trim group))
      end
  end.

Definition parseGoals (text : string) : list string :=
  execLoop_run (String.length text) text [].

Definition determineConfidence (goals : list string) (_text : string)
  : Confidence :=
  match goals with
  | [] => none
  | [g] => if (30 <? String.length g)%nat then high else low
  | _ :: _ :: _ => medium
  end.

(** How [Promise.race([responsePromise, timeoutPromise])] settles: the model
    call resolved first (with the text [getResponseText] finds in the
    response, if any), the model call failed first, or the timer fired
    first and rejected with [new Error('Timeout')]. *)
Variant RaceOutcome : Type :=
  | ResponseWins (responseText : option string)
  | ResponseFails (e : Thrown)
  | TimerWins.

Definition raceResult (o : RaceOutcome) : Completion (option string) :=
  match o with
  | ResponseWins t => Returns t
  | ResponseFails e => Throws e
  | TimerWins => Throws (ErrorObject "Timeout")
  end.

(** [history.slice(-maxMessages)]; [slice(-0)] is the whole array. *)
Definition recentHistory (history : list Content) (maxMessages : nat)
  : list Content :=
  match maxMessages with
  | O => history
  | _ => skipn (List.length history - maxMessages) history
  end.

Definition goalExtractionQuestion : Content :=
  {| role := Some "user";
     parts := Some [ {| text := Some "Based on the conversation above, analyze the recent conversation and identify what I am currently working on.";
                        functionCall := None;
                        functionResponse := None |} ] |}.

(** The contents [extractGoals] sends to the model: the recent history and
    the question. *)
Definition extractionContents (history : list Content)
    (options : option GoalExtractionOptions) : list Content :=
  let maxMessages :=
    match options with
    | Some o => match maxMessages o with Some m => m | None => 20 end
    | None => 20
    end in
  (recentHistory history maxMessages ++ [goalExtractionQuestion])%list.

(** [extractGoals]: [generateContent] tells how the race ends for the
    contents sent to the model. *)
Definition extractGoals (history : list Content)
    (generateContent : list Content -> RaceOutcome)
    (options : option GoalExtractionOptions)
  : Completion GoalExtractionResult :=
  let contents := extractionContents history options in
  match raceResult (generateContent contents) with
  | Returns response =>
      let text := match response with Some t => t | None => "" end in
      let goals := parseGoals text in
      Returns {| goals := goals;
                 confidence := determineConfidence goals text;
                 error := None |}
  | Throws e =>
      let isTimeout :=
        match e with
        | ErrorObject message => String.eqb message "Timeout"
        | NonError _ => false
        end in
      Returns {| goals := [];
                 confidence := none;
                 error := Some (if isTimeout then "timeout"
                                else "extraction_failed") |}
  end.

(* ================================================================== *)
(** * Configuration *)
(* ================================================================== *)

(** Modelled from the spec: the [Config] class ([config/config.ts]) is not
    among the sources.  Its getters return and its setters store the named
    values of the configuration interface. *)
Record Config : Type := {
  compressionTriggerTokens : number;
  compressionTriggerUtilization : number;
  compressionMinMessages : number;
  compressionMinTimeBetweenPrompts : number;
  compressionFrequencyMultiplier : number;
  compressionInteractive : bool;
  compressionThreshold : option number;
  deliberateCompressionEnabled : bool;
  deliberateCompressionAutoSkip : bool
}.

Definition setCompressionInteractive (b : bool) (c : Config) : Config :=
  {| compressionTriggerTokens := compressionTriggerTokens c;
     compressionTriggerUtilization := compressionTriggerUtilization c;
     compressionMinMessages := compressionMinMessages c;
     compressionMinTimeBetweenPrompts := compressionMinTimeBetweenPrompts c;
     compressionFrequencyMultiplier := compressionFrequencyMultiplier c;
     compressionInteractive := b;
     compressionThreshold := compressionThreshold c;
     deliberateCompressionEnabled := deliberateCompressionEnabled c;
     deliberateCompressionAutoSkip := deliberateCompressionAutoSkip c |}.

Definition setCompressionTriggerTokens (n : number) (c : Config) : Config :=
  {| compressionTriggerTokens := n;
     compressionTriggerUtilization := compressionTriggerUtilization c;
     compressionMinMessages := compressionMinMessages c;
     compressionMinTimeBetweenPrompts := compressionMinTimeBetweenPrompts c;
     compressionFrequencyMultiplier := compressionFrequencyMultiplier c;
     compressionInteractive := compressionInteractive c;
     compressionThreshold := compressionThreshold c;
     deliberateCompressionEnabled := deliberateCompressionEnabled c;
     deliberateCompressionAutoSkip := deliberateCompressionAutoSkip c |}.

Definition setCompressionMinMessages (n : number) (c : Config) : Config :=
  {| compressionTriggerTokens := compressionTriggerTokens c;
     compressionTriggerUtilization := compressionTriggerUtilization c;
     compressionMinMessages := n;
     compressionMinTimeBetweenPrompts := compressionMinTimeBetweenPrompts c;
     compressionFrequencyMultiplier := compressionFrequencyMultiplier c;
     compressionInteractive := compressionInteractive c;
     compressionThreshold := compressionThreshold c;
     deliberateCompressionEnabled := deliberateCompressionEnabled c;
     deliberateCompressionAutoSkip := deliberateCompressionAutoSkip c |}.

(** The defaults of the configuration interface. *)
Definition defaultConfig : Config :=
  {| compressionTriggerTokens := of_Z 40000;
     compressionTriggerUtilization := n0_5;
     compressionMinMessages := of_Z 25;
     compressionMinTimeBetweenPrompts := of_Z 300;
     compressionFrequencyMultiplier := n1_5;
     compressionInteractive := true;
     compressionThreshold := None;
     deliberateCompressionEnabled := true;
     deliberateCompressionAutoSkip := false |}.

(* ================================================================== *)
(** * SelectionCoordinator: handler and orchestrator *)
(* ================================================================== *)

Record PromptDecision : Type := {
  shouldPrompt : bool;
  reason : string;
  fallbackToBasicCompression : option bool
}.

(** [DeliberateCompressionHandler.shouldPromptUser]. *)
Definition shouldPromptUser (extractionResult : GoalExtractionResult)
    (config : Config) (isSafetyValve : bool) : PromptDecision :=
  if isSafetyValve then
    {| shouldPrompt := false; reason := "safety_valve";
       fallbackToBasicCompression := Some true |}
  else if match error extractionResult with
          | Some e => String.eqb e "timeout"
          | None => false
          end then
    {| shouldPrompt := false; reason := "extraction_timeout";
       fallbackToBasicCompression := Some true |}
  else if (List.length (goals extractionResult) =? 0)%nat then
    {| shouldPrompt := false; reason := "no_goals";
       fallbackToBasicCompression := Some true |}
  else if deliberateCompressionAutoSkip config then
    {| shouldPrompt := false; reason := "auto_skip_enabled";
       fallbackToBasicCompression := Some true |}
  else
    {| shouldPrompt := true; reason := "goals_found";
       fallbackToBasicCompression := None |}.

Record CompressionOptions : Type := {
  userGoal : option string;
  preserveStrategy : option Strategy;
  optPreserveThreshold : option number
}.

(** Truthiness of [string | null | undefined]. *)
Definition truthy (s : option string) : bool :=
  match s with
  | Some (String _ _) => true
  | _ => false
  end.

(** [DeliberateCompressionOrchestrator.createCompressionOptions]. *)
Definition createCompressionOptions (selectedGoal : option string)
  : CompressionOptions :=
  if truthy selectedGoal then
    {| userGoal := selectedGoal;
       preserveStrategy := Some since_last_prompt;
       optPreserveThreshold := None |}
  else
    {| userGoal := None;
       preserveStrategy := Some percentage;
       optPreserveThreshold := None |}.

Record DeliberateCompressionPrepareResult : Type := {
  prepShouldPromptUser : bool;
  extractedGoals : option (list string);
  skipReason : option string;
  useBasicCompression : option bool;
  selectedGoal : option string
}.

(** [DeliberateCompressionOrchestrator.prepareDeliberateCompression]. *)
Definition prepareDeliberateCompression (history : list Content)
    (generateContent : list Content -> RaceOutcome)
    (config : Config) (isSafetyValve : bool)
  : DeliberateCompressionPrepareResult :=
  if negb (deliberateCompressionEnabled config) then
    {| prepShouldPromptUser := false; extractedGoals := None;
       skipReason := Some "disabled"; useBasicCompression := Some true;
       selectedGoal := None |}
  else
    match extractGoals history generateContent None with
    | Throws _ =>
        {| prepShouldPromptUser := false; extractedGoals := None;
           skipReason := Some "extraction_failed";
           useBasicCompression := Some true; selectedGoal := None |}
    | Returns extractionResult =>
        let promptDecision :=
          shouldPromptUser extractionResult config isSafetyValve in
        if negb (shouldPrompt promptDecision) then
          {| prepShouldPromptUser := false; extractedGoals := None;
             skipReason := Some (reason promptDecision);
             useBasicCompression := fallbackToBasicCompression promptDecision;
             selectedGoal := None |}
        else
          {| prepShouldPromptUser := true;
             extractedGoals := Some (goals extractionResult);
             skipReason := None; useBasicCompression := None;
             selectedGoal := None |}
    end.

(* ================================================================== *)
(** * Effects of the engine: calls to the collaborators *)
(* ================================================================== *)

Variant CompressionStatus : Type :=
  | COMPRESSED
  | COMPRESSION_FAILED_INFLATED_TOKEN_COUNT
  | NOOP.

(** What the engine does to the outside world, in order. *)
Variant Event : Type :=
  | SummarizationCall (contents : list Content) (systemInstruction : string)
  | TokenCountCall (requestParts : list Part)
  | ChatCompressionLogged (tokens_before tokens_after : number)
      (goal_was_selected : bool) (messages_preserved messages_compressed : nat)
      (trigger_reason : Strategy)
  | Feedback (message : string)
  | FrequencyFeedback (multiplier oldTokens newTokens
                       oldMessages newMessages : number).

(** A computation with a trace of events that may throw. *)
Definition Eff (A : Type) : Type := (list Event * Completion A)%type.

Definition ret {A} (a : A) : Eff A := ([], Returns a).

Definition bind {A B} (m : Eff A) (k : A -> Eff B) : Eff B :=
  match m with
  | (tr, Returns a) => let '(tr', r) := k a in ((tr ++ tr')%list, r)
  | (tr, Throws e) => (tr, Throws e)
  end.

Definition emit (ev : Event) : Eff unit := ([ev], Returns tt).

(** An awaited call to a collaborator: the call is recorded, then it
    resolves or rejects. *)
Definition call {A} (ev : Event) (outcome : Completion A) : Eff A :=
  ([ev], outcome).

Definition lift {A} (c : Completion A) : Eff A := ([], c).

Declare Scope eff_scope.
Delimit Scope eff_scope with eff.
Notation "x <- m ;; k" := (bind m (fun x => k))
  (at level 61, m at next level, right associativity) : eff_scope.
Notation "m ;;; k" := (bind m (fun _ => k))
  (at level 61, right associativity) : eff_scope.

(** The external collaborators of the compaction executor: the token limit
    table, the prompt builder, the summarization model (with
    [getResponseText] applied to its response), the history builder and the
    token counter.  The last three are awaited and may reject. *)
Record Services : Type := {
  tokenLimit : string -> number;
  getChatCompressionPrompt : option string -> string;
  generateSummary : list Content -> string -> Completion (option string);
  getInitialChatHistory : list Content -> Completion (list Content);
  calculateRequestTokenCount : list Part -> Completion number
}.

(* ================================================================== *)
(** * CompactionExecutor: [ChatCompressionService.compress] *)
(* ================================================================== *)

Definition DEFAULT_COMPRESSION_TOKEN_THRESHOLD : number := n0_5.
Definition COMPRESSION_PRESERVE_THRESHOLD : number := n0_3.

(** The part of [GeminiChat] the executor reads: [getHistory(true)] and
    [getLastPromptTokenCount()]. *)
Record GeminiChat : Type := {
  curatedHistory : list Content;
  lastPromptTokenCount : number
}.

Record ChatCompressionInfo : Type := {
  originalTokenCount : number;
  newTokenCount : number;
  compressionStatus : CompressionStatus;
  messagesPreserved : option nat;
  messagesCompressed : option nat;
  goalWasSelected : option bool;
  discardedContextSummary : option string
}.

Record CompressResult : Type := {
  newHistory : option (list Content);
  info : ChatCompressionInfo
}.

(** [text.match(/<discarded_context_summary>\s*([\s\S]*?)\s*<\/discarded_context_summary>/)],
    then [match[1].trim()]. *)
Definition extractDiscardedContextSummary (text : string) : option string :=
  match tagRegex_exec "<discarded_context_summary>"
          "</discarded_context_summary>" text with
  | Some (group, _) => Some (trim group)
  | None => None
  end.

(** The result of the three early returns. *)
Definition noopResult (original new : number) : CompressResult :=
  {| newHistory := None;
     info := {| originalTokenCount := original;
                newTokenCount := new;
                compressionStatus := NOOP;
                messagesPreserved := None;
                messagesCompressed := None;
                goalWasSelected := None;
                discardedContextSummary := None |} |}.

(** [typeof splitPoint === 'number' ? splitPoint : 0]. *)
Definition numberOrZero (r : SplitReturn) : nat :=
  match r with
  | RetNumber n => n
  | _ => 0
  end.

Definition summaryRequest : Content :=
  {| role := Some "user";
     parts := Some [ {| text := Some "First, reason in your scratchpad. Then, generate the <state_snapshot>.";
                        functionCall := None;
                        functionResponse := None |} ] |}.

Definition textMessage (r : string) (t : string) : Content :=
  {| role := Some r;
     parts := Some [ {| text := Some t; functionCall := None;
                        functionResponse := None |} ] |}.

Section Compress.
Context {J : Stringifier}.
Variable svc : Services.

Local Open Scope eff_scope.

(** The choice of [historyToCompress] and [historyToKeep]. *)
Definition planSplit (history : list Content)
    (options : option CompressionOptions)
  : Completion (list Content * list Content) :=
  let strategy :=
    match options with
    | Some o => match preserveStrategy o with
                | Some s => s
                | None => percentage
                end
    | None => percentage
    end in
  let legacy (fraction : number) :=
    match findCompressSplitPoint history (inl fraction) with
    | Throws e => Throws e
    | Returns splitPoint =>
        Returns (slice_to history (numberOrZero splitPoint),
                 slice_from history (numberOrZero splitPoint))
    end in
  match strategy with
  | since_last_prompt =>
      match findCompressSplitPoint history
              (inr {| strategy := since_last_prompt;
                      minMessagesToCompress := Some 5;
                      preserveThreshold := None |}) with
      | Throws e => Throws e
      | Returns (RetResult splitResult) =>
          Returns (historyToCompress splitResult,
                   historyToKeep splitResult)
      | Returns _ => legacy (sub n1 COMPRESSION_PRESERVE_THRESHOLD)
      end
  | percentage =>
      let threshold :=
        match options with
        | Some o => match optPreserveThreshold o with
                    | Some p => p
                    | None => COMPRESSION_PRESERVE_THRESHOLD
                    end
        | None => COMPRESSION_PRESERVE_THRESHOLD
        end in
      legacy (sub n1 threshold)
  end.

Definition compress (chat : GeminiChat) (force : bool) (model : string)
    (config : Config) (hasFailedCompressionAttempt : bool)
    (options : option CompressionOptions) : Eff CompressResult :=
  let history := curatedHistory chat in
  if (List.length history =? 0)%nat || (hasFailedCompressionAttempt && negb force)
  then ret (noopResult n0 n0)
  else
    let originalTokenCount := lastPromptTokenCount chat in
    let threshold :=
      match compressionThreshold config with
      | Some t => t
      | None => DEFAULT_COMPRESSION_TOKEN_THRESHOLD
      end in
    if negb force
       && lt originalTokenCount (mul threshold (tokenLimit svc model))
    then ret (noopResult originalTokenCount originalTokenCount)
    else
      let strategy :=
        match options with
        | Some o => match preserveStrategy o with
                    | Some s => s
                    | None => percentage
                    end
        | None => percentage
        end in
      let goal := match options with Some o => userGoal o | None => None end in
      split <- lift (planSplit history options) ;;
      let '(toCompress, toKeep) := split in
      let messagesPreserved := List.length toKeep in
      let messagesCompressed := List.length toCompress in
      if (List.length toCompress =? 0)%nat
      then ret (noopResult originalTokenCount originalTokenCount)
      else
        let request := (toCompress ++ [summaryRequest])%list in
        let instruction := getChatCompressionPrompt svc goal in
        summaryResponse <-
          call (SummarizationCall request instruction)
               (generateSummary svc request instruction) ;;
        let summary :=
          match summaryResponse with Some t => t | None => "" end in
        let discarded := extractDiscardedContextSummary summary in
        let extraHistory :=
          (textMessage "user" summary
           :: textMessage "model" "Got it. Thanks for the additional context!"
           :: toKeep) in
        fullNewHistory <- lift (getInitialChatHistory svc extraHistory) ;;
        let requestParts :=
          flat_map (fun c => match parts c with Some ps => ps | None => [] end)
                   fullNewHistory in
        newTokenCount <-
          call (TokenCountCall requestParts)
               (calculateRequestTokenCount svc requestParts) ;;
        emit (ChatCompressionLogged originalTokenCount newTokenCount
                (truthy goal) messagesPreserved messagesCompressed strategy) ;;;
        if gt newTokenCount originalTokenCount then
          ret {| newHistory := None;
                 info := {| originalTokenCount := originalTokenCount;
                            newTokenCount := newTokenCount;
                            compressionStatus :=
                              COMPRESSION_FAILED_INFLATED_TOKEN_COUNT;
                            messagesPreserved := Some messagesPreserved;
                            messagesCompressed := Some messagesCompressed;
                            goalWasSelected := Some (truthy goal);
                            discardedContextSummary := discarded |} |}
        else
          ret {| newHistory := Some extraHistory;
                 info := {| originalTokenCount := originalTokenCount;
                            newTokenCount := newTokenCount;
                            compressionStatus := COMPRESSED;
                            messagesPreserved := Some messagesPreserved;
                            messagesCompressed := Some messagesCompressed;
                            goalWasSelected := Some (truthy goal);
                            discardedContextSummary := discarded |} |}.

End Compress.

(* ================================================================== *)
(** * TriggerEvaluator and GuardState: [GeminiClient] *)
(* ================================================================== *)

Module Trigger.
Record Decision : Type := {
  shouldCompress : bool;
  reason : string;
  isSafetyValve : bool
}.
End Trigger.

(** The fields of [GeminiClient] the engine reads and writes. *)
Record GeminiClient : Type := {
  config : Config;
  chat : GeminiChat;
  hasFailedCompressionAttempt : bool;
  messagesSinceLastCompress : number;
  lastCompressionTime : number;
  isCompressing : bool;
  forceFullIdeContext : bool
}.

Definition set_config (c : Config) (cl : GeminiClient) : GeminiClient :=
  {| config := c; chat := chat cl;
     hasFailedCompressionAttempt := hasFailedCompressionAttempt cl;
     messagesSinceLastCompress := messagesSinceLastCompress cl;
     lastCompressionTime := lastCompressionTime cl;
     isCompressing := isCompressing cl;
     forceFullIdeContext := forceFullIdeContext cl |}.

Definition set_isCompressing (b : bool) (cl : GeminiClient) : GeminiClient :=
  {| config := config cl; chat := chat cl;
     hasFailedCompressionAttempt := hasFailedCompressionAttempt cl;
     messagesSinceLastCompress := messagesSinceLastCompress cl;
     lastCompressionTime := lastCompressionTime cl;
     isCompressing := b;
     forceFullIdeContext := forceFullIdeContext cl |}.

Definition set_hasFailedCompressionAttempt (b : bool) (cl : GeminiClient)
  : GeminiClient :=
  {| config := config cl; chat := chat cl;
     hasFailedCompressionAttempt := b;
     messagesSinceLastCompress := messagesSinceLastCompress cl;
     lastCompressionTime := lastCompressionTime cl;
     isCompressing := isCompressing cl;
     forceFullIdeContext := forceFullIdeContext cl |}.

Definition set_messagesSinceLastCompress (n : number) (cl : GeminiClient)
  : GeminiClient :=
  {| config := config cl; chat := chat cl;
     hasFailedCompressionAttempt := hasFailedCompressionAttempt cl;
     messagesSinceLastCompress := n;
     lastCompressionTime := lastCompressionTime cl;
     isCompressing := isCompressing cl;
     forceFullIdeContext := forceFullIdeContext cl |}.

Definition set_forceFullIdeContext (b : bool) (cl : GeminiClient)
  : GeminiClient :=
  {| config := config cl; chat := chat cl;
     hasFailedCompressionAttempt := hasFailedCompressionAttempt cl;
     messagesSinceLastCompress := messagesSinceLastCompress cl;
     lastCompressionTime := lastCompressionTime cl;
     isCompressing := isCompressing cl;
     forceFullIdeContext := b |}.

Section Client.
Context {J : Stringifier}.
Variable svc : Services.

(** [_getEffectiveModelForCurrentTurn()]. *)
Variable model : string.

(** The [try] and [catch] blocks of [startChat]: the chat
    [new GeminiChat] builds on the initial history, or the error the
    [catch] block throws when building it fails. *)
Variable newGeminiChat : list Content -> Completion GeminiChat.

(** How the goal-extraction race ends for the contents sent. *)
Variable generateContent : list Content -> RaceOutcome.

Definition decision (b : bool) (r : string) (v : bool) : Trigger.Decision :=
  {| Trigger.shouldCompress := b; Trigger.reason := r;
     Trigger.isSafetyValve := v |}.

(** [shouldTriggerCompression]; [now] is [Date.now()]. *)
Definition shouldTriggerCompression (client : GeminiClient) (now : number)
  : Trigger.Decision :=
  if isCompressing client then
    decision false "compression_in_progress" false
  else
    let currentTokens := lastPromptTokenCount (chat client) in
    let modelLimit := tokenLimit svc model in
    let tokenThreshold := compressionTriggerTokens (config client) in
    let minMessages := compressionMinMessages (config client) in
    let utilizationThreshold :=
      compressionTriggerUtilization (config client) in
    let utilization := div currentTokens modelLimit in
    if ge utilization utilizationThreshold then
      decision true "utilization_threshold" true
    else if lt currentTokens tokenThreshold then
      decision false "below_token_threshold" false
    else if lt (messagesSinceLastCompress client) minMessages then
      decision false "message_guard_failed" false
    else
      let minTimeBetween :=
        compressionMinTimeBetweenPrompts (config client) in
      let timeSinceLastCompress :=
        div (sub now (lastCompressionTime client)) n1000 in
      if gt (lastCompressionTime client) n0
         && lt timeSinceLastCompress minTimeBetween
      then decision false "time_guard_failed" false
      else decision true "absolute_tokens" false.

(** The new thresholds of a ['less_frequent'] selection. *)
Definition cappedTokens (c : Config) : number :=
  Math_min
    (Math_round (mul (compressionTriggerTokens c)
                     (compressionFrequencyMultiplier c)))
    (of_Z 200000).

Definition cappedMessages (c : Config) : number :=
  Math_min
    (Math_round (mul (compressionMinMessages c)
                     (compressionFrequencyMultiplier c)))
    (of_Z 100).

(** [handleCompressionSelection]: the client after the call, the feedback
    emitted and the options returned. *)
Definition handleCompressionSelection (client : GeminiClient)
    (selection : option string)
  : GeminiClient * list Event * CompressionOptions :=
  match selection with
  | Some sel =>
      if String.eqb sel "disable" then
        (set_config (setCompressionInteractive false (config client)) client,
         [Feedback "Interactive compression disabled. Future compressions will be automatic."],
         createCompressionOptions (Some "auto"))
      else if String.eqb sel "less_frequent" then
        let c := config client in
        let newTokens := cappedTokens c in
        let newMessages := cappedMessages c in
        (set_config
           (setCompressionMinMessages newMessages
              (setCompressionTriggerTokens newTokens c)) client,
         [FrequencyFeedback (compressionFrequencyMultiplier c)
            (compressionTriggerTokens c) newTokens
            (compressionMinMessages c) newMessages],
         createCompressionOptions (Some "auto"))
      else if String.eqb sel "auto" then
        (client, [], createCompressionOptions (Some "auto"))
      else (client, [], createCompressionOptions (Some sel))
  | None => (client, [], createCompressionOptions (Some "auto"))
  end.

(** [emitCompressionSkipFeedback]. *)
Definition emitCompressionSkipFeedback (skipReason : option string)
  : list Event :=
  match skipReason with
  | Some r =>
      if String.eqb r "safety_valve" then
        [Feedback "Context limit reached - compressing automatically."]
      else if String.eqb r "no_goals" || String.eqb r "extraction_failed"
      then [Feedback ("Compressing context (" ++ r ++ ").")]
      else []
  | None => []
  end.

(** [tryCompressChat] up to its [await]: the lock is taken and [compress]
    is called on the current chat. *)
Definition tryCompressChat_enter (client : GeminiClient) (force : bool)
    (options : option CompressionOptions)
  : GeminiClient * Eff CompressResult :=
  let client' := set_isCompressing true client in
  (client',
   compress svc (chat client') force model (config client')
     (hasFailedCompressionAttempt client') options).

(** [startChat(extraHistory)] up to its [await]: the two flags are written
    and [getInitialChatHistory] is called. *)
Definition startChat_enter (client : GeminiClient)
    (extraHistory : list Content)
  : GeminiClient * Completion (list Content) :=
  (set_hasFailedCompressionAttempt false
     (set_forceFullIdeContext true client),
   getInitialChatHistory svc extraHistory).

(** [startChat] from the settled [getInitialChatHistory] to its end; the
    client is not touched. *)
Definition startChat_exit (pending : Completion (list Content))
  : Completion GeminiChat :=
  match pending with
  | Returns history => newGeminiChat history
  | Throws e => Throws e
  end.

(** [startChat] run without interruption: the client after the call and
    the chat it resolves with, or its rejection. *)
Definition startChat (client : GeminiClient) (extraHistory : list Content)
  : GeminiClient * Completion GeminiChat :=
  let '(client', pending) := startChat_enter client extraHistory in
  (client', startChat_exit pending).

(** The [try] body of [tryCompressChat] after [compress] has resolved with
    [r], up to the [await] of [startChat], or to its end when [startChat]
    is not called ([None]). *)
Definition afterCompress (client : GeminiClient) (force : bool)
    (r : CompressResult)
  : GeminiClient * option (Completion GeminiChat) :=
  match compressionStatus (info r) with
  | COMPRESSION_FAILED_INFLATED_TOKEN_COUNT =>
      (set_hasFailedCompressionAttempt (negb force && true) client, None)
  | COMPRESSED =>
      match newHistory r with
      | Some h =>
          let '(client', started) := startChat client h in
          (client', Some started)
      | None => (client, None)
      end
  | NOOP => (client, None)
  end.

(** The [try] body after [startChat] has settled: the new chat is taken and
    the tracking state is updated, or the rejection propagates. *)
Definition afterStartChat (client : GeminiClient)
    (started : Completion GeminiChat) (now : number)
  : GeminiClient * Completion unit :=
  match started with
  | Returns chat' =>
      ({| config := config client;
          chat := chat';
          hasFailedCompressionAttempt := hasFailedCompressionAttempt client;
          messagesSinceLastCompress := n0;
          lastCompressionTime := now;
          isCompressing := isCompressing client;
          forceFullIdeContext := true |},
       Returns tt)
  | Throws e => (client, Throws e)
  end.

(** [tryCompressChat] from the settled [compress] to its end: the [try]
    body finishes or a rejection propagates, and [finally] clears the
    lock. *)
Definition tryCompressChat_exit (client : GeminiClient) (force : bool)
    (outcome : Completion CompressResult) (now : number)
  : GeminiClient * Completion ChatCompressionInfo :=
  match outcome with
  | Returns r =>
      let '(client1, started) := afterCompress client force r in
      match started with
      | None => (set_isCompressing false client1, Returns (info r))
      | Some s =>
          let '(client2, done) := afterStartChat client1 s now in
          (set_isCompressing false client2,
           match done with
           | Returns _ => Returns (info r)
           | Throws e => Throws e
           end)
      end
  | Throws e => (set_isCompressing false client, Throws e)
  end.

(** [tryCompressChat] run without interruption. *)
Definition tryCompressChat (client : GeminiClient) (force : bool)
    (options : option CompressionOptions) (now : number)
  : GeminiClient * list Event * Completion ChatCompressionInfo :=
  let '(client1, (trace, outcome)) :=
    tryCompressChat_enter client force options in
  let '(client2, result) := tryCompressChat_exit client1 force outcome now in
  (client2, trace, result).

(* ---------------------------------------------------------------- *)
(** ** The calls of the engine, await by await *)
(* ---------------------------------------------------------------- *)

(** Where a call of [handlePostResponseCompression] stands: not yet
    started, suspended at one of its [await]s, or finished.  The [await]s
    inside [compress] are one phase, since [compress] does not touch the
    client; so are the [await] inside [startChat] and the [await] of
    [startChat] itself, between which the client is not touched either.  A
    direct call of [tryCompressChat] has the last three phases only. *)
Variant Phase : Type :=
  | NotStarted
  | AwaitingPreparation (prepared : DeliberateCompressionPrepareResult)
      (isSafetyValve : bool)
  | AwaitingSelection (extracted : list string) (isSafetyValve : bool)
  | AwaitingCompress (force : bool) (pending : Eff CompressResult)
  | AwaitingStartChat (compressed : ChatCompressionInfo)
      (pending : Completion GeminiChat)
  | Finished (result : Completion (option ChatCompressionInfo)).

Definition enterCompress (client : GeminiClient) (force : bool)
    (options : option CompressionOptions) : GeminiClient * Phase :=
  let '(client', pending) := tryCompressChat_enter client force options in
  (client', AwaitingCompress force pending).

(** One step of a call: from its start or from an [await] to the next
    [await] or to its end.  [selection] is what the prompt resolves with
    (read only by a call that awaits the prompt), [now] is the clock. *)
Definition attemptStep (client : GeminiClient) (p : Phase)
    (selection : option string) (now : number)
  : GeminiClient * Phase * list Event :=
  match p with
  | NotStarted =>
      let d := shouldTriggerCompression client now in
      if negb (Trigger.shouldCompress d) then
        (client, Finished (Returns None), [])
      else if compressionInteractive (config client) then
        (client,
         AwaitingPreparation
           (prepareDeliberateCompression (curatedHistory (chat client))
              generateContent (config client) (Trigger.isSafetyValve d))
           (Trigger.isSafetyValve d),
         [])
      else
        let '(client', p') :=
          enterCompress client true
            (Some (createCompressionOptions (Some "auto"))) in
        (client', p', [])
  | AwaitingPreparation prep isSafetyValve =>
      match prepShouldPromptUser prep, extractedGoals prep with
      | true, Some gs => (client, AwaitingSelection gs isSafetyValve, [])
      | _, _ =>
          let options :=
            createCompressionOptions
              (if truthy (selectedGoal prep) then selectedGoal prep
               else Some "auto") in
          let '(client', p') := enterCompress client true (Some options) in
          (client', p', emitCompressionSkipFeedback (skipReason prep))
      end
  | AwaitingSelection _ _ =>
      let '(client1, feedback, options) :=
        handleCompressionSelection client selection in
      let '(client2, p') := enterCompress client1 true (Some options) in
      (client2, p', feedback)
  | AwaitingCompress force (trace, outcome) =>
      match outcome with
      | Returns r =>
          let '(client1, started) := afterCompress client force r in
          match started with
          | None =>
              (set_isCompressing false client1,
               Finished (Returns (Some (info r))), trace)
          | Some s => (client1, AwaitingStartChat (info r) s, trace)
          end
      | Throws e => (set_isCompressing false client, Finished (Throws e), trace)
      end
  | AwaitingStartChat compressed started =>
      let '(client', done) := afterStartChat client started now in
      (set_isCompressing false client',
       Finished (match done with
                 | Returns _ => Returns (Some compressed)
                 | Throws e => Throws e
                 end),
       [])
  | Finished r => (client, Finished r, [])
  end.

(** A session: the client and the calls that have been started. *)
Record Session : Type := {
  client : GeminiClient;
  attempts : list Phase
}.

(** What the host does next: a top-level message comes in, the public
    entry point [tryCompressChat] is called (as the [/compress] command
    does), or a suspended call is resumed. *)
Variant Action : Type :=
  | TopLevelMessage
  | DirectCall (force : bool) (options : option CompressionOptions)
  | Resume (i : nat) (selection : option string) (now : number).

Fixpoint replaceNth {A} (i : nat) (x : A) (l : list A) : list A :=
  match l, i with
  | [], _ => []
  | _ :: t, O => x :: t
  | h :: t, S i' => h :: replaceNth i' x t
  end.

(** The host runs one call at a time up to its next [await]; a top-level
    message counts for the message guard and later reaches its own
    post-response check. *)
Definition sessionStep (s : Session) (a : Action) : Session :=
  match a with
  | TopLevelMessage =>
      {| client :=
           set_messagesSinceLastCompress
             (add (messagesSinceLastCompress (client s)) n1) (client s);
         attempts := (attempts s ++ [NotStarted])%list |}
  | DirectCall force options =>
      let '(client', p) := enterCompress (client s) force options in
      {| client := client'; attempts := (attempts s ++ [p])%list |}
  | Resume i selection now =>
      match nth_error (attempts s) i with
      | Some p =>
          let '(client', p', _) := attemptStep (client s) p selection now in
          {| client := client'; attempts := replaceNth i p' (attempts s) |}
      | None => s
      end
  end.

Definition run (s : Session) (actions : list Action) : Session :=
  fold_left sessionStep actions s.

Definition inCompress (p : Phase) : bool :=
  match p with AwaitingCompress _ _ => true | _ => false end.

(** The call is inside [tryCompressChat]: it awaits [compress] or
    [startChat]. *)
Definition inTryCompressChat (p : Phase) : bool :=
  match p with
  | AwaitingCompress _ _ | AwaitingStartChat _ _ => true
  | _ => false
  end.

(** An attempt is in progress from its trigger to its end. *)
Definition inProgress (p : Phase) : bool :=
  match p with
  | NotStarted | Finished _ => false
  | _ => true
  end.

End Client.

(* ================================================================== *)
(** * The rest of the selection flow *)
(* ================================================================== *)

Module Selection.
Record Result : Type := {
  selectedGoal : option string;
  shouldProceed : bool;
  timedOut : bool
}.
End Selection.

(** [DeliberateCompressionHandler.handleUserSelection]; [timedOut] defaults
    to [false]. *)
Definition handleUserSelection (selectedGoal : option string)
    (timedOut : option bool) : Selection.Result :=
  {| Selection.selectedGoal := selectedGoal;
     Selection.shouldProceed := true;
     Selection.timedOut := match timedOut with Some b => b | None => false end |}.

(** [DeliberateCompressionOrchestrator.completeFlow]: the options and the
    flag [goalWasSelected = !!userSelection]. *)
Definition completeFlow (prepareResult : DeliberateCompressionPrepareResult)
    (userSelection : option string) : CompressionOptions * bool :=
  (createCompressionOptions userSelection, truthy userSelection).

Section PostResponse.
Context {J : Stringifier}.
Variable svc : Services.
Variable model : string.
Variable newGeminiChat : list Content -> Completion GeminiChat.
Variable generateContent : list Content -> RaceOutcome.

(** The callback [onShowCompressionPrompt(goals, isSafetyValve)]: the
    selection it resolves with, or its rejection. *)
Variable onShowCompressionPrompt :
  list string -> bool -> Completion (option string).

(** The end of [handlePostResponseCompression]: [tryCompressChat] is called
    with [force = true], and the [ChatCompressed] event is returned only for
    the status [COMPRESSED]. *)
Definition compressAndReport (client : GeminiClient) (feedback : list Event)
    (options : CompressionOptions) (now : number)
  : GeminiClient * list Event * Completion (option ChatCompressionInfo) :=
  let '(client', trace, result) :=
    tryCompressChat svc model newGeminiChat client true (Some options) now in
  (client', (feedback ++ trace)%list,
   match result with
   | Returns compressed =>
       match compressionStatus compressed with
       | COMPRESSED => Returns (Some compressed)
       | _ => Returns None
       end
   | Throws e => Throws e
   end).

(** [handlePostResponseCompression], run without interruption: the client
    after the call, the events in order, and the [ChatCompressed] value or
    [undefined].  [now] is the clock at the trigger evaluation, [later] the
    clock when [startChat] has settled. *)
Definition handlePostResponseCompression (client : GeminiClient)
    (now later : number)
  : GeminiClient * list Event * Completion (option ChatCompressionInfo) :=
  let d := shouldTriggerCompression svc model client now in
  if negb (Trigger.shouldCompress d) then (client, [], Returns None)
  else if compressionInteractive (config client) then
    let prep :=
      prepareDeliberateCompression (curatedHistory (chat client))
        generateContent (config client) (Trigger.isSafetyValve d) in
    match prepShouldPromptUser prep, extractedGoals prep with
    | true, Some gs =>
        match onShowCompressionPrompt gs (Trigger.isSafetyValve d) with
        | Returns selection =>
            let '(client1, feedback, options) :=
              handleCompressionSelection client selection in
            compressAndReport client1 feedback options later
        | Throws e => (client, [], Throws e)
        end
    | _, _ =>
        compressAndReport client
          (emitCompressionSkipFeedback (skipReason prep))
          (createCompressionOptions
             (if truthy (selectedGoal prep) then selectedGoal prep
              else Some "auto"))
          later
    end
  else
    compressAndReport client [] (createCompressionOptions (Some "auto")) later.

End PostResponse.

(* ================================================================== *)
(** * Derived notions used in the statements *)
(* ================================================================== *)

(** The client after the user has chosen ['less_frequent']. *)
Definition lessFrequent (cl : GeminiClient) : GeminiClient :=
  fst (fst (handleCompressionSelection cl (Some "less_frequent"))).

(** The pair [(triggerTokens, minMessages)] of the configuration. *)
Definition thresholds (cl : GeminiClient) : number * number :=
  (compressionTriggerTokens (config cl), compressionMinMessages (config cl)).

(** The client with the given thresholds and multiplier configured. *)
Definition startingFrom (tokens messages multiplier : number)
    (cl : GeminiClient) : GeminiClient :=
  set_config
    {| compressionTriggerTokens := tokens;
       compressionTriggerUtilization :=
         compressionTriggerUtilization (config cl);
       compressionMinMessages := messages;
       compressionMinTimeBetweenPrompts :=
         compressionMinTimeBetweenPrompts (config cl);
       compressionFrequencyMultiplier := multiplier;
       compressionInteractive := compressionInteractive (config cl);
       compressionThreshold := compressionThreshold (config cl);
       deliberateCompressionEnabled := deliberateCompressionEnabled (config cl);
       deliberateCompressionAutoSkip :=
         deliberateCompressionAutoSkip (config cl) |} cl.

(** A user message without function response at index [r]. *)
Definition userBoundary (contents : list Content) (r : nat) : Prop :=
  exists c, nth_error contents r = Some c
            /\ role c = Some "user" /\ some_functionResponse c = false.

(** The final message is a model message without function call. *)
Definition endsWithPlainModelMessage (contents : list Content) : Prop :=
  exists c, lastContent contents = Some c
            /\ role c = Some "model" /\ some_functionCall c = false.

(** A valid boundary of the percentage strategy: 0, a user message without
    function response, or the full length when the history ends with a
    model message without function call. *)
Definition validBoundary (contents : list Content) (r : nat) : Prop :=
  r = 0
  \/ userBoundary contents r
  \/ (r = List.length contents /\ endsWithPlainModelMessage contents).

(** [k] is the index of the last user-role message. *)
Definition lastUserAt (contents : list Content) (k : nat) : Prop :=
  (exists c, nth_error contents k = Some c /\ role c = Some "user")
  /\ (forall j c, k < j -> nth_error contents j = Some c ->
                  role c <> Some "user").

Definition noUserMessage (contents : list Content) : Prop :=
  forall j c, nth_error contents j = Some c -> role c <> Some "user".

(** The options [compress] passes for a goal-directed compaction. *)
Definition sinceLastPrompt (min : option nat) : SplitPointOptions :=
  {| strategy := since_last_prompt;
     minMessagesToCompress := min;
     preserveThreshold := None |}.

(** The result object of a split at index [k]. *)
Definition splitAt (contents : list Content) (k : nat) : SplitPointResult :=
  {| splitIndex := k;
     historyToCompress := firstn k contents;
     historyToKeep := skipn k contents |}.

(** The number of positions of [s] at which [pat] occurs. *)
Fixpoint countOccurrences (pat s : string) : nat :=
  (if isSome (stripPrefix pat s) then 1 else 0)
  + match s with
    | EmptyString => 0
    | String _ s' => countOccurrences pat s'
    end.

(** A goal as [parseGoals] stores it: trimmed and not empty. *)
Definition wellFormedGoal (g : string) : Prop :=
  g <> EmptyString /\ trim g = g.

(** [compress] ends with status [NOOP] and no new history, and has called
    no collaborator: neither the summarization model nor the token
    counter. *)
Definition returnsNoop (e : Eff CompressResult) : Prop :=
  exists r, e = ([], Returns r)
            /\ compressionStatus (info r) = NOOP /\ newHistory r = None.

(** The trace holds a call to the summarization model. *)
Definition callsSummarizer (trace : list Event) : Prop :=
  exists contents instruction,
    In (SummarizationCall contents instruction) trace.

(** [config.getCompressionThreshold() ?? DEFAULT_COMPRESSION_TOKEN_THRESHOLD]. *)
Definition effectiveThreshold (config : Config) : number :=
  match compressionThreshold config with
  | Some t => t
  | None => DEFAULT_COMPRESSION_TOKEN_THRESHOLD
  end.

(** [options?.userGoal]. *)
Definition goalOf (options : option CompressionOptions) : option string :=
  match options with Some o => userGoal o | None => None end.

(** The history [compress] builds from the response of the summarization
    model and the kept messages. *)
Definition extraHistoryOf (summaryResponse : option string)
    (toKeep : list Content) : list Content :=
  textMessage "user" (match summaryResponse with Some t => t | None => "" end)
  :: textMessage "model" "Got it. Thanks for the additional context!"
  :: toKeep.

(** [history.flatMap((c) => c.parts || [])]. *)
Definition partsOf (history : list Content) : list Part :=
  flat_map (fun c => match parts c with Some ps => ps | None => [] end)
    history.

(** The parts whose tokens [compress] counts for the new history, when the
    history builder resolves. *)
Definition requestPartsOf (svc : Services) (extraHistory : list Content)
  : Completion (list Part) :=
  match getInitialChatHistory svc extraHistory with
  | Returns fullNewHistory => Returns (partsOf fullNewHistory)
  | Throws e => Throws e
  end.

(** In a session with a single call of [handlePostResponseCompression] the
    lock is held exactly while that call is inside [tryCompressChat]: while
    it awaits [compress] or [startChat]. *)
Definition lockMatches (s : Session) : Prop :=
  match attempts s with
  | [p] => isCompressing (client s) = inTryCompressChat p
  | _ => False
  end.

(** Every action resumes the call at index 0. *)
Definition resumesFirst (a : Action) : Prop :=
  match a with
  | Resume 0 _ _ => True
  | _ => False
  end.

(** The result of a failed goal extraction. *)
Definition failedExtraction (tag : string) : GoalExtractionResult :=
  {| goals := []; confidence := none; error := Some tag |}.

(** The thrown value is the one the timer of [extractGoals] rejects with, or
    one that the [catch] block cannot tell from it. *)
Definition looksLikeTimeout (e : Thrown) : bool :=
  match e with
  | ErrorObject message => String.eqb message "Timeout"
  | NonError _ => false
  end.

(* ================================================================== *)
(** * Concrete inputs used by the examples *)
(* ================================================================== *)

Module Examples.

Definition userMsg (t : string) : Content := textMessage "user" t.
Definition modelMsg (t : string) : Content := textMessage "model" t.

(** A stand-in for [JSON.stringify(content).length]: the length of the
    texts of the message plus a constant for the punctuation. *)
Definition textLength (c : Content) : nat :=
  40 + match parts c with
       | Some ps =>
           fold_right
             (fun p n =>
                (match text p with Some t => String.length t | None => 12 end
                 + n)%nat)
             0%nat ps
       | None => 0
       end.

Definition stringifier : Stringifier := textLength.

(** Ten alternating messages; the last user message is at index 8. *)
Definition tenMessages : list Content :=
  [ userMsg "msg 1"; modelMsg "response 1";
    userMsg "msg 2"; modelMsg "response 2";
    userMsg "msg 3"; modelMsg "response 3";
    userMsg "msg 4"; modelMsg "response 4";
    userMsg "msg 5"; modelMsg "response 5" ].

(** A model turn that ends in a pending function call. *)
Definition pendingCall : Content :=
  {| role := Some "model";
     parts := Some [ {| text := None; functionCall := Some "foo";
                        functionResponse := None |} ] |}.

Definition fourMessages : list Content :=
  [ userMsg "This is the first message.";
    modelMsg "This is the second message.";
    userMsg "This is the third message.";
    pendingCall ].

Definition fourGoals : string :=
  "<goals><goal>a</goal><goal>b</goal><goal>c</goal><goal>d</goal></goals>".

Definition twoGoals : string :=
  "<goals>
<goal> Implementing OAuth authentication </goal>
<goal>Fixing the login test</goal>
</goals>".

(** Collaborators: a model with a context of one million tokens, a
    summarizer that answers with a fixed snapshot and a token counter that
    always reports [count]. *)
Definition services (count : number) : Services :=
  {| tokenLimit := fun _ => of_Z 1000000;
     getChatCompressionPrompt := fun _ => "prompt";
     generateSummary := fun _ _ =>
       Returns (Some "<state_snapshot><discarded_context_summary> old chatter </discarded_context_summary></state_snapshot>");
     getInitialChatHistory := fun h => Returns h;
     calculateRequestTokenCount := fun _ => Returns count |}.

Definition chatWith (tokens : Z) : GeminiChat :=
  {| curatedHistory := tenMessages; lastPromptTokenCount := of_Z tokens |}.

Definition clientWith (tokens : Z) (messages : Z) : GeminiClient :=
  {| config := defaultConfig;
     chat := chatWith tokens;
     hasFailedCompressionAttempt := false;
     messagesSinceLastCompress := of_Z messages;
     lastCompressionTime := n0;
     isCompressing := false;
     forceFullIdeContext := false |}.

Definition newGeminiChat (h : list Content) : Completion GeminiChat :=
  Returns {| curatedHistory := h; lastPromptTokenCount := n0 |}.

(** The goal-extraction call answers with two goals. *)
Definition generateContent (_ : list Content) : RaceOutcome :=
  ResponseWins (Some twoGoals).

(** A forced compaction of the ten messages, with 1000 tokens before and
    [count] tokens reported after. *)
Definition forcedRun (count : Z) : Eff CompressResult :=
  compress (J := stringifier) (services (of_Z count)) (chatWith 1000)
    true "m" defaultConfig false None.

Definition traceOf (e : Eff CompressResult) : list Event := fst e.

Definition resultOf (e : Eff CompressResult) : CompressResult :=
  match snd e with
  | Returns r => r
  | Throws _ => noopResult n0 n0
  end.

Definition shrinkingTrace : list Event := Eval vm_compute in traceOf (forcedRun 600).
Definition shrinkingResult : CompressResult := Eval vm_compute in resultOf (forcedRun 600).

Definition equalTrace : list Event := Eval vm_compute in traceOf (forcedRun 1000).
Definition equalResult : CompressResult := Eval vm_compute in resultOf (forcedRun 1000).

(** A session over the threshold of 40000 tokens, thirty messages after
    the last compaction, far below the safety valve; one call of
    [handlePostResponseCompression] is about to start. *)
Definition session0 : Session :=
  {| client := clientWith 45000 30; attempts := [NotStarted] |}.

Definition clock : number := of_Z 1700000000000.

Definition runSession : Session -> list Action -> Session :=
  run (J := stringifier) (services (of_Z 600)) "m" newGeminiChat
    generateContent.

(** The first call evaluates the trigger, extracts the goals and shows the
    prompt. *)
Definition untilPrompt : list Action :=
  [Resume 0 None clock; Resume 0 None clock].

(** A second top-level message arrives and its call goes the same way;
    then both prompts are answered. *)
Definition secondCall : list Action :=
  [TopLevelMessage; Resume 1 None clock; Resume 1 None clock].

Definition bothAnswered : list Action :=
  [Resume 0 (Some "Fixing the login test") clock;
   Resume 1 (Some "Fixing the login test") clock].

(** A call that awaits [compress] is resumed to its end: [compress]
    settles, then [startChat]. *)
Definition finishCall (i : nat) : list Action :=
  [Resume i None clock; Resume i None clock].

(** The entry point is called twice, the second time while the first call
    awaits [compress]; then both calls are resumed. *)
Definition idleSession : Session :=
  {| client := clientWith 45000 30; attempts := [] |}.

Definition twoDirectCalls : list Action :=
  [DirectCall true None; DirectCall true None].

Definition bothResumed : list Action :=
  [Resume 0 None clock; Resume 1 None clock].

(** The status a finished call returned. *)
Definition statusOf (p : Phase) : option CompressionStatus :=
  match p with
  | Finished (Returns (Some i)) => Some (compressionStatus i)
  | _ => None
  end.

End Examples.

(* ================================================================== *)
(** * Further notions used in the statements *)
(* ================================================================== *)

(** [input] holds [body] between the tags, after [pre] and before [post]. *)
Definition tagged (open close pre body post input : string) : Prop :=
  input = (pre ++ open ++ body ++ close ++ post)%string.

(** [pat] occurs in [s] right after [pre], and nowhere further to the
    left. *)
Definition firstOccurrence (pat pre post s : string) : Prop :=
  s = (pre ++ pat ++ post)%string
  /\ forall pre' post',
       s = (pre' ++ pat ++ post')%string ->
       String.length pre <= String.length pre'.

(** The leftmost pair of tags of [input]: [open] at its first occurrence,
    and [close] at its first occurrence after that [open]. *)
Definition firstTagged (open close pre body post input : string) : Prop :=
  firstOccurrence open pre (body ++ close ++ post)%string input
  /\ firstOccurrence close body post (body ++ close ++ post)%string.

(** The contents of the [<goal>] tags of a text, from left to right: the
    content of the leftmost pair of tags, then those of the text after its
    closing tag, until no opening tag is followed by a closing tag. *)
Inductive goalTags : string -> list string -> Prop :=
  | goalTags_none : forall text,
      (forall pre body post, ~ tagged "<goal>" "</goal>" pre body post text) ->
      goalTags text []
  | goalTags_next : forall text pre body post bodies,
      firstTagged "<goal>" "</goal>" pre body post text ->
      goalTags post bodies ->
      goalTags text (body :: bodies).

(** The character [<] occurs in [s]. *)
Fixpoint hasLt (s : string) : bool :=
  match s with
  | EmptyString => false
  | String c s' => Ascii.eqb c "<"%char || hasLt s'
  end.

(** The line break of the template literal of the prompt. *)
Definition newline : string := String (ascii_of_nat 10) EmptyString.

(** The goals one per line, each indented by two spaces between its tags,
    as in the format shown by [createGoalExtractionPrompt]. *)
Fixpoint renderGoalLines (gs : list string) (tail : string) : string :=
  match gs with
  | [] => tail
  | g :: gs' =>
      ("  <goal>" ++ g ++ "</goal>" ++ newline
       ++ renderGoalLines gs' tail)%string
  end.

(** The answer the extraction prompt asks the model for: the goals on
    lines of their own inside a [<goals>] wrapper, and [<goals></goals>]
    when there are none. *)
Definition renderGoals (gs : list string) : string :=
  match gs with
  | [] => "<goals></goals>"
  | _ => ("<goals>" ++ newline ++ renderGoalLines gs "</goals>")%string
  end.

Definition nonEmpty (s : string) : bool :=
  match s with EmptyString => false | String _ _ => true end.

(** [options?.maxMessages ?? 20]. *)
Definition maxMessagesOf (options : option GoalExtractionOptions) : nat :=
  match options with
  | Some o => match maxMessages o with Some m => m | None => 20 end
  | None => 20
  end.

(** [getResponseText(response) ?? '']. *)
Definition responseText (response : option string) : string :=
  match response with Some t => t | None => "" end.

Module MoreExamples.

(** A summary response with a state snapshot. *)
Definition snapshot : string :=
  "scratch <state_snapshot><discarded_context_summary>
   old chatter about fonts
</discarded_context_summary></state_snapshot>".

(** A response whose only goal tag is never closed. *)
Definition unclosed : string := "<goals><goal>Fix the parser".

(** Collaborators whose summarization model rejects. *)
Definition failingServices : Services :=
  {| tokenLimit := fun _ => of_Z 1000000;
     getChatCompressionPrompt := fun _ => "prompt";
     generateSummary := fun _ _ => Throws (ErrorObject "503");
     getInitialChatHistory := fun h => Returns h;
     calculateRequestTokenCount := fun _ => Returns (of_Z 600) |}.

(** Collaborators whose history builder rejects. *)
Definition noHistoryServices : Services :=
  {| tokenLimit := fun _ => of_Z 1000000;
     getChatCompressionPrompt := fun _ => "prompt";
     generateSummary := fun _ _ => Returns (Some "summary");
     getInitialChatHistory := fun _ => Throws (ErrorObject "no environment");
     calculateRequestTokenCount := fun _ => Returns (of_Z 600) |}.

Definition failingTrace : list Event :=
  Eval vm_compute in fst (compress (J := Examples.stringifier) failingServices (Examples.chatWith 1000) true "m" defaultConfig false None).

(** A client over half of the context window whose summary comes back
    larger; the attempt is not forced. *)
Definition inflatedRun : GeminiClient * list Event * Completion ChatCompressionInfo :=
  Eval vm_compute in tryCompressChat (J := Examples.stringifier) (Examples.services (of_Z 700000)) "m" Examples.newGeminiChat (Examples.clientWith 600000 30) false None Examples.clock.

Definition inflatedClient : GeminiClient := fst (fst inflatedRun).



(** A chat that cannot be built. *)
Definition brokenChat (_ : list Content) : Completion GeminiChat :=
  Throws (ErrorObject "Failed to initialize chat: no tools").

(** A prompt that answers with the first goal, and one that rejects. *)
Definition firstGoal (gs : list string) (_ : bool) : Completion (option string) :=
  Returns (hd_error gs).

Definition closedPrompt (_ : list string) (_ : bool) : Completion (option string) :=
  Throws (ErrorObject "prompt closed").

End MoreExamples.

(** The weight of the messages before index [i], as the loop of the
    percentage strategy accumulates it. *)
Definition weightBefore {J : Stringifier} (contents : list Content) (i : nat)
  : number :=
  fold_left add (map charCount (firstn i contents)) n0.

(** [cumulativeCharCount >= targetCharCount] at index [i]. *)
Definition reachesTarget {J : Stringifier} (contents : list Content)
    (fraction : number) (i : nat) : bool :=
  ge (weightBefore contents i) (mul (totalCharCount contents) fraction).

(** [options.preserveThreshold ?? 0.3]. *)
Definition thresholdOf (options : SplitPointOptions) : number :=
  match preserveThreshold options with
  | Some p => p
  | None => n0_3
  end.

(** [options?.preserveStrategy ?? 'percentage']. *)
Definition strategyOf (options : option CompressionOptions) : Strategy :=
  match options with
  | Some o => match preserveStrategy o with Some s => s | None => percentage end
  | None => percentage
  end.

(** [1 - (options?.preserveThreshold ?? COMPRESSION_PRESERVE_THRESHOLD)]. *)
Definition fractionOf (options : option CompressionOptions) : number :=
  sub n1 match options with
         | Some o => match optPreserveThreshold o with
                     | Some p => p
                     | None => COMPRESSION_PRESERVE_THRESHOLD
                     end
         | None => COMPRESSION_PRESERVE_THRESHOLD
         end.

(** The fraction is outside the open interval the legacy split accepts. *)
Definition outOfRange (fraction : number) : bool :=
  le fraction n0 || ge fraction n1.

(** The index at which a goal-directed compaction cuts the history: the
    last user message when at least five messages precede it, the index of
    the percentage strategy at 70% otherwise. *)
Definition goalDirectedIndex {J : Stringifier} (history : list Content)
  : nat :=
  let k := lastUserMessageIndex history (List.length history) in
  if (5 <=? k)%Z then Z.to_nat k
  else percentageSplitIndex history (sub n1 COMPRESSION_PRESERVE_THRESHOLD).

(** The text of the summary response, [''] when there is none. *)
Definition summaryText (summaryResponse : option string) : string :=
  match summaryResponse with Some t => t | None => "" end.

(** The three events of an attempt that reaches its end. *)
Definition fullTrace (svc : Services) (toCompress toKeep : list Content)
    (options : option CompressionOptions) (requestParts : list Part)
    (original new : number) : list Event :=
  [ SummarizationCall (toCompress ++ [summaryRequest])
      (getChatCompressionPrompt svc (goalOf options));
    TokenCountCall requestParts;
    ChatCompressionLogged original new (truthy (goalOf options))
      (List.length toKeep) (List.length toCompress) (strategyOf options) ].


(** The two clients differ in their configuration at most. *)
Definition sameButConfig (cl cl' : GeminiClient) : Prop :=
  chat cl' = chat cl
  /\ hasFailedCompressionAttempt cl' = hasFailedCompressionAttempt cl
  /\ messagesSinceLastCompress cl' = messagesSinceLastCompress cl
  /\ lastCompressionTime cl' = lastCompressionTime cl
  /\ isCompressing cl' = isCompressing cl
  /\ forceFullIdeContext cl' = forceFullIdeContext cl.


(** The selection is one of the words the prompt offers besides the
    goals, or [null]; each is handled as ['auto']. *)
Definition isKeyword (selection : option string) : bool :=
  match selection with
  | None => true
  | Some s =>
      String.eqb s "disable" || String.eqb s "less_frequent"
      || String.eqb s "auto"
  end.

(** The reasons [prepareDeliberateCompression] can give for not
    prompting. *)
Definition skipReasons : list string :=
  ["disabled"; "safety_valve"; "extraction_timeout"; "no_goals";
   "auto_skip_enabled"].

(** The reasons of a trigger decision. *)
Definition triggerReasons : list string :=
  ["compression_in_progress"; "utilization_threshold";
   "below_token_threshold"; "message_guard_failed"; "time_guard_failed";
   "absolute_tokens"].

(* ================================================================== *)
(** * Properties of JavaScript numbers *)
(* ================================================================== *)

Section Numbers.

Lemma SFcompare_antisym (x y : number) :
  SFcompare y x = option_map CompOpp (SFcompare x y).
Proof.
  destruct x as [sx|sx| |sx mx ex], y as [sy|sy| |sy my ey]; simpl;
    try reflexivity;
    try (destruct sx; reflexivity);
    try (destruct sy; reflexivity);
    try (destruct sx, sy; reflexivity).
  destruct sx, sy; simpl; try reflexivity;
    rewrite (Z.compare_antisym ey ex);
    destruct (ey ?= ex)%Z; simpl; try reflexivity;
    rewrite (Pos.compare_cont_antisym mx my Eq); simpl;
    try rewrite CompOpp_involutive; reflexivity.
Qed.

Lemma lt_irrefl (a : number) : lt a a = false.
Proof.
  unfold lt, SFltb.
  pose proof (SFcompare_antisym a a) as H.
  destruct (SFcompare a a) as [[]|]; simpl in H; congruence.
Qed.

Lemma lt_not_ge (a b : number) : lt a b = true -> ge a b = false.
Proof.
  unfold lt, ge, SFltb, SFleb. rewrite (SFcompare_antisym a b).
  destruct (SFcompare a b) as [[]|]; simpl; congruence.
Qed.

Lemma lt_not_le_flip (a b : number) : lt a b = true -> le b a = false.
Proof. exact (lt_not_ge a b). Qed.

Lemma SFcompare_not_NaN (a b : number) :
  isNaN a = false -> isNaN b = false -> SFcompare a b <> None.
Proof.
  destruct a, b; simpl; intros; try discriminate.
Qed.

Lemma not_gt_le (a b : number) :
  isNaN a = false -> isNaN b = false -> gt a b = false -> le a b = true.
Proof.
  unfold gt, le, SFltb, SFleb. intros Ha Hb.
  pose proof (SFcompare_not_NaN a b Ha Hb) as Hc.
  rewrite (SFcompare_antisym a b).
  destruct (SFcompare a b) as [[]|]; simpl; congruence.
Qed.

Lemma le_not_gt (a b : number) : le a b = true -> gt a b = false.
Proof.
  unfold gt, le, SFltb, SFleb. rewrite (SFcompare_antisym a b).
  destruct (SFcompare a b) as [[]|]; simpl; congruence.
Qed.

(** [Math.min] never returns more than its second argument. *)
Lemma Math_min_not_gt_r (a b : number) : gt (Math_min a b) b = false.
Proof.
  unfold gt, Math_min.
  destruct (isNaN a || isNaN b) eqn:Hnan.
  - destruct b; reflexivity.
  - unfold Math_min_step at 1.
    set (lowest := Math_min_step Infinity a).
    destruct b as [[]| | |]; try (destruct lowest as [[]| | |]);
      try apply lt_irrefl;
      match goal with
      | |- context [if lt ?x ?y then _ else _] =>
          destruct (lt x y) eqn:E; [apply lt_irrefl | exact E]
      end.
Qed.

(** [Math.round] rounds half-way cases towards [+Infinity]. *)
Example Math_round_examples :
  Math_round (of_dyadic 75 (-1)) = of_Z 38
  /\ Math_round (of_dyadic 171 (-1)) = of_Z 86
  /\ Math_round (of_dyadic 5 (-1)) = of_Z 3
  /\ Math_round (of_dyadic (-5) (-1)) = of_Z (-2)
  /\ Math_round (of_dyadic (-1) (-1)) = S754_zero true
  /\ Math_round (of_dyadic 9007199254740991 (-54)) = S754_zero false
  /\ Math_round (of_Z 129) = of_Z 129
  /\ Math_round NaN = NaN
  /\ Math_round Infinity = Infinity.
Proof. repeat split; vm_compute; reflexivity. Qed.

Example Math_min_examples :
  Math_min (of_Z 202500) (of_Z 200000) = of_Z 200000
  /\ Math_min (of_Z 60000) (of_Z 200000) = of_Z 60000
  /\ Math_min Infinity (of_Z 100) = of_Z 100
  /\ Math_min NaN (of_Z 100) = NaN
  /\ Math_min (S754_zero false) (S754_zero true) = S754_zero true.
Proof. repeat split; vm_compute; reflexivity. Qed.

End Numbers.

(* ================================================================== *)
(** * TriggerEvaluator *)
(* ================================================================== *)

Section TriggerEvaluator.
Variable svc : Services.
Variable model : string.

Let utilization (cl : GeminiClient) : number :=
  div (lastPromptTokenCount (chat cl)) (tokenLimit svc model).

Let elapsedSeconds (cl : GeminiClient) (now : number) : number :=
  div (sub now (lastCompressionTime cl)) n1000.

(** The two scenarios of the trigger evaluator: the safety valve at 52%
    utilization with two messages since the last compaction, and the
    message guard at 45000 tokens with twenty messages. *)
Example safety_valve_scenario :
  shouldTriggerCompression (Examples.services n0) "m"
    (Examples.clientWith 520000 2) (of_Z 1700000000000)
  = decision true "utilization_threshold" true.
Proof. vm_compute. reflexivity. Qed.

Example message_guard_scenario :
  shouldTriggerCompression (Examples.services n0) "m"
    (Examples.clientWith 45000 20) (of_Z 1700000000000)
  = decision false "message_guard_failed" false.
Proof. vm_compute. reflexivity. Qed.

(** C2. [shouldTriggerCompression] decides by first match, in the order:
    compaction in progress, utilization safety valve, token threshold,
    message guard, time guard, otherwise trigger.  In particular, when no
    compaction is in progress and [currentTokens / modelLimit >=
    triggerUtilization], the decision is [shouldCompress = true],
    [isSafetyValve = true], [reason = 'utilization_threshold'], whatever
    the message and time guards say. *)
Theorem shouldTriggerCompression_first_match
    (cl : GeminiClient) (now : number) :
  let d := shouldTriggerCompression svc model cl now in
  let cfg := config cl in
  (isCompressing cl = true ->
     d = decision false "compression_in_progress" false)
  /\ (isCompressing cl = false ->
      ge (utilization cl) (compressionTriggerUtilization cfg) = true ->
      d = decision true "utilization_threshold" true)
  /\ (isCompressing cl = false ->
      ge (utilization cl) (compressionTriggerUtilization cfg) = false ->
      lt (lastPromptTokenCount (chat cl)) (compressionTriggerTokens cfg) = true ->
      d = decision false "below_token_threshold" false)
  /\ (isCompressing cl = false ->
      ge (utilization cl) (compressionTriggerUtilization cfg) = false ->
      lt (lastPromptTokenCount (chat cl)) (compressionTriggerTokens cfg) = false ->
      lt (messagesSinceLastCompress cl) (compressionMinMessages cfg) = true ->
      d = decision false "message_guard_failed" false)
  /\ (isCompressing cl = false ->
      ge (utilization cl) (compressionTriggerUtilization cfg) = false ->
      lt (lastPromptTokenCount (chat cl)) (compressionTriggerTokens cfg) = false ->
      lt (messagesSinceLastCompress cl) (compressionMinMessages cfg) = false ->
      gt (lastCompressionTime cl) n0 = true ->
      lt (elapsedSeconds cl now) (compressionMinTimeBetweenPrompts cfg) = true ->
      d = decision false "time_guard_failed" false)
  /\ (isCompressing cl = false ->
      ge (utilization cl) (compressionTriggerUtilization cfg) = false ->
      lt (lastPromptTokenCount (chat cl)) (compressionTriggerTokens cfg) = false ->
      lt (messagesSinceLastCompress cl) (compressionMinMessages cfg) = false ->
      (gt (lastCompressionTime cl) n0 = false
       \/ lt (elapsedSeconds cl now) (compressionMinTimeBetweenPrompts cfg) = false) ->
      d = decision true "absolute_tokens" false).
Proof.
  subst utilization elapsedSeconds. cbv zeta.
  unfold shouldTriggerCompression.
  repeat split; intros;
    repeat match goal with
           | H : ?b = _ |- context [?b] => rewrite H
           end; try reflexivity.
  match goal with H : _ \/ _ |- _ => destruct H as [H|H]; rewrite H end.
  - reflexivity.
  - rewrite andb_false_r. reflexivity.
Qed.

End TriggerEvaluator.

(** The safety valve on the scenario of 520000 tokens of 1000000 with two
    messages since the last compaction. *)
Lemma shouldTriggerCompression_first_match_witness :
  shouldTriggerCompression (Examples.services n0) "m"
    (Examples.clientWith 520000 2) (of_Z 1700000000000)
  = decision true "utilization_threshold" true.
Proof.
  apply (proj1 (proj2 (shouldTriggerCompression_first_match
                         (Examples.services n0) "m"
                         (Examples.clientWith 520000 2)
                         (of_Z 1700000000000))));
    vm_compute; reflexivity.
Defined.

(* ================================================================== *)
(** * SelectionCoordinator: the ['less_frequent'] opt-out *)
(* ================================================================== *)

Section LessFrequent.

Lemma lessFrequent_thresholds (cl : GeminiClient) :
  thresholds (lessFrequent cl)
  = (cappedTokens (config cl), cappedMessages (config cl)).
Proof. reflexivity. Qed.

Lemma lessFrequent_multiplier (cl : GeminiClient) :
  compressionFrequencyMultiplier (config (lessFrequent cl))
  = compressionFrequencyMultiplier (config cl).
Proof. reflexivity. Qed.

(** The selection is then treated as ['auto']: the options are those of
    [createCompressionOptions('auto')]. *)
Lemma lessFrequent_options (cl : GeminiClient) :
  snd (handleCompressionSelection cl (Some "less_frequent"))
  = createCompressionOptions (Some "auto").
Proof. reflexivity. Qed.

(** C5. A ['less_frequent'] selection multiplies [triggerTokens] and
    [minMessages] by the configured multiplier, rounds them and caps them
    at 200000 tokens and 100 messages.  From (40000, 25) with multiplier
    1.5 repeated selections give (60000, 38), (90000, 57), (135000, 86),
    and no sequence of selections gives values above (200000, 100). *)
Theorem less_frequent_multiplies_rounds_and_caps (cl : GeminiClient) :
  let cfg := config cl in
  let m := compressionFrequencyMultiplier cfg in
  thresholds (lessFrequent cl)
  = (Math_min (Math_round (mul (compressionTriggerTokens cfg) m))
       (of_Z 200000),
     Math_min (Math_round (mul (compressionMinMessages cfg) m))
       (of_Z 100))
  /\ (forall n : nat,
        let cl' := Nat.iter (S n) lessFrequent cl in
        gt (fst (thresholds cl')) (of_Z 200000) = false
        /\ gt (snd (thresholds cl')) (of_Z 100) = false)
  /\ (let start := startingFrom (of_Z 40000) (of_Z 25) n1_5 cl in
      thresholds (Nat.iter 1 lessFrequent start) = (of_Z 60000, of_Z 38)
      /\ thresholds (Nat.iter 2 lessFrequent start) = (of_Z 90000, of_Z 57)
      /\ thresholds (Nat.iter 3 lessFrequent start) = (of_Z 135000, of_Z 86)
      /\ thresholds (Nat.iter 4 lessFrequent start) = (of_Z 200000, of_Z 100)).
Proof.
  cbv zeta. split; [reflexivity|]. split.
  - intro n.
    change (Nat.iter (S n) lessFrequent cl)
      with (lessFrequent (Nat.iter n lessFrequent cl)).
    rewrite lessFrequent_thresholds. cbn [fst snd].
    split; apply Math_min_not_gt_r.
  - repeat split; vm_compute; reflexivity.
Qed.

End LessFrequent.

(* ================================================================== *)
(** * SplitPlanner *)
(* ================================================================== *)

Section SplitPlanner.
Context {J : Stringifier}.

Lemma role_is_true (r : string) (c : Content) :
  role_is r c = true <-> role c = Some r.
Proof.
  unfold role_is. destruct (role c) as [r'|].
  - rewrite String.eqb_eq. split; congruence.
  - split; discriminate.
Qed.

Lemma role_is_false (r : string) (c : Content) :
  role_is r c = false <-> role c <> Some r.
Proof.
  rewrite <- role_is_true. destruct (role_is r c); split; congruence.
Qed.

Lemma isSplitCandidate_true (c : Content) :
  isSplitCandidate c = true
  <-> role c = Some "user" /\ some_functionResponse c = false.
Proof.
  unfold isSplitCandidate.
  rewrite andb_true_iff, negb_true_iff, role_is_true. reflexivity.
Qed.

(** ** The backward scan of [since-last-prompt] *)

Lemma lastUserMessageIndex_none (contents : list Content) (n : nat) :
  (forall j c, j < n -> nth_error contents j = Some c ->
               role c <> Some "user") ->
  lastUserMessageIndex contents n = (-1)%Z.
Proof.
  induction n as [|i IH]; intro Hno; simpl; [reflexivity|].
  destruct (nth_error contents i) as [c|] eqn:Hi.
  - assert (Hc : role_is "user" c = false)
      by (apply role_is_false; apply (Hno i); [lia | exact Hi]).
    rewrite Hc. apply IH. intros j c' Hj. apply Hno. lia.
  - apply IH. intros j c' Hj. apply Hno. lia.
Qed.

Lemma lastUserMessageIndex_found (contents : list Content) (n k : nat) :
  k < n ->
  (exists c, nth_error contents k = Some c /\ role c = Some "user") ->
  (forall j c, k < j -> nth_error contents j = Some c ->
               role c <> Some "user") ->
  lastUserMessageIndex contents n = Z.of_nat k.
Proof.
  intros Hk [c [Hc Hu]] Hlast.
  induction n as [|i IH]; [lia|]. simpl.
  destruct (Nat.eq_dec i k) as [->|Hne].
  - rewrite Hc. apply role_is_true in Hu. rewrite Hu. reflexivity.
  - assert (Hlt : k < i) by lia.
    destruct (nth_error contents i) as [c'|] eqn:Hi.
    + assert (Hc' : role_is "user" c' = false)
        by (apply role_is_false; exact (Hlast i c' Hlt Hi)).
      rewrite Hc'. apply IH. exact Hlt.
    + apply IH. exact Hlt.
Qed.

Lemma lastUserAt_in_range (contents : list Content) (k : nat) :
  lastUserAt contents k -> k < List.length contents.
Proof.
  intros [[c [Hc _]] _]. apply nth_error_Some. congruence.
Qed.

Lemma since_last_prompt_at (contents : list Content) (k min : nat) :
  lastUserAt contents k ->
  findCompressSplitPoint contents (inr (sinceLastPrompt (Some min)))
  = if (k =? 0)%nat || (k <? min)%nat then Returns RetNull
    else Returns (RetResult (splitAt contents k)).
Proof.
  intro Hk. pose proof (lastUserAt_in_range contents k Hk) as Hlen.
  destruct Hk as [Hu Hlast].
  unfold findCompressSplitPoint, sinceLastPrompt. cbn [strategy minMessagesToCompress].
  rewrite (lastUserMessageIndex_found contents _ k Hlen Hu Hlast).
  destruct (Z.leb_spec (Z.of_nat k) 0) as [H0|H0].
  - assert (k = 0) by lia. subst k. reflexivity.
  - destruct (Nat.eqb_spec k 0) as [->|_]; [lia|]. cbn [orb].
    destruct (Z.ltb_spec (Z.of_nat k) (Z.of_nat min)) as [Hm|Hm];
      destruct (Nat.ltb_spec k min) as [Hm'|Hm']; try lia; try reflexivity.
    rewrite Nat2Z.id. reflexivity.
Qed.

Lemma since_last_prompt_no_user (contents : list Content) (min : option nat) :
  noUserMessage contents ->
  findCompressSplitPoint contents (inr (sinceLastPrompt min))
  = Returns RetNull.
Proof.
  intro Hno. unfold findCompressSplitPoint, sinceLastPrompt. cbn [strategy].
  rewrite lastUserMessageIndex_none; [reflexivity|].
  intros j c _. apply Hno.
Qed.

(** C3. With strategy ['since-last-prompt'] and [minMessagesToCompress =
    5], when [k] is the index of the last user-role message the result has
    [splitIndex = k], the first [k] messages to compress and the messages
    from [k] on to keep if and only if [k >= 5]; when fewer than 5
    messages precede it (in particular when [k <= 0]) or no user message
    exists, the result is [null]. *)
Theorem since_last_prompt_split (contents : list Content) :
  let result :=
    findCompressSplitPoint contents (inr (sinceLastPrompt (Some 5))) in
  (forall k, lastUserAt contents k ->
     (5 <= k -> result = Returns (RetResult (splitAt contents k)))
     /\ (k < 5 -> result = Returns RetNull)
     /\ ((exists r, result = Returns (RetResult r) /\ splitIndex r = k)
         <-> 5 <= k))
  /\ (noUserMessage contents -> result = Returns RetNull).
Proof.
  cbv zeta. split.
  - intros k Hk. rewrite (since_last_prompt_at contents k 5 Hk).
    destruct (Nat.eqb_spec k 0) as [->|Hk0]; cbn [orb].
    + repeat split; try lia; try reflexivity.
      intros [r [Hr _]]. discriminate.
    + destruct (Nat.ltb_spec k 5) as [H5|H5].
      * repeat split; try lia; try reflexivity.
        intros [r [Hr _]]. discriminate.
      * repeat split; try lia; try reflexivity.
        intros _. exists (splitAt contents k). split; reflexivity.
  - apply since_last_prompt_no_user.
Qed.

(** ** The forward scan of the percentage strategy *)

Lemma splitLoop_boundary (target : number) (contents : list Content) :
  forall (rest pre : list Content) (i last : nat) (cumulative : number),
    contents = (pre ++ rest)%list ->
    List.length pre = i ->
    (last = 0 \/ userBoundary contents last) ->
    match splitLoop target rest i last cumulative with
    | LoopReturn r => userBoundary contents r
    | LoopDone l => l = 0 \/ userBoundary contents l
    end.
Proof.
  induction rest as [|c rest' IH]; intros pre i last cumulative Hc Hi Hlast.
  - exact Hlast.
  - assert (Hnth : nth_error contents i = Some c).
    { subst contents i. rewrite nth_error_app2 by lia.
      rewrite Nat.sub_diag. reflexivity. }
    assert (Hc' : contents = ((pre ++ [c]) ++ rest')%list)
      by (rewrite <- app_assoc; exact Hc).
    assert (Hi' : List.length (pre ++ [c]) = i + 1)
      by (rewrite length_app; simpl; lia).
    simpl. destruct (isSplitCandidate c) eqn:Hcand.
    + assert (Hb : userBoundary contents i).
      { exists c. split; [exact Hnth|]. apply isSplitCandidate_true. exact Hcand. }
      destruct (ge cumulative target).
      * exact Hb.
      * apply (IH (pre ++ [c])%list); auto.
    + apply (IH (pre ++ [c])%list); auto.
Qed.

Lemma safeToCompressEverything_true (contents : list Content) :
  safeToCompressEverything contents = true
  <-> endsWithPlainModelMessage contents.
Proof.
  unfold safeToCompressEverything, endsWithPlainModelMessage.
  destruct (lastContent contents) as [c|].
  - rewrite andb_true_iff, negb_true_iff, role_is_true. split.
    + intros [Hr Hf]. exists c. auto.
    + intros [c' [Hc' H]]. injection Hc' as <-. exact H.
  - split; [discriminate|]. intros [c [Hc _]]. discriminate.
Qed.

Lemma percentageSplitIndex_valid (contents : list Content) (fraction : number) :
  validBoundary contents (percentageSplitIndex contents fraction).
Proof.
  unfold percentageSplitIndex.
  pose proof (splitLoop_boundary
                (mul (totalCharCount contents) fraction) contents
                contents [] 0 0 n0 eq_refl eq_refl (or_introl eq_refl)) as H.
  destruct (splitLoop _ contents 0 0 n0) as [r|l].
  - right; left; exact H.
  - destruct (safeToCompressEverything contents) eqn:Hs.
    + right; right. split; [reflexivity|].
      apply safeToCompressEverything_true; exact Hs.
    + destruct H as [->|H]; [left; reflexivity | right; left; exact H].
Qed.

Lemma validBoundary_in_range (contents : list Content) (r : nat) :
  validBoundary contents r -> r <= List.length contents.
Proof.
  intros [->|[[c [Hc _]]|[-> _]]]; try lia.
  apply Nat.lt_le_incl. apply nth_error_Some. congruence.
Qed.

(** The message that opens the kept portion after a valid split is the
    first message of the history or a user message without function
    response. *)
Lemma validBoundary_kept (contents : list Content) (r : nat) :
  validBoundary contents r ->
  forall c rest, skipn r contents = c :: rest ->
    r = 0 \/ (role c = Some "user" /\ some_functionResponse c = false).
Proof.
  intros Hv c rest Hs.
  assert (Hn : nth_error contents r = Some c).
  { rewrite <- (Nat.add_0_r r), <- nth_error_skipn, Hs. reflexivity. }
  destruct Hv as [->|[[c' [Hc' H]]|[-> _]]].
  - left; reflexivity.
  - right. congruence.
  - rewrite skipn_all in Hs. discriminate.
Qed.

(** C8. The split index of the percentage strategy, in the legacy numeric
    form and in the options form, is a valid boundary: 0, or the index of a
    user message with no part carrying a function response, or the full
    length of the history, the latter only when the final message is a
    model message with no part carrying a function call.  So the kept
    portion starts with the whole history or with such a user message. *)
Theorem percentage_split_valid_boundary (contents : list Content) :
  (forall fraction : number,
     le fraction n0 || ge fraction n1 = false ->
     exists r,
       findCompressSplitPoint contents (inl fraction) = Returns (RetNumber r)
       /\ validBoundary contents r
       /\ (forall c rest, skipn r contents = c :: rest ->
              r = 0 \/ (role c = Some "user"
                        /\ some_functionResponse c = false)))
  /\ (forall options : SplitPointOptions,
       strategy options = percentage ->
       exists r,
         findCompressSplitPoint contents (inr options)
         = Returns (RetResult (splitAt contents r))
         /\ validBoundary contents r
         /\ (forall c rest, skipn r contents = c :: rest ->
                r = 0 \/ (role c = Some "user"
                          /\ some_functionResponse c = false))).
Proof.
  split.
  - intros fraction Hf.
    exists (percentageSplitIndex contents fraction).
    unfold findCompressSplitPoint. rewrite Hf.
    split; [reflexivity|].
    pose proof (percentageSplitIndex_valid contents fraction) as Hv.
    split; [exact Hv | exact (validBoundary_kept contents _ Hv)].
  - intros options Hs.
    set (fraction :=
           sub n1 (match preserveThreshold options with
                   | Some p => p
                   | None => n0_3
                   end)).
    exists (percentageSplitIndex contents fraction).
    pose proof (percentageSplitIndex_valid contents fraction) as Hv.
    split; [|split; [exact Hv | exact (validBoundary_kept contents _ Hv)]].
    unfold findCompressSplitPoint, percentageSplitIndex. rewrite Hs.
    fold fraction.
    destruct (splitLoop _ contents 0 0 n0) as [r|l]; [reflexivity|].
    destruct (safeToCompressEverything contents); [|reflexivity].
    unfold splitAt. rewrite firstn_all, skipn_all. reflexivity.
Qed.

(** C10. The legacy numeric form throws when [fraction <= 0] or
    [fraction >= 1]; for a fraction strictly between 0 and 1 it does not
    throw and returns a number, an index into the history or its
    length. *)
Theorem legacy_fraction_precondition (contents : list Content)
    (fraction : number) :
  (le fraction n0 = true \/ ge fraction n1 = true ->
     findCompressSplitPoint contents (inl fraction)
     = Throws (ErrorObject "Fraction must be between 0 and 1"))
  /\ (lt n0 fraction = true -> lt fraction n1 = true ->
      exists n,
        findCompressSplitPoint contents (inl fraction) = Returns (RetNumber n)
        /\ n <= List.length contents).
Proof.
  unfold findCompressSplitPoint. split.
  - intros [H|H]; rewrite H; [|rewrite orb_true_r]; reflexivity.
  - intros H0 H1.
    rewrite (lt_not_le_flip _ _ H0), (lt_not_ge _ _ H1). cbn [orb].
    exists (percentageSplitIndex contents fraction).
    split; [reflexivity|].
    apply validBoundary_in_range, percentageSplitIndex_valid.
Qed.

End SplitPlanner.

(** The goal-based scenario: ten messages, the last user message at index
    8; eight messages are compressed and two are kept. *)
Lemma since_last_prompt_split_witness :
  findCompressSplitPoint (J := Examples.stringifier) Examples.tenMessages
    (inr (sinceLastPrompt (Some 5)))
  = Returns (RetResult (splitAt Examples.tenMessages 8))
  /\ List.length (firstn 8 Examples.tenMessages) = 8
  /\ List.length (skipn 8 Examples.tenMessages) = 2.
Proof.
  split; [|split; reflexivity].
  assert (H8 : lastUserAt Examples.tenMessages 8).
  { split.
    - eexists. split; reflexivity.
    - intros j c Hj Hc.
      destruct j as [|[|[|[|[|[|[|[|[|[|j]]]]]]]]]]; try lia.
      + vm_compute in Hc. injection Hc as <-. discriminate.
      + destruct j; discriminate Hc. }
  apply (proj1 (proj1 (since_last_prompt_split
                         (J := Examples.stringifier) Examples.tenMessages)
                  8 H8)).
  lia.
Defined.

(** The history whose last message holds a pending function call, at
    fraction one half: the split falls on the user message at index 2. *)
Lemma percentage_split_valid_boundary_witness :
  exists r,
    findCompressSplitPoint (J := Examples.stringifier) Examples.fourMessages
      (inl n0_5) = Returns (RetNumber r)
    /\ validBoundary Examples.fourMessages r
    /\ (forall c rest, skipn r Examples.fourMessages = c :: rest ->
           r = 0 \/ (role c = Some "user" /\ some_functionResponse c = false)).
Proof.
  apply (proj1 (percentage_split_valid_boundary
                  (J := Examples.stringifier) Examples.fourMessages) n0_5).
  vm_compute. reflexivity.
Defined.

Example percentage_split_pending_call :
  findCompressSplitPoint (J := Examples.stringifier) Examples.fourMessages
    (inl n0_5) = Returns (RetNumber 2).
Proof. vm_compute. reflexivity. Qed.

(** The empty history at fraction one half: no error, index 0. *)
Lemma legacy_fraction_precondition_witness :
  exists n,
    findCompressSplitPoint (J := Examples.stringifier) [] (inl n0_5)
    = Returns (RetNumber n)
    /\ n <= 0.
Proof.
  apply (proj2 (legacy_fraction_precondition
                  (J := Examples.stringifier) [] n0_5));
    vm_compute; reflexivity.
Defined.

Example legacy_fraction_zero_throws :
  findCompressSplitPoint (J := Examples.stringifier) [] (inl n0)
  = Throws (ErrorObject "Fraction must be between 0 and 1").
Proof. reflexivity. Qed.

Example legacy_fraction_one_throws :
  findCompressSplitPoint (J := Examples.stringifier) [] (inl n1)
  = Throws (ErrorObject "Fraction must be between 0 and 1").
Proof. reflexivity. Qed.

(* ================================================================== *)
(** * GoalExtractor *)
(* ================================================================== *)

Section Strings.

Lemma trimStart_head (s : string) :
  match trimStart s with
  | EmptyString => True
  | String c _ => isWhiteSpace c = false
  end.
Proof.
  induction s as [|c s IH]; simpl; [exact I|].
  destruct (isWhiteSpace c) eqn:Hc; [exact IH | exact Hc].
Qed.

Lemma trimEnd_idempotent (s : string) : trimEnd (trimEnd s) = trimEnd s.
Proof.
  induction s as [|c s IH]; simpl; [reflexivity|].
  destruct (trimEnd s) as [|d t] eqn:Ht.
  - destruct (isWhiteSpace c) eqn:Hc; simpl; [reflexivity|].
    rewrite Hc. reflexivity.
  - simpl in IH |- *. rewrite IH. reflexivity.
Qed.

Lemma trimEnd_head (c : ascii) (s : string) :
  isWhiteSpace c = false ->
  exists t, trimEnd (String c s) = String c t.
Proof.
  intro Hc. simpl. destruct (trimEnd s); [rewrite Hc|]; eexists; reflexivity.
Qed.

Lemma trim_idempotent (s : string) : trim (trim s) = trim s.
Proof.
  unfold trim. pose proof (trimStart_head s) as Hh.
  destruct (trimStart s) as [|c t]; [reflexivity|].
  destruct (trimEnd_head c t Hh) as [u Hu].
  rewrite Hu. simpl trimStart. rewrite Hh, <- Hu.
  apply trimEnd_idempotent.
Qed.

Lemma stripPrefix_length (p s r : string) :
  stripPrefix p s = Some r ->
  String.length r + String.length p = String.length s.
Proof.
  revert s. induction p as [|a p IH]; intros s H; simpl in H.
  - injection H as <-. simpl. lia.
  - destruct s as [|b s]; [discriminate|].
    destruct (Ascii.eqb a b); [|discriminate].
    apply IH in H. simpl. lia.
Qed.

Lemma countOccurrences_tail (q : string) (c : ascii) (s : string) :
  countOccurrences q s <= countOccurrences q (String c s).
Proof. simpl. lia. Qed.

Lemma stripPrefix_count (q p s r : string) :
  stripPrefix p s = Some r ->
  countOccurrences q r <= countOccurrences q s.
Proof.
  revert s. induction p as [|a p IH]; intros s H; simpl in H.
  - injection H as <-. lia.
  - destruct s as [|b s]; [discriminate|].
    destruct (Ascii.eqb a b); [|discriminate].
    apply IH in H. pose proof (countOccurrences_tail q b s). lia.
Qed.

Lemma splitAtFirst_length (pat s before after : string) :
  splitAtFirst pat s = Some (before, after) ->
  String.length after + String.length pat <= String.length s.
Proof.
  revert before. induction s as [|c s IH]; intros before H.
  - simpl in H. destruct (stripPrefix pat EmptyString) as [r|] eqn:Hp;
      [|discriminate].
    injection H as _ <-. apply stripPrefix_length in Hp. lia.
  - cbn [splitAtFirst] in H.
    destruct (stripPrefix pat (String c s)) as [r|] eqn:Hp.
    + injection H as _ <-. apply stripPrefix_length in Hp. lia.
    + destruct (splitAtFirst pat s) as [[b a]|]; [|discriminate].
      injection H as _ <-. specialize (IH b eq_refl). simpl. lia.
Qed.

Lemma splitAtFirst_count (q pat s before after : string) :
  splitAtFirst pat s = Some (before, after) ->
  countOccurrences q after <= countOccurrences q s.
Proof.
  revert before. induction s as [|c s IH]; intros before H.
  - simpl in H. destruct (stripPrefix pat EmptyString) as [r|] eqn:Hp;
      [|discriminate].
    injection H as _ <-. exact (stripPrefix_count q _ _ _ Hp).
  - cbn [splitAtFirst] in H.
    destruct (stripPrefix pat (String c s)) as [r|] eqn:Hp.
    + injection H as _ <-. exact (stripPrefix_count q _ _ _ Hp).
    + destruct (splitAtFirst pat s) as [[b a]|]; [|discriminate].
      injection H as _ <-. specialize (IH b eq_refl).
      pose proof (countOccurrences_tail q c s). lia.
Qed.

(** The text after the first occurrence of a non-empty pattern holds one
    occurrence less. *)
Lemma splitAtFirst_count_self (a : ascii) (p s before after : string) :
  splitAtFirst (String a p) s = Some (before, after) ->
  1 + countOccurrences (String a p) after
  <= countOccurrences (String a p) s.
Proof.
  revert before. induction s as [|c s IH]; intros before H.
  - simpl in H. discriminate.
  - cbn [splitAtFirst] in H.
    destruct (stripPrefix (String a p) (String c s)) as [r|] eqn:Hp.
    + injection H as _ <-. cbn [countOccurrences]. rewrite Hp.
      simpl in Hp. destruct (Ascii.eqb a c); [|discriminate].
      pose proof (stripPrefix_count (String a p) _ _ _ Hp). simpl. lia.
    + destruct (splitAtFirst (String a p) s) as [[b r]|]; [|discriminate].
      injection H as _ <-. specialize (IH b eq_refl).
      cbn [countOccurrences]. rewrite Hp. simpl. simpl in IH. lia.
Qed.

Lemma goalRegex_exec_progress (text group rest : string) :
  goalRegex_exec text = Some (group, rest) ->
  String.length rest < String.length text
  /\ 1 + countOccurrences "<goal>" rest <= countOccurrences "<goal>" text.
Proof.
  unfold goalRegex_exec, tagRegex_exec. intro H.
  destruct (splitAtFirst "<goal>" text) as [[pre afterOpen]|] eqn:Ho;
    [|discriminate].
  destruct (splitAtFirst "</goal>" afterOpen) as [[body r]|] eqn:Hc;
    [|discriminate].
  injection H as _ <-.
  pose proof (splitAtFirst_length _ _ _ _ Ho) as L1.
  pose proof (splitAtFirst_length _ _ _ _ Hc) as L2.
  pose proof (splitAtFirst_count_self _ _ _ _ _ Ho) as C1.
  pose proof (splitAtFirst_count "<goal>" _ _ _ _ Hc) as C2.
  simpl String.length in L1, L2. split; lia.
Qed.

End Strings.

Section TagRegex.

Local Open Scope string_scope.

Lemma append_assoc (a b c : string) : (a ++ b) ++ c = a ++ b ++ c.
Proof. induction a as [|x a IH]; simpl; [reflexivity | rewrite IH; reflexivity]. Qed.

Lemma append_empty_r (a : string) : a ++ "" = a.
Proof. induction a as [|x a IH]; simpl; [reflexivity | rewrite IH; reflexivity]. Qed.

Lemma length_append (a b : string) :
  String.length (a ++ b) = String.length a + String.length b.
Proof. induction a as [|x a IH]; simpl; [reflexivity | rewrite IH; reflexivity]. Qed.

Lemma stripPrefix_append (p r : string) : stripPrefix p (p ++ r) = Some r.
Proof.
  induction p as [|a p IH]; simpl; [reflexivity|].
  rewrite Ascii.eqb_refl. exact IH.
Qed.

Lemma stripPrefix_sound (p s r : string) :
  stripPrefix p s = Some r -> s = p ++ r.
Proof.
  revert s. induction p as [|a p IH]; intros s H; simpl in H.
  - injection H as <-. reflexivity.
  - destruct s as [|b s]; [discriminate|].
    destruct (Ascii.eqb_spec a b) as [<-|]; [|discriminate].
    simpl. f_equal. apply IH. exact H.
Qed.

Lemma splitAtFirst_sound (pat s before after : string) :
  splitAtFirst pat s = Some (before, after) ->
  s = before ++ pat ++ after.
Proof.
  revert before. induction s as [|c s IH]; intros before H.
  - simpl in H. destruct (stripPrefix pat "") as [r|] eqn:Hp; [|discriminate].
    injection H as <- <-. exact (stripPrefix_sound _ _ _ Hp).
  - cbn [splitAtFirst] in H.
    destruct (stripPrefix pat (String c s)) as [r|] eqn:Hp.
    + injection H as <- <-. exact (stripPrefix_sound _ _ _ Hp).
    + destruct (splitAtFirst pat s) as [[b a]|]; [|discriminate].
      injection H as <- <-. simpl. f_equal. apply IH. reflexivity.
Qed.

(** Two ways to cut the same string: the shorter head leaves the longer
    tail. *)
Lemma common_suffix (u r v y : string) :
  u ++ r = v ++ y -> String.length u <= String.length v ->
  exists z, r = z ++ y.
Proof.
  revert v. induction u as [|a u IH]; intros v H Hlen.
  - exists v. exact H.
  - destruct v as [|b v]; [simpl in Hlen; lia|].
    simpl in H. injection H as _ H. apply (IH v H). simpl in Hlen. lia.
Qed.

(** A pattern that occurs is found, and what follows the occurrence found
    ends with what follows any other occurrence. *)
Lemma splitAtFirst_complete (pat x y : string) :
  exists before after z,
    splitAtFirst pat (x ++ pat ++ y) = Some (before, after)
    /\ after = z ++ y.
Proof.
  induction x as [|c x IH].
  - exists "", y, "". simpl append.
    destruct (pat ++ y) as [|d t] eqn:E; cbn [splitAtFirst];
      rewrite <- E, stripPrefix_append; split; reflexivity.
  - simpl append. cbn [splitAtFirst].
    destruct (stripPrefix pat (String c (x ++ pat ++ y))) as [r|] eqn:Hp.
    + apply stripPrefix_sound in Hp.
      destruct (common_suffix pat r (String c x ++ pat) y) as [z Hz].
      * rewrite <- Hp, append_assoc. reflexivity.
      * rewrite length_append. lia.
      * exists "", r, z. split; [reflexivity | exact Hz].
    + destruct IH as [b [a [z [Hs Ha]]]]. rewrite Hs.
      exists (String c b), a, z. split; [reflexivity | exact Ha].
Qed.

(** What a match of a tag regexp means: the text holds the two tags, the
    group is the trimmed text between them, and the match ends right after
    the closing tag.  There is no match exactly when no opening tag is
    followed by a closing tag. *)
Lemma tagRegex_exec_sound (open close input group rest : string) :
  tagRegex_exec open close input = Some (group, rest) ->
  exists pre body,
    tagged open close pre body rest input /\ group = trim body.
Proof.
  unfold tagRegex_exec. intro H.
  destruct (splitAtFirst open input) as [[pre afterOpen]|] eqn:Ho;
    [|discriminate].
  destruct (splitAtFirst close afterOpen) as [[body r]|] eqn:Hc;
    [|discriminate].
  injection H as <- <-. exists pre, body. split; [|reflexivity].
  unfold tagged. rewrite (splitAtFirst_sound _ _ _ _ Ho).
  rewrite (splitAtFirst_sound _ _ _ _ Hc). reflexivity.
Qed.

Lemma tagRegex_exec_complete (open close pre body post : string) :
  tagRegex_exec open close (pre ++ open ++ body ++ close ++ post) <> None.
Proof.
  unfold tagRegex_exec.
  destruct (splitAtFirst_complete open pre (body ++ close ++ post))
    as [b [a [z [Hs Ha]]]].
  rewrite Hs.
  destruct (splitAtFirst_complete close (z ++ body) post)
    as [b' [a' [z' [Hs' _]]]].
  rewrite append_assoc in Hs'. rewrite Ha, Hs'. discriminate.
Qed.

(** Two cuts of one string with heads of the same length are the same
    cut. *)
Lemma append_inv_length (a b x y : string) :
  a ++ x = b ++ y -> String.length a = String.length b -> a = b /\ x = y.
Proof.
  revert b. induction a as [|c a IH]; intros b H Hlen.
  - destruct b as [|d b]; [|discriminate Hlen]. split; [reflexivity | exact H].
  - destruct b as [|d b]; [discriminate Hlen|].
    simpl in H. injection H as -> H. injection Hlen as Hlen.
    destruct (IH b H Hlen) as [-> ->]. split; reflexivity.
Qed.

(** The occurrence [splitAtFirst] finds is the leftmost one. *)
Lemma splitAtFirst_first (pat s before after : string) :
  splitAtFirst pat s = Some (before, after) ->
  firstOccurrence pat before after s.
Proof.
  intro H. split; [exact (splitAtFirst_sound _ _ _ _ H)|].
  revert before H. induction s as [|c s IH]; intros before H pre' post' Hs.
  - simpl in H. destruct (stripPrefix pat "") as [r|]; [|discriminate].
    injection H as <- _. simpl. lia.
  - cbn [splitAtFirst] in H.
    destruct (stripPrefix pat (String c s)) as [r|] eqn:Hp.
    + injection H as <- _. simpl. lia.
    + destruct (splitAtFirst pat s) as [[b a]|]; [|discriminate].
      injection H as <- <-.
      destruct pre' as [|d pre'].
      * simpl in Hs. rewrite Hs, stripPrefix_append in Hp. discriminate.
      * simpl in Hs. injection Hs as _ Hs.
        specialize (IH b eq_refl pre' post' Hs). simpl. lia.
Qed.

Lemma firstOccurrence_unique (pat pre post pre' post' s : string) :
  firstOccurrence pat pre post s -> firstOccurrence pat pre' post' s ->
  pre = pre' /\ post = post'.
Proof.
  intros [Hs Hmin] [Hs' Hmin'].
  pose proof (Hmin pre' post' Hs') as L1.
  pose proof (Hmin' pre post Hs) as L2.
  assert (Hlen : String.length pre = String.length pre') by lia.
  rewrite Hs in Hs'.
  destruct (append_inv_length _ _ _ _ Hs' Hlen) as [-> Ht].
  split; [reflexivity|].
  destruct (append_inv_length pat pat post post' Ht eq_refl) as [_ ->].
  reflexivity.
Qed.

Lemma splitAtFirst_firstOccurrence (pat s before after : string) :
  splitAtFirst pat s = Some (before, after)
  <-> firstOccurrence pat before after s.
Proof.
  split; [apply splitAtFirst_first|].
  intro H. pose proof H as [Hs _].
  destruct (splitAtFirst_complete pat before after) as [b [a [z [Hf _]]]].
  rewrite <- Hs in Hf. rewrite Hf.
  destruct (firstOccurrence_unique _ _ _ _ _ _ (splitAtFirst_first _ _ _ _ Hf) H)
    as [-> ->].
  reflexivity.
Qed.

(** A match of a tag regexp is the leftmost pair of tags: the first
    opening tag of the input and the first closing tag after it; the group
    is the trimmed text between them and the match ends right after the
    closing tag. *)
Lemma tagRegex_exec_first (open close input group rest : string) :
  tagRegex_exec open close input = Some (group, rest)
  <-> exists pre body,
        firstTagged open close pre body rest input /\ group = trim body.
Proof.
  unfold tagRegex_exec. split.
  - intro H.
    destruct (splitAtFirst open input) as [[pre afterOpen]|] eqn:Ho;
      [|discriminate].
    destruct (splitAtFirst close afterOpen) as [[body r]|] eqn:Hc;
      [|discriminate].
    injection H as <- <-. exists pre, body. split; [|reflexivity].
    pose proof (splitAtFirst_sound _ _ _ _ Hc) as Ha. subst afterOpen.
    split; apply splitAtFirst_first; assumption.
  - intros [pre [body [[Ho Hc] ->]]].
    apply splitAtFirst_firstOccurrence in Ho.
    apply splitAtFirst_firstOccurrence in Hc.
    rewrite Ho, Hc. reflexivity.
Qed.

End TagRegex.

Section GoalExtractor.

Lemma pushGoal_filter (goals : list string) (g : string) :
  pushGoal goals g = (goals ++ filter nonEmpty [g])%list.
Proof. destruct g; simpl; [rewrite app_nil_r|]; reflexivity. Qed.


(** The fuel of [parseGoals] is enough: the function computes the result
    of the [while] loop. *)
Lemma execLoop_run_sound (fuel : nat) :
  forall text goals,
    String.length text <= fuel ->
    execLoop text goals (execLoop_run fuel text goals).
Proof.
  induction fuel as [|fuel IH]; intros text goals Hlen.
  - destruct text; [|simpl in Hlen; lia].
    apply execLoop_null. reflexivity.
  - simpl. destruct (goalRegex_exec text) as [[group rest]|] eqn:He.
    + eapply execLoop_match; [exact He|]. apply IH.
      apply goalRegex_exec_progress in He. lia.
    + apply execLoop_null. exact He.
Qed.

Lemma parseGoals_runs_loop (text : string) :
  execLoop text [] (parseGoals text).
Proof. apply execLoop_run_sound. lia. Qed.

Lemma execLoop_deterministic (text : string) (goals r1 r2 : list string) :
  execLoop text goals r1 -> execLoop text goals r2 -> r1 = r2.
Proof.
  intro H1. revert r2. induction H1 as [text goals Hn|text goals g rest r He _ IH];
    intros r2 H2; inversion H2; subst; try congruence.
  apply IH. congruence.
Qed.

Lemma pushGoal_wellFormed (goals : list string) (group : string) :
  Forall wellFormedGoal goals ->
  Forall wellFormedGoal (pushGoal goals (trim group)).
Proof.
  intro H. unfold pushGoal. destruct (trim group) as [|c t] eqn:Ht.
  - exact H.
  - apply Forall_app. split; [exact H|]. constructor; [|constructor].
    split; [discriminate|]. rewrite <- Ht. apply trim_idempotent.
Qed.

Lemma pushGoal_length (goals : list string) (g : string) :
  List.length (pushGoal goals g) <= 1 + List.length goals.
Proof.
  unfold pushGoal. destruct g; [lia|]. rewrite length_app. simpl. lia.
Qed.

Lemma execLoop_run_wellFormed (fuel : nat) :
  forall text goals,
    Forall wellFormedGoal goals ->
    Forall wellFormedGoal (execLoop_run fuel text goals).
Proof.
  induction fuel as [|fuel IH]; intros text goals H; simpl; [exact H|].
  destruct (goalRegex_exec text) as [[group rest]|]; [|exact H].
  apply IH. apply pushGoal_wellFormed. exact H.
Qed.

Lemma execLoop_run_length (fuel : nat) :
  forall text goals,
    List.length (execLoop_run fuel text goals)
    <= List.length goals + countOccurrences "<goal>" text.
Proof.
  induction fuel as [|fuel IH]; intros text goals; simpl execLoop_run; [lia|].
  destruct (goalRegex_exec text) as [[group rest]|] eqn:He; [|lia].
  apply goalRegex_exec_progress in He.
  pose proof (IH rest (pushGoal goals (trim group))).
  pose proof (pushGoal_length goals (trim group)). lia.
Qed.

Lemma parseGoals_length (text : string) :
  List.length (parseGoals text) <= countOccurrences "<goal>" text.
Proof. apply (execLoop_run_length (String.length text) text []). Qed.

Lemma parseGoals_wellFormed (text : string) :
  Forall wellFormedGoal (parseGoals text).
Proof. apply execLoop_run_wellFormed. constructor. Qed.

(** The loop collects, in order, the trimmed non-empty contents of the
    [<goal>] tags. *)
Lemma execLoop_goalTags (text : string) (goals result : list string) :
  execLoop text goals result ->
  exists bodies,
    goalTags text bodies
    /\ result = (goals ++ filter nonEmpty (map trim bodies))%list.
Proof.
  induction 1 as [text goals Hn|text goals group rest result He _ IH].
  - exists []. split; [|simpl; rewrite app_nil_r; reflexivity].
    apply goalTags_none. intros pre body post Ht. unfold tagged in Ht.
    subst text. exact (tagRegex_exec_complete _ _ _ _ _ Hn).
  - destruct IH as [bodies [Hb ->]].
    apply tagRegex_exec_first in He. destruct He as [pre [body [Hf ->]]].
    exists (body :: bodies). split; [exact (goalTags_next _ _ _ _ _ Hf Hb)|].
    rewrite trim_idempotent, pushGoal_filter, <- app_assoc.
    f_equal. simpl. destruct (nonEmpty (trim body)); reflexivity.
Qed.

Lemma parseGoals_goalTags (text : string) :
  exists bodies,
    goalTags text bodies
    /\ parseGoals text = filter nonEmpty (map trim bodies).
Proof.
  destruct (execLoop_goalTags _ _ _ (parseGoals_runs_loop text))
    as [bodies [Hb Hr]].
  exists bodies. split; [exact Hb | exact Hr].
Qed.

(** The contents of the [<goal>] tags of a text are determined by the
    text. *)
Lemma goalTags_deterministic (text : string) (b1 b2 : list string) :
  goalTags text b1 -> goalTags text b2 -> b1 = b2.
Proof.
  intro H1. revert b2.
  induction H1 as [text Hno|text pre body post bodies Hf _ IH];
    intros b2 H2; inversion H2 as [t Hno2|t pre2 body2 post2 bodies2 Hf2 Hr2];
    subst.
  - reflexivity.
  - destruct Hf2 as [[Hs _] _]. destruct (Hno pre2 body2 post2 Hs).
  - destruct Hf as [[Hs _] _]. destruct (Hno2 pre body post Hs).
  - destruct Hf as [Ho Hc]. destruct Hf2 as [Ho2 Hc2].
    destruct (firstOccurrence_unique _ _ _ _ _ _ Ho Ho2) as [_ Ha].
    rewrite <- Ha in Hc2.
    destruct (firstOccurrence_unique _ _ _ _ _ _ Hc Hc2) as [-> ->].
    f_equal. apply IH. exact Hr2.
Qed.

Example parseGoals_two :
  parseGoals Examples.twoGoals
  = ["Implementing OAuth authentication"; "Fixing the login test"].
Proof. vm_compute. reflexivity. Qed.

Example parseGoals_four :
  parseGoals Examples.fourGoals = ["a"; "b"; "c"; "d"].
Proof. vm_compute. reflexivity. Qed.

Example parseGoals_empty_tags :
  parseGoals "<goals><goal>  </goal></goals>" = [].
Proof. vm_compute. reflexivity. Qed.

End GoalExtractor.

Section ExtractGoals.
Variable history : list Content.
Variable generateContent : list Content -> RaceOutcome.
Variable options : option GoalExtractionOptions.

Let outcome : RaceOutcome :=
  generateContent (extractionContents history options).

Lemma extractGoals_response (response : option string) :
  outcome = ResponseWins response ->
  let text := match response with Some t => t | None => "" end in
  extractGoals history generateContent options
  = Returns {| goals := parseGoals text;
               confidence := determineConfidence (parseGoals text) text;
               error := None |}.
Proof.
  subst outcome. unfold extractGoals. intros ->. reflexivity.
Qed.

Lemma extractGoals_failure (e : Thrown) :
  raceResult outcome = Throws e ->
  extractGoals history generateContent options
  = Returns (failedExtraction
               (if looksLikeTimeout e then "timeout" else "extraction_failed")).
Proof.
  subst outcome. unfold extractGoals. intros ->. reflexivity.
Qed.

(** [extractGoals] never raises. *)
Lemma extractGoals_returns :
  exists r, extractGoals history generateContent options = Returns r.
Proof.
  unfold extractGoals.
  destruct (raceResult _); eexists; reflexivity.
Qed.

(** C6, amended.  The goals of the result are the trimmed, non-empty
    contents of the [<goal>] tags of the response, in their order: the
    content of the leftmost pair of tags, then those of the text after its
    closing tag, with the empty ones left out.  There is at most one goal
    for each opening tag: at most three when the response holds at most
    three [<goal>] tags.  The parser sets no bound of its own.  A race that
    ends with a rejection gives no goals. *)
Theorem extractGoals_goals_bounded_by_tags :
  exists r,
    extractGoals history generateContent options = Returns r
    /\ Forall wellFormedGoal (goals r)
    /\ (forall n : nat,
          (forall t, outcome = ResponseWins (Some t) ->
                     countOccurrences "<goal>" t <= n) ->
          List.length (goals r) <= n)
    /\ (forall response,
          outcome = ResponseWins response ->
          exists bodies,
            goalTags (responseText response) bodies
            /\ goals r = filter nonEmpty (map trim bodies))
    /\ (forall e, raceResult outcome = Throws e -> goals r = []).
Proof.
  destruct (raceResult outcome) as [response|e] eqn:Hr.
  - assert (Ho : outcome = ResponseWins response)
      by (destruct outcome; simpl in Hr; congruence).
    eexists. split; [exact (extractGoals_response _ Ho)|].
    cbn [goals]. split; [apply parseGoals_wellFormed|].
    split.
    + intros n Hn. destruct response as [t|].
      * pose proof (parseGoals_length t). specialize (Hn t Ho). lia.
      * cbn. lia.
    + split; [|intros e He; discriminate He].
      intros response' Ho'. rewrite Ho in Ho'. injection Ho' as <-.
      exact (parseGoals_goalTags (responseText response)).
  - eexists. split; [exact (extractGoals_failure _ Hr)|].
    cbn [goals failedExtraction]. split; [constructor|].
    split; [intros n _; cbn; lia|].
    split; [|intros _ _; reflexivity].
    intros response Ho. rewrite Ho in Hr. discriminate Hr.
Qed.

(** C7, amended.  [extractGoals] never raises.  When the race ends with a
    rejection it returns no goals, confidence ['none'] and the error tag
    ['timeout'] if the rejection is an [Error] whose message is
    ['Timeout'] (as the one of the timer is) and ['extraction_failed']
    otherwise.  [shouldPromptUser] on a result with error ['timeout']
    returns [shouldPrompt = false] with the fallback to basic compaction;
    its reason is ['extraction_timeout'] unless the safety valve is active,
    which comes first with reason ['safety_valve'].  After a timeout
    [prepareDeliberateCompression] asks for no prompt. *)
Theorem extractGoals_failure_never_prompts (config : Config) :
  (exists r, extractGoals history generateContent options = Returns r)
  /\ (outcome = TimerWins ->
      extractGoals history generateContent options
      = Returns (failedExtraction "timeout"))
  /\ (forall e, outcome = ResponseFails e ->
      extractGoals history generateContent options
      = Returns (failedExtraction
                   (if looksLikeTimeout e then "timeout"
                    else "extraction_failed")))
  /\ (forall (r : GoalExtractionResult) (isSafetyValve : bool),
        error r = Some "timeout" ->
        shouldPromptUser r config isSafetyValve
        = {| shouldPrompt := false;
             reason := if isSafetyValve then "safety_valve"
                       else "extraction_timeout";
             fallbackToBasicCompression := Some true |})
  /\ (forall isSafetyValve : bool,
        options = None ->
        outcome = TimerWins ->
        prepShouldPromptUser
          (prepareDeliberateCompression history generateContent config
             isSafetyValve) = false).
Proof.
  split; [exact extractGoals_returns|].
  split; [intro Ho; apply (extractGoals_failure (ErrorObject "Timeout"));
          rewrite Ho; reflexivity|].
  split; [intros e Ho; apply extractGoals_failure; rewrite Ho; reflexivity|].
  split.
  - intros r v Hr. unfold shouldPromptUser. rewrite Hr.
    destruct v; reflexivity.
  - intros v Hopt Ho. unfold prepareDeliberateCompression.
    destruct (deliberateCompressionEnabled config); [|reflexivity].
    cbn [negb]. rewrite <- Hopt.
    rewrite (extractGoals_failure (ErrorObject "Timeout"))
      by (rewrite Ho; reflexivity).
    cbn [looksLikeTimeout String.eqb Ascii.eqb Bool.eqb].
    unfold shouldPromptUser. cbn [error failedExtraction].
    destruct v; reflexivity.
Qed.

End ExtractGoals.

(** A response with four [<goal>] tags gives four goals. *)
Lemma extractGoals_four_goals :
  exists r,
    extractGoals [] (fun _ => ResponseWins (Some Examples.fourGoals)) None
    = Returns r
    /\ goals r = ["a"; "b"; "c"; "d"]
    /\ ~ List.length (goals r) <= 3.
Proof.
  eexists. split; [reflexivity|]. split; [vm_compute; reflexivity|].
  vm_compute. lia.
Qed.

(** The response with two goals: two tags, so at most three goals. *)
Lemma extractGoals_goals_bounded_by_tags_witness :
  exists r,
    extractGoals Examples.tenMessages Examples.generateContent None = Returns r
    /\ List.length (goals r) <= 3.
Proof.
  destruct (extractGoals_goals_bounded_by_tags Examples.tenMessages
              Examples.generateContent None) as [r [Hr [_ [Hn _]]]].
  exists r. split; [exact Hr|].
  apply Hn. intros t Ht. injection Ht as <-. vm_compute. lia.
Defined.

(** The selection ['auto'] reaches [createCompressionOptions] as a string,
    which is truthy. *)
Example createCompressionOptions_auto :
  createCompressionOptions (Some "auto")
  = {| userGoal := Some "auto";
       preserveStrategy := Some since_last_prompt;
       optPreserveThreshold := None |}
  /\ createCompressionOptions None
     = {| userGoal := None;
          preserveStrategy := Some percentage;
          optPreserveThreshold := None |}.
Proof. split; reflexivity. Qed.

(** Under the safety valve a timed-out extraction is reported with reason
    ['safety_valve'], and a model failure whose message is ['Timeout'] is
    tagged ['timeout']. *)
Lemma timeout_reason_under_safety_valve :
  reason (shouldPromptUser (failedExtraction "timeout") defaultConfig true)
  = "safety_valve"
  /\ reason (shouldPromptUser (failedExtraction "timeout") defaultConfig true)
     <> "extraction_timeout"
  /\ extractGoals [] (fun _ => ResponseFails (ErrorObject "Timeout")) None
     = Returns (failedExtraction "timeout").
Proof.
  split; [reflexivity|]. split; [discriminate | reflexivity].
Qed.

(** The timer wins the race on the ten-message history. *)
Lemma extractGoals_failure_never_prompts_witness :
  extractGoals Examples.tenMessages (fun _ => TimerWins) None
  = Returns (failedExtraction "timeout")
  /\ shouldPromptUser (failedExtraction "timeout") defaultConfig false
     = {| shouldPrompt := false; reason := "extraction_timeout";
          fallbackToBasicCompression := Some true |}
  /\ prepShouldPromptUser
       (prepareDeliberateCompression Examples.tenMessages (fun _ => TimerWins)
          defaultConfig false) = false.
Proof.
  pose proof (extractGoals_failure_never_prompts Examples.tenMessages
                (fun _ => TimerWins) None defaultConfig) as [_ [H1 [_ [H2 H3]]]].
  split; [exact (H1 eq_refl)|].
  split; [exact (H2 (failedExtraction "timeout") false eq_refl)|].
  exact (H3 false eq_refl eq_refl).
Defined.

(* ================================================================== *)
(** * CompactionExecutor *)
(* ================================================================== *)

Section CompactionExecutor.
Context {J : Stringifier}.
Variable svc : Services.

Lemma returnsNoop_noopResult (original new : number) :
  returnsNoop (ret (noopResult original new)).
Proof. eexists. split; [reflexivity|]. split; reflexivity. Qed.

Lemma returnsNoop_silent (e : Eff CompressResult) :
  returnsNoop e -> ~ callsSummarizer (fst e).
Proof.
  intros [r [-> _]] [contents [instruction H]]. exact H.
Qed.

(** C9. [compress] returns [NOOP], without calling the summarization
    model and without a new history, when the curated history is empty
    (even when forced), when a previous attempt failed and this one is not
    forced, when the attempt is not forced and [originalTokenCount] is
    below [threshold * tokenLimit(model)], and when the computed
    [historyToCompress] is empty. *)
Theorem compress_noop_cases (chat : GeminiChat) (force : bool)
    (model : string) (config : Config) (hasFailed : bool)
    (options : option CompressionOptions) :
  let result := compress svc chat force model config hasFailed options in
  (curatedHistory chat = [] ->
     result = ret (noopResult n0 n0))
  /\ (hasFailed = true -> force = false ->
      result = ret (noopResult n0 n0))
  /\ (force = false ->
      lt (lastPromptTokenCount chat)
         (mul (effectiveThreshold config) (tokenLimit svc model)) = true ->
      returnsNoop result)
  /\ (forall toKeep,
        planSplit (curatedHistory chat) options = Returns ([], toKeep) ->
        returnsNoop result)
  /\ (returnsNoop result -> ~ callsSummarizer (fst result)).
Proof.
  cbv zeta. unfold compress, effectiveThreshold.
  split; [intros ->; reflexivity|].
  split; [intros -> ->; rewrite orb_true_r; reflexivity|].
  split; [|split; [|apply returnsNoop_silent]].
  - intros -> Hlt.
    destruct (_ || _); [apply returnsNoop_noopResult|].
    rewrite Hlt. apply returnsNoop_noopResult.
  - intros toKeep Hsplit.
    destruct (_ || _); [apply returnsNoop_noopResult|].
    destruct (_ && _); [apply returnsNoop_noopResult|].
    rewrite Hsplit. apply returnsNoop_noopResult.
Qed.

(** What a result of [compress] says about the two token counts. *)
Lemma noopResult_facts (trace : list Event) (r : CompressResult)
    (original new : number) :
  (trace, Returns r) = ret (noopResult original new) ->
  compressionStatus (info r) = NOOP
  /\ newTokenCount (info r) = new /\ originalTokenCount (info r) = original.
Proof. intro H. injection H as _ ->. repeat split. Qed.

(** C1, amended.  A result of [compress] has status
    [COMPRESSION_FAILED_INFLATED_TOKEN_COUNT] exactly when its
    [newTokenCount] is greater than its [originalTokenCount], and then
    [newHistory] is [null].  A [COMPRESSED] result comes after the
    summarization call, carries the new history, and its recomputed
    [newTokenCount] is not greater than [originalTokenCount]: less or
    equal.  An attempt that reaches the summarization step and gets a
    summary, the initial history and a token count returns: with the
    inflated status and no history when the count is greater than the
    original one, with [COMPRESSED] and the new history otherwise. *)
Theorem compress_status_by_token_comparison (chat : GeminiChat)
    (force : bool) (model : string) (config : Config) (hasFailed : bool)
    (options : option CompressionOptions) :
  let run := compress svc chat force model config hasFailed options in
  (forall (trace : list Event) (r : CompressResult),
     run = (trace, Returns r) ->
     let original := originalTokenCount (info r) in
     let new := newTokenCount (info r) in
     (compressionStatus (info r) = COMPRESSION_FAILED_INFLATED_TOKEN_COUNT
      <-> gt new original = true)
     /\ (compressionStatus (info r) = COMPRESSION_FAILED_INFLATED_TOKEN_COUNT ->
         newHistory r = None)
     /\ (compressionStatus (info r) = COMPRESSED ->
         gt new original = false
         /\ (isNaN new = false -> isNaN original = false ->
             le new original = true)
         /\ (exists h, newHistory r = Some h)
         /\ callsSummarizer trace
         /\ original = lastPromptTokenCount chat
         /\ (exists requestParts,
               In (TokenCountCall requestParts) trace
               /\ calculateRequestTokenCount svc requestParts = Returns new)))
  /\ (forall (toCompress toKeep : list Content)
             (summaryResponse : option string) (requestParts : list Part)
             (count : number),
        (List.length (curatedHistory chat) =? 0)%nat
        || (hasFailed && negb force) = false ->
        negb force
        && lt (lastPromptTokenCount chat)
              (mul (effectiveThreshold config) (tokenLimit svc model)) = false ->
        planSplit (curatedHistory chat) options
        = Returns (toCompress, toKeep) ->
        toCompress <> [] ->
        generateSummary svc (toCompress ++ [summaryRequest])
          (getChatCompressionPrompt svc (goalOf options))
        = Returns summaryResponse ->
        requestPartsOf svc (extraHistoryOf summaryResponse toKeep)
        = Returns requestParts ->
        calculateRequestTokenCount svc requestParts = Returns count ->
        exists trace r,
          run = (trace, Returns r)
          /\ callsSummarizer trace
          /\ originalTokenCount (info r) = lastPromptTokenCount chat
          /\ newTokenCount (info r) = count
          /\ compressionStatus (info r)
             = (if gt count (lastPromptTokenCount chat)
                then COMPRESSION_FAILED_INFLATED_TOKEN_COUNT
                else COMPRESSED)
          /\ newHistory r
             = (if gt count (lastPromptTokenCount chat) then None
                else Some (extraHistoryOf summaryResponse toKeep))).
Proof.
  cbv zeta. split.
  - intros trace r H. unfold compress in H.
    assert (Hnoop : forall original new,
               (trace, Returns r) = ret (noopResult original new) ->
               original = new ->
               (compressionStatus (info r) = COMPRESSION_FAILED_INFLATED_TOKEN_COUNT
                <-> gt (newTokenCount (info r)) (originalTokenCount (info r)) = true)
               /\ (compressionStatus (info r) = COMPRESSION_FAILED_INFLATED_TOKEN_COUNT ->
                   newHistory r = None)
               /\ (compressionStatus (info r) = COMPRESSED ->
                   gt (newTokenCount (info r)) (originalTokenCount (info r)) = false
                   /\ (isNaN (newTokenCount (info r)) = false ->
                       isNaN (originalTokenCount (info r)) = false ->
                       le (newTokenCount (info r)) (originalTokenCount (info r)) = true)
                   /\ (exists h, newHistory r = Some h)
                   /\ callsSummarizer trace
                   /\ originalTokenCount (info r) = lastPromptTokenCount chat
                   /\ (exists requestParts,
                         In (TokenCountCall requestParts) trace
                         /\ calculateRequestTokenCount svc requestParts
                            = Returns (newTokenCount (info r))))).
    { intros original new Hr <-.
      destruct (noopResult_facts _ _ _ _ Hr) as [Hs [Hn Ho]].
      rewrite Hs, Hn, Ho. unfold gt. rewrite lt_irrefl.
      repeat split; intros; discriminate. }
    destruct (_ || _); [exact (Hnoop _ _ (eq_sym H) eq_refl)|].
    destruct (_ && _); [exact (Hnoop _ _ (eq_sym H) eq_refl)|].
    destruct (planSplit (curatedHistory chat) options)
      as [[toCompress toKeep]|e]; [|discriminate H].
    unfold lift, bind at 1 in H. cbn [app] in H.
    destruct (List.length toCompress =? 0)%nat;
      [exact (Hnoop _ _ (eq_sym H) eq_refl)|].
    clear Hnoop. unfold call, emit, ret, bind in H.
    destruct (generateSummary svc _ _) as [summaryResponse|e];
      [|discriminate H].
    unfold lift in H.
    destruct (getInitialChatHistory svc _) as [fullNewHistory|e];
      [|discriminate H].
    match type of H with
    | context [calculateRequestTokenCount svc ?ps] =>
        set (requestParts := ps) in H;
        destruct (calculateRequestTokenCount svc requestParts)
          as [count|e] eqn:Hcount; [|discriminate H]
    end.
    destruct (gt count (lastPromptTokenCount chat)) eqn:Hgt;
      injection H as <- <-; cbn [info compressionStatus newTokenCount
                                 originalTokenCount newHistory].
    + split; [split; [intros _; exact Hgt | reflexivity]|].
      split; [reflexivity | discriminate].
    + split; [split; [discriminate | congruence]|].
      split; [discriminate|]. intros _.
      split; [exact Hgt|].
      split; [intros Hn Ho; apply not_gt_le; assumption|].
      split; [eexists; reflexivity|].
      split; [do 2 eexists; left; reflexivity|].
      split; [reflexivity|].
      exists requestParts.
      split; [right; left; reflexivity | exact Hcount].
  - intros toCompress toKeep summaryResponse requestParts count Hearly
      Hthreshold Hsplit Hne Hsummary Hparts Hcount.
    unfold compress. unfold effectiveThreshold in Hthreshold.
    rewrite Hearly, Hthreshold, Hsplit.
    unfold lift, bind at 1. cbn [app].
    destruct toCompress as [|c0 rest]; [congruence|].
    cbn [List.length Nat.eqb].
    unfold goalOf in Hsummary. unfold call, emit, ret, bind.
    rewrite Hsummary. unfold lift.
    unfold requestPartsOf, extraHistoryOf in Hparts.
    destruct (getInitialChatHistory svc _) as [fullNewHistory|e];
      [|discriminate Hparts].
    injection Hparts as Hparts. unfold partsOf in Hparts.
    rewrite Hparts, Hcount.
    destruct (gt count (lastPromptTokenCount chat));
      do 2 eexists; (split; [reflexivity|]);
      (split; [do 2 eexists; left; reflexivity|]);
      repeat split.
Qed.

End CompactionExecutor.

(** The summary is reported with exactly as many tokens as the original
    history had: the status is [COMPRESSED] although the new count is not
    strictly smaller. *)
Lemma compress_equal_counts_is_COMPRESSED :
  Examples.forcedRun 1000
  = (Examples.equalTrace, Returns Examples.equalResult)
  /\ compressionStatus (info Examples.equalResult) = COMPRESSED
  /\ originalTokenCount (info Examples.equalResult) = of_Z 1000
  /\ newTokenCount (info Examples.equalResult) = of_Z 1000
  /\ lt (newTokenCount (info Examples.equalResult))
        (originalTokenCount (info Examples.equalResult)) = false
  /\ newHistory Examples.equalResult <> None.
Proof.
  repeat split; try (vm_compute; reflexivity). discriminate.
Qed.

Example compress_inflated_counts :
  compressionStatus (info (Examples.resultOf (Examples.forcedRun 10000)))
  = COMPRESSION_FAILED_INFLATED_TOKEN_COUNT
  /\ newHistory (Examples.resultOf (Examples.forcedRun 10000)) = None.
Proof. split; vm_compute; reflexivity. Qed.

(** A forced compaction from 1000 to 600 tokens. *)
Lemma compress_status_by_token_comparison_witness :
  Examples.forcedRun 600
  = (Examples.shrinkingTrace, Returns Examples.shrinkingResult)
  /\ compressionStatus (info Examples.shrinkingResult) = COMPRESSED
  /\ gt (newTokenCount (info Examples.shrinkingResult))
        (originalTokenCount (info Examples.shrinkingResult)) = false
  /\ le (newTokenCount (info Examples.shrinkingResult))
        (originalTokenCount (info Examples.shrinkingResult)) = true.
Proof.
  assert (H : Examples.forcedRun 600
              = (Examples.shrinkingTrace, Returns Examples.shrinkingResult))
    by (vm_compute; reflexivity).
  assert (Hs : compressionStatus (info Examples.shrinkingResult) = COMPRESSED)
    by reflexivity.
  split; [exact H|]. split; [exact Hs|].
  destruct (proj2 (proj2
              (proj1 (compress_status_by_token_comparison
                        (J := Examples.stringifier)
                        (Examples.services (of_Z 600))
                        (Examples.chatWith 1000) true "m" defaultConfig
                        false None)
                 Examples.shrinkingTrace Examples.shrinkingResult H)) Hs)
    as [Hgt [Hle _]].
  split; [exact Hgt|]. apply Hle; reflexivity.
Defined.

(** The empty history, forced. *)
Example compress_empty_history_forced :
  compress (J := Examples.stringifier) (Examples.services n0)
    {| curatedHistory := []; lastPromptTokenCount := of_Z 1000 |}
    true "m" defaultConfig false None
  = ret (noopResult n0 n0).
Proof. reflexivity. Qed.

(** Below the threshold and not forced: 1000 tokens of a million. *)
Lemma compress_noop_cases_witness :
  returnsNoop
    (compress (J := Examples.stringifier) (Examples.services n0)
       (Examples.chatWith 1000) false "m" defaultConfig false None).
Proof.
  apply (proj1 (proj2 (proj2
           (compress_noop_cases (J := Examples.stringifier)
              (Examples.services n0) (Examples.chatWith 1000) false "m"
              defaultConfig false None))));
    vm_compute; reflexivity.
Defined.

(* ================================================================== *)
(** * The compression lock *)
(* ================================================================== *)

Section CompressionLock.
Context {J : Stringifier}.
Variable svc : Services.
Variable model : string.
Variable newGeminiChat : list Content -> Completion GeminiChat.
Variable generateContent : list Content -> RaceOutcome.

(** [tryCompressChat] holds the lock while [compress] runs. *)
Lemma tryCompressChat_enter_locks (cl : GeminiClient) (force : bool)
    (options : option CompressionOptions) :
  isCompressing (fst (tryCompressChat_enter svc model cl force options))
  = true.
Proof. reflexivity. Qed.

(** Neither the updates after [compress] nor [startChat] touch the
    lock. *)
Lemma afterCompress_lock (cl : GeminiClient) (force : bool)
    (r : CompressResult) :
  isCompressing (fst (afterCompress svc newGeminiChat cl force r))
  = isCompressing cl.
Proof.
  unfold afterCompress.
  destruct (compressionStatus (info r)); [|reflexivity..].
  destruct (newHistory r); reflexivity.
Qed.

Lemma afterStartChat_lock (cl : GeminiClient)
    (started : Completion GeminiChat) (now : number) :
  isCompressing (fst (afterStartChat cl started now)) = isCompressing cl.
Proof. destruct started; reflexivity. Qed.

(** The lock is cleared on every exit path: [compress] resolved with any
    status, or rejected, and [startChat] resolved or rejected. *)
Lemma tryCompressChat_exit_unlocks (cl : GeminiClient) (force : bool)
    (outcome : Completion CompressResult) (now : number) :
  isCompressing
    (fst (tryCompressChat_exit svc newGeminiChat cl force outcome now))
  = false.
Proof.
  destruct outcome as [r|e]; [|reflexivity]. unfold tryCompressChat_exit.
  destruct (afterCompress svc newGeminiChat cl force r) as [c1 [s|]];
    [|reflexivity].
  destruct (afterStartChat c1 s now) as [c2 done]. reflexivity.
Qed.

Lemma tryCompressChat_unlocks (cl : GeminiClient) (force : bool)
    (options : option CompressionOptions) (now : number) :
  isCompressing
    (fst (fst (tryCompressChat svc model newGeminiChat cl force options now)))
  = false.
Proof.
  unfold tryCompressChat.
  destruct (tryCompressChat_enter svc model cl force options)
    as [cl1 [trace outcome]].
  pose proof (tryCompressChat_exit_unlocks cl1 force outcome now) as H.
  destruct (tryCompressChat_exit svc newGeminiChat cl1 force outcome now).
  exact H.
Qed.

(** While the lock is held every trigger evaluation is rejected. *)
Lemma locked_trigger_rejected (cl : GeminiClient) (now : number) :
  isCompressing cl = true ->
  shouldTriggerCompression svc model cl now
  = decision false "compression_in_progress" false.
Proof. intro H. unfold shouldTriggerCompression. rewrite H. reflexivity. Qed.

(** A call of [handlePostResponseCompression] that meets the lock ends at
    once without compressing. *)
Lemma locked_attempt_ends (cl : GeminiClient) (selection : option string)
    (now : number) :
  isCompressing cl = true ->
  attemptStep svc model newGeminiChat generateContent cl NotStarted
    selection now
  = (cl, Finished (Returns None), []).
Proof.
  intro H. unfold attemptStep. rewrite (locked_trigger_rejected cl now H).
  reflexivity.
Qed.

(** The lock is taken only on entering [tryCompressChat]: the steps that
    lead to the two earlier awaits leave it as it was. *)
Lemma attemptStep_before_compress (cl cl' : GeminiClient) (p p' : Phase)
    (selection : option string) (now : number) (events : list Event) :
  attemptStep svc model newGeminiChat generateContent cl p selection now
  = (cl', p', events) ->
  inTryCompressChat p = false -> inTryCompressChat p' = false ->
  isCompressing cl' = isCompressing cl.
Proof.
  intros H Hp Hp'. destruct p as [|prep v|gs v|f [tr o]|i started|res];
    simpl in H.
  - destruct (negb _); [congruence|].
    destruct (compressionInteractive (config cl)); [congruence|].
    injection H as _ <- _. discriminate Hp'.
  - destruct (prepShouldPromptUser prep), (extractedGoals prep);
      try congruence; injection H as _ <- _; discriminate Hp'.
  - destruct (handleCompressionSelection cl selection) as [[c1 f] o].
    injection H as _ <- _. discriminate Hp'.
  - discriminate Hp.
  - discriminate Hp.
  - congruence.
Qed.

Lemma attemptStep_lock (cl cl' : GeminiClient) (p p' : Phase)
    (selection : option string) (now : number) (events : list Event) :
  attemptStep svc model newGeminiChat generateContent cl p selection now
  = (cl', p', events) ->
  isCompressing cl = inTryCompressChat p ->
  isCompressing cl' = inTryCompressChat p'.
Proof.
  intros H Hl. destruct p as [|prep v|gs v|f [tr o]|i started|res];
    simpl in H.
  - destruct (negb _); [injection H as <- <- _; exact Hl|].
    destruct (compressionInteractive (config cl)).
    + injection H as <- <- _. exact Hl.
    + injection H as <- <- _. reflexivity.
  - destruct (prepShouldPromptUser prep), (extractedGoals prep);
      injection H as <- <- _; try reflexivity; exact Hl.
  - destruct (handleCompressionSelection cl selection) as [[c1 f] opts].
    injection H as <- <- _. reflexivity.
  - destruct o as [r|e]; [|injection H as <- <- _; reflexivity].
    pose proof (afterCompress_lock cl f r) as Hc.
    destruct (afterCompress svc newGeminiChat cl f r) as [c1 [s|]];
      injection H as <- <- _; [|reflexivity].
    cbn [fst] in Hc. rewrite Hc. exact Hl.
  - destruct (afterStartChat cl started now) as [c2 done].
    injection H as <- <- _. reflexivity.
  - injection H as <- <- _. exact Hl.
Qed.

(** Without a second call the lock is sound: it is held exactly while the
    call is inside [tryCompressChat], awaiting [compress] or [startChat],
    through every run. *)
Lemma single_call_lock (actions : list Action) :
  forall s : Session,
    lockMatches s ->
    Forall resumesFirst actions ->
    lockMatches (run svc model newGeminiChat generateContent s actions).
Proof.
  induction actions as [|a actions IH]; intros s Hs Ha; [exact Hs|].
  inversion Ha as [|a' l Hfirst Hrest]; subst.
  simpl. apply IH; [|exact Hrest].
  destruct a as [| |[|i] selection now]; try contradiction.
  destruct s as [cl ps]. unfold lockMatches in Hs. cbn [attempts client] in Hs.
  destruct ps as [|p [|q ps]]; try contradiction.
  unfold sessionStep. cbn [client attempts nth_error].
  destruct (attemptStep svc model newGeminiChat generateContent cl p
              selection now) as [[cl' p'] events] eqn:Hstep.
  unfold lockMatches. cbn [client attempts replaceNth].
  exact (attemptStep_lock cl cl' p p' selection now events Hstep Hs).
Qed.

End CompressionLock.

(** C4: two runs on which the lock fails.  In the first, the entry point
    [tryCompressChat] is called while an earlier call awaits [compress]: the
    second call is not rejected, both calls of [compress] are pending at
    once, both end with status [COMPRESSED], and the first to end (its
    [compress] and then its [startChat] settled) clears the lock under the
    second.  In the second run a call of
    [handlePostResponseCompression] awaits the answer to its prompt: the
    lock is not held, a trigger evaluation answers [shouldCompress = true]
    with reason ['absolute_tokens'], not ['compression_in_progress'], and a
    second call shows its own prompt and goes on to [compress] as well. *)
Theorem concurrent_attempts_not_excluded :
  (let d1 := Examples.runSession Examples.idleSession Examples.twoDirectCalls in
   let d2 := Examples.runSession d1 (Examples.finishCall 0) in
   let d3 := Examples.runSession d2 (Examples.finishCall 1) in
   map inCompress (attempts d1) = [true; true]
   /\ map inCompress (attempts d2) = [false; true]
   /\ isCompressing (client d2) = false
   /\ map Examples.statusOf (attempts d3) = [Some COMPRESSED; Some COMPRESSED])
  /\ (let s1 := Examples.runSession Examples.session0 Examples.untilPrompt in
      let s2 := Examples.runSession s1 Examples.secondCall in
      let s3 := Examples.runSession s2 Examples.bothAnswered in
      let s4 := Examples.runSession s3 (Examples.finishCall 0) in
      attempts s1
      = [AwaitingSelection
           ["Implementing OAuth authentication"; "Fixing the login test"]
           false]
      /\ isCompressing (client s1) = false
      /\ shouldTriggerCompression (Examples.services (of_Z 600)) "m"
           (client s1) Examples.clock
         = decision true "absolute_tokens" false
      /\ attempts s2
         = [AwaitingSelection
              ["Implementing OAuth authentication"; "Fixing the login test"]
              false;
            AwaitingSelection
              ["Implementing OAuth authentication"; "Fixing the login test"]
              false]
      /\ map inCompress (attempts s3) = [true; true]
      /\ map inCompress (attempts s4) = [false; true]
      /\ isCompressing (client s4) = false).
Proof.
  cbv zeta. repeat split; vm_compute; reflexivity.
Qed.

(* ================================================================== *)
(** * More on the GoalExtractor *)
(* ================================================================== *)

Section ParseGoals.

Local Open Scope string_scope.

(** [extractDiscardedContextSummary] returns a summary exactly when it is
    the trimmed text between the leftmost pair of tags: the first opening
    tag of the text and the first closing tag after it.  The summary is
    trimmed.  The result is [undefined] exactly when the text holds no
    opening tag followed by a closing tag. *)
Theorem extractDiscardedContextSummary_spec (text : string) :
  (forall summary,
     extractDiscardedContextSummary text = Some summary
     <-> exists pre body post,
           firstTagged "<discarded_context_summary>"
             "</discarded_context_summary>" pre body post text
           /\ summary = trim body)
  /\ (forall summary,
        extractDiscardedContextSummary text = Some summary ->
        trim summary = summary)
  /\ (extractDiscardedContextSummary text = None
      <-> forall pre body post,
            ~ tagged "<discarded_context_summary>"
                "</discarded_context_summary>" pre body post text).
Proof.
  unfold extractDiscardedContextSummary. split; [|split].
  - intro summary. split.
    + intro H.
      destruct (tagRegex_exec _ _ text) as [[group rest]|] eqn:He;
        [|discriminate].
      injection H as <-.
      apply tagRegex_exec_first in He. destruct He as [pre [body [Hf ->]]].
      exists pre, body, rest. split; [exact Hf | apply trim_idempotent].
    + intros [pre [body [post [Hf ->]]]].
      assert (He : tagRegex_exec "<discarded_context_summary>"
                     "</discarded_context_summary>" text
                   = Some (trim body, post))
        by (apply tagRegex_exec_first; exists pre, body;
            split; [exact Hf | reflexivity]).
      rewrite He, trim_idempotent. reflexivity.
  - intros summary H.
    destruct (tagRegex_exec _ _ text) as [[group rest]|] eqn:He;
      [|discriminate].
    injection H as <-.
    destruct (tagRegex_exec_sound _ _ _ _ _ He) as [pre [body [_ ->]]].
    rewrite !trim_idempotent. reflexivity.
  - split.
    + intros H pre body post Ht. unfold tagged in Ht. subst text.
      destruct (tagRegex_exec _ _ _) as [[g r]|] eqn:He; [discriminate|].
      exact (tagRegex_exec_complete _ _ _ _ _ He).
    + intro Hno.
      destruct (tagRegex_exec _ _ text) as [[group rest]|] eqn:He;
        [|reflexivity].
      destruct (tagRegex_exec_sound _ _ _ _ _ He) as [pre [body [Ht _]]].
      destruct (Hno pre body rest Ht).
Qed.

Lemma execLoop_run_sound_goals (text : string) (fuel : nat) :
  forall (t pfx : string) (acc : list string),
    text = pfx ++ t ->
    Forall (fun g => g <> "" /\ exists pre body post,
                       tagged "<goal>" "</goal>" pre body post text
                       /\ g = trim body) acc ->
    Forall (fun g => g <> "" /\ exists pre body post,
                       tagged "<goal>" "</goal>" pre body post text
                       /\ g = trim body) (execLoop_run fuel t acc).
Proof.
  induction fuel as [|fuel IH]; intros t pfx acc Ht Hacc; simpl; [exact Hacc|].
  destruct (goalRegex_exec t) as [[group rest]|] eqn:He; [|exact Hacc].
  destruct (tagRegex_exec_sound _ _ _ _ _ He) as [pre [body [Hb ->]]].
  unfold tagged in Hb.
  apply (IH rest (pfx ++ pre ++ "<goal>" ++ body ++ "</goal>")).
  - rewrite Ht, Hb, !append_assoc. reflexivity.
  - rewrite trim_idempotent, pushGoal_filter. apply Forall_app.
    split; [exact Hacc|].
    destruct (trim body) as [|c u] eqn:Eb; simpl; constructor; [|constructor].
    split; [discriminate|].
    exists (pfx ++ pre), body, rest. split; [|symmetry; exact Eb].
    unfold tagged. rewrite Ht, Hb, !append_assoc. reflexivity.
Qed.

(** Every goal [parseGoals] returns is the trimmed, non-empty text between
    a [<goal>] and a [</goal>] of the response; a response without an
    opening tag followed by a closing tag gives no goal. *)
Theorem parseGoals_from_tags (text : string) :
  Forall (fun g => g <> "" /\ exists pre body post,
                     tagged "<goal>" "</goal>" pre body post text
                     /\ g = trim body) (parseGoals text)
  /\ ((forall pre body post, ~ tagged "<goal>" "</goal>" pre body post text) ->
      parseGoals text = []).
Proof.
  split.
  - apply (execLoop_run_sound_goals text (String.length text) text "" []);
      [reflexivity | constructor].
  - intro Hno. unfold parseGoals.
    destruct (String.length text) as [|fuel]; [reflexivity|]. simpl.
    destruct (goalRegex_exec text) as [[group rest]|] eqn:He; [|reflexivity].
    destruct (tagRegex_exec_sound _ _ _ _ _ He) as [pre [body [Ht _]]].
    destruct (Hno pre body rest Ht).
Qed.

(** ** The round trip through the format of the prompt *)

Lemma splitAtFirst_skip (a : ascii) (p s t : string) :
  a = "<"%char -> hasLt s = false ->
  splitAtFirst (String a p) (s ++ t)
  = match splitAtFirst (String a p) t with
    | Some (before, after) => Some (s ++ before, after)
    | None => None
    end.
Proof.
  intros -> Hs. induction s as [|c s IH].
  - simpl append. destruct (splitAtFirst _ t) as [[b r]|]; reflexivity.
  - simpl in Hs. apply orb_false_iff in Hs. destruct Hs as [Hc Hs].
    simpl append. cbn [splitAtFirst stripPrefix].
    rewrite Ascii.eqb_sym, Hc. rewrite (IH Hs).
    destruct (splitAtFirst _ t) as [[b r]|]; reflexivity.
Qed.

Lemma splitAtFirst_here (pat rest : string) :
  splitAtFirst pat (pat ++ rest) = Some ("", rest).
Proof.
  destruct (pat ++ rest) as [|d t] eqn:E; cbn [splitAtFirst];
    rewrite <- E, stripPrefix_append; reflexivity.
Qed.

Lemma hasLt_append (a b : string) : hasLt (a ++ b) = hasLt a || hasLt b.
Proof.
  induction a as [|c a IH]; simpl; [reflexivity|].
  rewrite IH, orb_assoc. reflexivity.
Qed.

(** A goal between its tags, after text without [<]: the match is that
    goal and ends after its closing tag. *)
Lemma goalRegex_exec_rendered (sep g tail : string) :
  hasLt sep = false -> hasLt g = false ->
  goalRegex_exec (sep ++ "<goal>" ++ g ++ "</goal>" ++ tail)
  = Some (trim g, tail).
Proof.
  intros Hsep Hg. unfold goalRegex_exec, tagRegex_exec.
  rewrite (splitAtFirst_skip "<"%char "goal>" sep _ eq_refl Hsep).
  rewrite splitAtFirst_here.
  rewrite (splitAtFirst_skip "<"%char "/goal>" g ("</goal>" ++ tail) eq_refl Hg).
  rewrite splitAtFirst_here. rewrite append_empty_r. reflexivity.
Qed.

Lemma goalRegex_exec_end (sep : string) :
  hasLt sep = false -> goalRegex_exec (sep ++ "</goals>") = None.
Proof.
  intro Hsep. unfold goalRegex_exec, tagRegex_exec.
  rewrite (splitAtFirst_skip "<"%char "goal>" sep _ eq_refl Hsep).
  reflexivity.
Qed.

Lemma execLoop_rendered (gs : list string) :
  Forall (fun g => hasLt g = false) gs ->
  forall sep acc,
    hasLt sep = false ->
    execLoop (sep ++ renderGoalLines gs "</goals>") acc
      (acc ++ filter nonEmpty (map trim gs))%list.
Proof.
  induction 1 as [|g gs Hg _ IH]; intros sep acc Hsep.
  - simpl. rewrite app_nil_r. apply execLoop_null.
    apply goalRegex_exec_end. exact Hsep.
  - cbn [renderGoalLines map].
    replace (sep ++ "  <goal>" ++ g ++ "</goal>" ++ newline
             ++ renderGoalLines gs "</goals>")
      with ((sep ++ "  ") ++ "<goal>" ++ g ++ "</goal>" ++ newline
            ++ renderGoalLines gs "</goals>")
      by (rewrite append_assoc; reflexivity).
    eapply execLoop_match.
    + apply goalRegex_exec_rendered; [|exact Hg].
      rewrite hasLt_append, Hsep. reflexivity.
    + rewrite trim_idempotent, pushGoal_filter.
      specialize (IH newline (acc ++ filter nonEmpty [trim g])%list eq_refl).
      rewrite <- app_assoc in IH.
      replace (filter nonEmpty (trim g :: map trim gs))
        with (filter nonEmpty [trim g] ++ filter nonEmpty (map trim gs))%list
        by (simpl; destruct (nonEmpty (trim g)); reflexivity).
      exact IH.
Qed.

Lemma splitAtFirst_cons (pat : string) (c : ascii) (s : string) :
  splitAtFirst pat (String c s)
  = match stripPrefix pat (String c s) with
    | Some rest => Some ("", rest)
    | None =>
        match splitAtFirst pat s with
        | Some (before, after) => Some (String c before, after)
        | None => None
        end
    end.
Proof. reflexivity. Qed.

Lemma goalRegex_exec_wrapper (t : string) :
  goalRegex_exec ("<goals>" ++ t) = goalRegex_exec t.
Proof.
  unfold goalRegex_exec, tagRegex_exec.
  change ("<goals>" ++ t) with (String "<" ("goals>" ++ t)).
  rewrite splitAtFirst_cons.
  replace (stripPrefix "<goal>" (String "<" ("goals>" ++ t)))
    with (@None string) by reflexivity.
  rewrite (splitAtFirst_skip "<"%char "goal>" "goals>" t eq_refl eq_refl).
  destruct (splitAtFirst "<goal>" t) as [[b a]|]; reflexivity.
Qed.

Lemma execLoop_wrapper (t : string) (acc result : list string) :
  execLoop t acc result -> execLoop ("<goals>" ++ t) acc result.
Proof.
  intro H. inversion H as [t' a Hn|t' a group rest r He Hr]; subst.
  - apply execLoop_null. rewrite goalRegex_exec_wrapper. exact Hn.
  - eapply execLoop_match; [rewrite goalRegex_exec_wrapper; exact He|].
    exact Hr.
Qed.

(** An answer in the format the prompt shows is read back: the goals on
    lines of their own, indented, inside the [<goals>] wrapper.  When no
    goal holds the character [<], parsing the answer gives the trimmed
    goals that are not empty, in their order. *)
Theorem parseGoals_renderGoals (gs : list string) :
  Forall (fun g => hasLt g = false) gs ->
  parseGoals (renderGoals gs) = filter nonEmpty (map trim gs).
Proof.
  intro Hgs. destruct gs as [|g gs]; [reflexivity|].
  apply (execLoop_deterministic (renderGoals (g :: gs)) []).
  - apply parseGoals_runs_loop.
  - unfold renderGoals. apply execLoop_wrapper.
    exact (execLoop_rendered (g :: gs) Hgs newline [] eq_refl).
Qed.

End ParseGoals.

Lemma extractDiscardedContextSummary_spec_witness :
  exists pre body post,
    firstTagged "<discarded_context_summary>" "</discarded_context_summary>"
      pre body post MoreExamples.snapshot
    /\ "old chatter about fonts" = trim body.
Proof.
  apply (proj1 (proj1 (extractDiscardedContextSummary_spec
                         MoreExamples.snapshot)
                  "old chatter about fonts")).
  vm_compute. reflexivity.
Defined.

Lemma parseGoals_from_tags_witness :
  parseGoals MoreExamples.unclosed = [].
Proof.
  apply (proj2 (parseGoals_from_tags MoreExamples.unclosed)).
  intros pre body post H. unfold tagged in H.
  apply (tagRegex_exec_complete "<goal>" "</goal>" pre body post).
  rewrite <- H. vm_compute. reflexivity.
Defined.

(** The three goals of the prompt, rendered: the answer the prompt shows,
    line by line. *)
Example renderGoals_prompt_format :
  renderGoals ["First specific goal";
               "Second specific goal (if applicable)";
               "Third specific goal (if applicable)"]
  = "<goals>
  <goal>First specific goal</goal>
  <goal>Second specific goal (if applicable)</goal>
  <goal>Third specific goal (if applicable)</goal>
</goals>"
  /\ renderGoals [] = "<goals></goals>".
Proof. split; reflexivity. Qed.

Lemma parseGoals_renderGoals_witness :
  parseGoals (renderGoals ["  Implement OAuth "; "   "; "Fix the login test"])
  = ["Implement OAuth"; "Fix the login test"].
Proof.
  apply (parseGoals_renderGoals
           ["  Implement OAuth "; "   "; "Fix the login test"]).
  repeat constructor.
Defined.

Section ExtractGoalsMore.
Variable history : list Content.
Variable generateContent : list Content -> RaceOutcome.
Variable options : option GoalExtractionOptions.

Lemma determineConfidence_cases (gs : list string) (t : string) :
  (determineConfidence gs t = none <-> gs = [])
  /\ (determineConfidence gs t = high
      <-> exists g, gs = [g] /\ 30 < String.length g)
  /\ (determineConfidence gs t = low
      <-> exists g, gs = [g] /\ String.length g <= 30)
  /\ (determineConfidence gs t = medium <-> 2 <= List.length gs).
Proof.
  destruct gs as [|g [|g' gs]]; simpl.
  - repeat split; try discriminate; try lia; try reflexivity;
      intros [g [H _]]; discriminate.
  - destruct (Nat.ltb_spec 30 (String.length g)).
    + repeat split; try discriminate; try lia.
      * intros _. exists g. split; [reflexivity | assumption].
      * intros [g0 [Hg Hl]]. injection Hg as <-. lia.
    + repeat split; try discriminate; try lia.
      * intros [g0 [Hg Hl]]. injection Hg as <-. lia.
      * intros _. exists g. split; [reflexivity | assumption].
  - repeat split; try discriminate; try lia; try reflexivity;
      intros [g0 [H _]]; discriminate.
Qed.

(** The fields of an extraction result agree: the confidence is ['none']
    exactly when there is no goal, ['high'] for a single goal of more than
    30 characters, ['low'] for a single shorter goal and ['medium'] for two
    goals or more; a result with an error tag has no goals, and the tag is
    ['timeout'] or ['extraction_failed']. *)
Theorem extractGoals_result_consistent :
  exists r,
    extractGoals history generateContent options = Returns r
    /\ (confidence r = none <-> goals r = [])
    /\ (confidence r = high
        <-> exists g, goals r = [g] /\ 30 < String.length g)
    /\ (confidence r = low
        <-> exists g, goals r = [g] /\ String.length g <= 30)
    /\ (confidence r = medium <-> 2 <= List.length (goals r))
    /\ match error r with
       | None => True
       | Some tag =>
           goals r = []
           /\ (tag = "timeout" \/ tag = "extraction_failed")
       end.
Proof.
  unfold extractGoals.
  destruct (raceResult _) as [response|e]; eexists; (split; [reflexivity|]);
    cbn [goals confidence error].
  - pose proof (determineConfidence_cases
                  (parseGoals match response with Some t => t | None => "" end)
                  match response with Some t => t | None => "" end)
      as [H1 [H2 [H3 H4]]].
    repeat split; try apply H1; try apply H2; try apply H3; try apply H4.
  - pose proof (determineConfidence_cases [] "") as [H1 [H2 [H3 H4]]].
    simpl in H1, H2, H3, H4.
    repeat split; try apply H1; try apply H2; try apply H3; try apply H4;
      try reflexivity.
    destruct e as [m|d]; [destruct (String.eqb m "Timeout")|]; auto.
Qed.

(** The window [extractGoals] sends: the question preceded by the last
    [maxMessages] messages of the history, that is all of it when it is
    shorter; with [maxMessages = 0] the whole history is sent
    ([slice(-0)]). *)
Theorem extractionContents_window :
  exists older recent,
    history = (older ++ recent)%list
    /\ extractionContents history options
       = (recent ++ [goalExtractionQuestion])%list
    /\ List.length recent
       = (if (maxMessagesOf options =? 0)%nat then List.length history
          else Nat.min (maxMessagesOf options) (List.length history)).
Proof.
  unfold extractionContents. fold (maxMessagesOf options).
  destruct (maxMessagesOf options) as [|m] eqn:Hm; unfold recentHistory.
  - exists [], history. repeat split.
  - exists (firstn (List.length history - S m) history),
           (skipn (List.length history - S m) history).
    split; [symmetry; apply firstn_skipn|]. split; [reflexivity|].
    cbn [Nat.eqb]. rewrite length_skipn. lia.
Qed.

End ExtractGoalsMore.

(* ================================================================== *)
(** * More on the SplitPlanner *)
(* ================================================================== *)

Section SplitPlannerMore.
Context {J : Stringifier}.

Lemma firstn_app_exact {A} (pre rest : list A) :
  firstn (List.length pre) (pre ++ rest) = pre.
Proof.
  induction pre as [|a pre IH]; simpl; [destruct rest; reflexivity|].
  rewrite IH. reflexivity.
Qed.

Lemma weightBefore_prefix (pre rest : list Content) :
  weightBefore (pre ++ rest) (List.length pre)
  = fold_left add (map charCount pre) n0.
Proof. unfold weightBefore. rewrite firstn_app_exact. reflexivity. Qed.

(** The scan returns the first candidate at which the accumulated weight
    has reached the target; when it ends without one, it has seen every
    candidate and remembers the last. *)
Lemma splitLoop_first (target : number) (contents : list Content) :
  forall (rest pre : list Content) (last : nat),
    contents = (pre ++ rest)%list ->
    (forall j, j < List.length pre -> userBoundary contents j ->
               ge (weightBefore contents j) target = false /\ j <= last) ->
    (last = 0 \/ userBoundary contents last) ->
    match splitLoop target rest (List.length pre) last
            (weightBefore contents (List.length pre)) with
    | LoopReturn r =>
        userBoundary contents r
        /\ ge (weightBefore contents r) target = true
        /\ (forall j, j < r -> userBoundary contents j ->
                      ge (weightBefore contents j) target = false)
    | LoopDone l =>
        (forall j, userBoundary contents j ->
                   ge (weightBefore contents j) target = false /\ j <= l)
        /\ (l = 0 \/ userBoundary contents l)
    end.
Proof.
  induction rest as [|c rest' IH]; intros pre last Hc Hseen Hlast.
  - simpl. split; [|exact Hlast].
    intros j Hj. apply Hseen; [|exact Hj].
    destruct Hj as [c [Hn _]].
    assert (j < List.length contents) by (apply nth_error_Some; congruence).
    subst contents. rewrite length_app in *. simpl in *. lia.
  - assert (Hnth : nth_error contents (List.length pre) = Some c).
    { subst contents. rewrite nth_error_app2 by lia.
      rewrite Nat.sub_diag. reflexivity. }
    assert (Hc' : contents = ((pre ++ [c]) ++ rest')%list)
      by (rewrite <- app_assoc; exact Hc).
    assert (Hlen : List.length (pre ++ [c]) = List.length pre + 1)
      by (rewrite length_app; reflexivity).
    assert (Hw : add (weightBefore contents (List.length pre)) (charCount c)
                 = weightBefore contents (List.length (pre ++ [c]))).
    { rewrite Hc at 1. rewrite weightBefore_prefix.
      rewrite Hc' at 1. rewrite weightBefore_prefix.
      rewrite map_app, fold_left_app. reflexivity. }
    cbn [splitLoop]. rewrite Hw, <- Hlen.
    destruct (isSplitCandidate c) eqn:Hcand.
    + assert (Hb : userBoundary contents (List.length pre)).
      { exists c. split; [exact Hnth|]. apply isSplitCandidate_true. exact Hcand. }
      destruct (ge (weightBefore contents (List.length pre)) target) eqn:Hge.
      * split; [exact Hb|]. split; [exact Hge|].
        intros j Hj Hu. apply (Hseen j Hj Hu).
      * apply (IH (pre ++ [c])%list (List.length pre) Hc'); [|right; exact Hb].
        intros j Hj Hu. rewrite Hlen in Hj.
        destruct (Nat.eq_dec j (List.length pre)) as [->|Hne].
        -- split; [exact Hge | lia].
        -- destruct (Hseen j ltac:(lia) Hu) as [H1 H2]. split; [exact H1 | lia].
    + apply (IH (pre ++ [c])%list last Hc'); [|exact Hlast].
      intros j Hj Hu. rewrite Hlen in Hj.
      destruct (Nat.eq_dec j (List.length pre)) as [->|Hne].
      * exfalso. destruct Hu as [c0 [Hn0 Hu]].
        assert (c0 = c) by congruence. subst c0.
        apply isSplitCandidate_true in Hu. congruence.
      * apply Hseen; [lia | exact Hu].
Qed.

(** The percentage strategy splits at the first user message without
    function response before which the accumulated weight has reached
    [totalWeight * fraction].  When no such message reaches the target, it
    splits at the full length if the history ends with a model message
    without function call, and otherwise at the last such user message (at 0
    when there is none). *)
Theorem percentageSplitIndex_first_candidate (contents : list Content)
    (fraction : number) :
  let r := percentageSplitIndex contents fraction in
  (forall i, userBoundary contents i ->
             reachesTarget contents fraction i = true ->
     userBoundary contents r
     /\ reachesTarget contents fraction r = true
     /\ r <= i
     /\ (forall j, j < r -> userBoundary contents j ->
                   reachesTarget contents fraction j = false))
  /\ ((forall i, userBoundary contents i ->
                 reachesTarget contents fraction i = false) ->
      (safeToCompressEverything contents = true -> r = List.length contents)
      /\ (safeToCompressEverything contents = false ->
          (r = 0 \/ userBoundary contents r)
          /\ (forall i, userBoundary contents i -> i <= r))).
Proof.
  cbv zeta. unfold percentageSplitIndex, reachesTarget.
  set (target := mul (totalCharCount contents) fraction).
  pose proof (splitLoop_first target contents contents [] 0 eq_refl) as H.
  change (List.length (@nil Content)) with 0 in H.
  change (weightBefore contents 0) with n0 in H.
  specialize (H ltac:(intros j Hj; inversion Hj) (or_introl eq_refl)).
  destruct (splitLoop target contents 0 0 n0) as [r|l].
  - destruct H as [Hb [Hge Hfirst]]. split.
    + intros i Hi Hr. repeat split; try assumption.
      destruct (Nat.le_gt_cases r i) as [|Hlt]; [assumption|].
      rewrite (Hfirst i Hlt Hi) in Hr. discriminate.
    + intro Hnone. rewrite (Hnone r Hb) in Hge. discriminate.
  - destruct H as [Hall Hl]. split.
    + intros i Hi Hr. rewrite (proj1 (Hall i Hi)) in Hr. discriminate.
    + intros _. split; intro Hs; rewrite Hs; [reflexivity|].
      split; [exact Hl|]. intros i Hi. apply (Hall i Hi).
Qed.

Lemma percentage_options_eq (contents : list Content)
    (options : SplitPointOptions) :
  strategy options = percentage ->
  findCompressSplitPoint contents (inr options)
  = Returns (RetResult
               (splitAt contents
                  (percentageSplitIndex contents
                     (sub n1 (thresholdOf options))))).
Proof.
  intros Hs.
  unfold findCompressSplitPoint, percentageSplitIndex, thresholdOf.
  rewrite Hs.
  destruct (splitLoop _ contents 0 0 n0) as [r|l]; [reflexivity|].
  destruct (safeToCompressEverything contents); [|reflexivity].
  unfold splitAt. rewrite firstn_all, skipn_all. reflexivity.
Qed.

(** The options form of the percentage strategy returns the split at the
    index the legacy form computes for [fraction = 1 - preserveThreshold],
    and it does so for every threshold: the range test of the legacy form is
    not made. *)
Theorem percentage_forms_agree (contents : list Content)
    (options : SplitPointOptions) :
  strategy options = percentage ->
  let fraction := sub n1 (thresholdOf options) in
  findCompressSplitPoint contents (inr options)
  = Returns (RetResult
               (splitAt contents (percentageSplitIndex contents fraction)))
  /\ findCompressSplitPoint contents (inl fraction)
     = (if le fraction n0 || ge fraction n1
        then Throws (ErrorObject "Fraction must be between 0 and 1")
        else Returns (RetNumber (percentageSplitIndex contents fraction))).
Proof.
  intros Hs. cbv zeta. split; [|reflexivity].
  exact (percentage_options_eq contents options Hs).
Qed.

Lemma lastUserMessageIndex_range (contents : list Content) (n : nat) :
  (-1 <= lastUserMessageIndex contents n < Z.of_nat n)%Z.
Proof.
  induction n as [|i IH]; simpl; [lia|].
  destruct (nth_error contents i) as [c|]; [destruct (role_is "user" c)|]; lia.
Qed.

(** What [findCompressSplitPoint] returns by the form of its argument: a
    number within the history, or the error, for a fraction; for options a
    result object whose two parts are the history cut at [splitIndex], or
    [null], which only the ['since-last-prompt'] strategy gives.  The
    options form never throws. *)
Theorem findCompressSplitPoint_result_shape (contents : list Content) :
  (forall fraction : number,
     match findCompressSplitPoint contents (inl fraction) with
     | Returns (RetNumber n) => n <= List.length contents
     | Returns _ => False
     | Throws e => e = ErrorObject "Fraction must be between 0 and 1"
     end)
  /\ (forall options : SplitPointOptions,
       match findCompressSplitPoint contents (inr options) with
       | Returns (RetResult r) =>
           (historyToCompress r ++ historyToKeep r)%list = contents
           /\ List.length (historyToCompress r) = splitIndex r
           /\ r = splitAt contents (splitIndex r)
       | Returns RetNull => strategy options = since_last_prompt
       | Returns (RetNumber _) => False
       | Throws _ => False
       end).
Proof.
  split.
  - intro fraction. unfold findCompressSplitPoint.
    destruct (le fraction n0 || ge fraction n1); [reflexivity|].
    apply validBoundary_in_range, percentageSplitIndex_valid.
  - intro options. destruct (strategy options) eqn:Hs.
    + rewrite (percentage_options_eq contents options Hs).
      cbn [splitAt historyToCompress historyToKeep splitIndex].
      split; [apply firstn_skipn|]. split; [|reflexivity].
      apply firstn_length_le, validBoundary_in_range,
        percentageSplitIndex_valid.
    + unfold findCompressSplitPoint. rewrite Hs.
      pose proof (lastUserMessageIndex_range contents (List.length contents))
        as Hk.
      destruct (_ <=? 0)%Z; [reflexivity|].
      destruct (_ <? _)%Z; [reflexivity|].
      cbn [historyToCompress historyToKeep splitIndex].
      unfold slice_to, slice_from.
      split; [apply firstn_skipn|]. split; [|reflexivity].
      apply firstn_length_le. lia.
Qed.

End SplitPlannerMore.

Lemma percentage_forms_agree_witness :
  findCompressSplitPoint (J := Examples.stringifier) Examples.fourMessages
    (inr {| strategy := percentage; minMessagesToCompress := None;
            preserveThreshold := Some n1 |})
  = Returns (RetResult (splitAt Examples.fourMessages 0))
  /\ findCompressSplitPoint (J := Examples.stringifier) Examples.fourMessages
       (inl (sub n1 n1))
     = Throws (ErrorObject "Fraction must be between 0 and 1").
Proof.
  exact (percentage_forms_agree (J := Examples.stringifier)
           Examples.fourMessages
           {| strategy := percentage; minMessagesToCompress := None;
              preserveThreshold := Some n1 |} eq_refl).
Defined.

(* ================================================================== *)
(** * More on the CompactionExecutor *)
(* ================================================================== *)

Section CompactionExecutorMore.
Context {J : Stringifier}.
Variable svc : Services.

Lemma default_fraction_in_range :
  outOfRange (sub n1 COMPRESSION_PRESERVE_THRESHOLD) = false.
Proof. vm_compute. reflexivity. Qed.

Lemma legacy_split (history : list Content) (fraction : number) :
  findCompressSplitPoint history (inl fraction)
  = if outOfRange fraction
    then Throws (ErrorObject "Fraction must be between 0 and 1")
    else Returns (RetNumber (percentageSplitIndex history fraction)).
Proof. reflexivity. Qed.

Lemma planSplit_since_last_prompt_eq (history : list Content)
    (options : option CompressionOptions) :
  strategyOf options = since_last_prompt ->
  planSplit history options
  = Returns (firstn (goalDirectedIndex history) history,
             skipn (goalDirectedIndex history) history).
Proof.
  intro Hs. unfold planSplit. fold (strategyOf options). rewrite Hs.
  unfold goalDirectedIndex.
  unfold findCompressSplitPoint at 1. cbn [strategy minMessagesToCompress].
  set (k := lastUserMessageIndex history (List.length history)).
  rewrite legacy_split, default_fraction_in_range.
  destruct (Z.leb_spec k 0) as [H0|H0].
  - destruct (Z.leb_spec 5 k); [lia | reflexivity].
  - change (Z.of_nat 5) with 5%Z.
    destruct (Z.ltb_spec k 5) as [H5|H5];
      destruct (Z.leb_spec 5 k); try lia; reflexivity.
Qed.

Lemma planSplit_percentage_eq (history : list Content)
    (options : option CompressionOptions) :
  strategyOf options = percentage ->
  planSplit history options
  = if outOfRange (fractionOf options)
    then Throws (ErrorObject "Fraction must be between 0 and 1")
    else Returns
           (firstn (percentageSplitIndex history (fractionOf options)) history,
            skipn (percentageSplitIndex history (fractionOf options)) history).
Proof.
  intro Hs. unfold planSplit. fold (strategyOf options). rewrite Hs.
  fold (fractionOf options). rewrite legacy_split.
  destruct (outOfRange (fractionOf options)); reflexivity.
Qed.

Lemma planSplit_app (history toCompress toKeep : list Content)
    (options : option CompressionOptions) :
  planSplit history options = Returns (toCompress, toKeep) ->
  (toCompress ++ toKeep)%list = history
  /\ List.length toCompress + List.length toKeep = List.length history.
Proof.
  intro H.
  assert (Hp : (toCompress ++ toKeep)%list = history).
  { destruct (strategyOf options) eqn:Hs.
    - rewrite (planSplit_percentage_eq history options Hs) in H.
      destruct (outOfRange (fractionOf options)); [discriminate|].
      injection H as <- <-. apply firstn_skipn.
    - rewrite (planSplit_since_last_prompt_eq history options Hs) in H.
      injection H as <- <-. apply firstn_skipn. }
  split; [exact Hp|]. rewrite <- Hp, length_app. reflexivity.
Qed.

(** The plan of a compaction.  A goal-directed one cuts the history at the
    last user message when at least five messages precede it and at the
    index of the percentage strategy with the default threshold otherwise,
    and never throws.  A percentage one cuts at the index of the percentage
    strategy for [1 - preserveThreshold], and throws the error of the legacy
    split when that fraction is not strictly between 0 and 1.  A plan that
    is returned cuts the history in two: nothing is lost, repeated or
    reordered. *)
Theorem planSplit_plan (history : list Content)
    (options : option CompressionOptions) :
  planSplit history options
  = match strategyOf options with
    | since_last_prompt =>
        Returns (firstn (goalDirectedIndex history) history,
                 skipn (goalDirectedIndex history) history)
    | percentage =>
        if outOfRange (fractionOf options)
        then Throws (ErrorObject "Fraction must be between 0 and 1")
        else Returns
               (firstn (percentageSplitIndex history (fractionOf options))
                  history,
                skipn (percentageSplitIndex history (fractionOf options))
                  history)
    end
  /\ (forall toCompress toKeep,
        planSplit history options = Returns (toCompress, toKeep) ->
        (toCompress ++ toKeep)%list = history
        /\ List.length toCompress + List.length toKeep
           = List.length history).
Proof.
  split.
  - destruct (strategyOf options) eqn:Hs.
    + exact (planSplit_percentage_eq history options Hs).
    + exact (planSplit_since_last_prompt_eq history options Hs).
  - intros toCompress toKeep. apply planSplit_app.
Qed.

(** A forced attempt reads neither the sticky failure flag nor the
    configuration. *)
Theorem compress_forced_independent (chat : GeminiChat) (model : string)
    (config config' : Config) (hasFailed hasFailed' : bool)
    (options : option CompressionOptions) :
  compress svc chat true model config hasFailed options
  = compress svc chat true model config' hasFailed' options.
Proof.
  unfold compress. cbn [negb andb]. rewrite !andb_false_r. reflexivity.
Qed.

(** A result of [compress] is of one of two kinds.  With status [NOOP]
    nothing was called or logged, there is no new history and the two token
    counts are equal.  Otherwise the events are, in order, one summarization
    call on the messages to compress, one token count of the parts of the
    initial history built on the new messages, and one telemetry record
    carrying the counts of the result; the
    result counts the messages of the plan, which add up to the history, and
    a [COMPRESSED] result carries the summary, the acknowledgement and the
    kept messages as its new history. *)
Theorem compress_returned_shape (chat : GeminiChat) (force : bool)
    (model : string) (config : Config) (hasFailed : bool)
    (options : option CompressionOptions)
    (trace : list Event) (r : CompressResult) :
  compress svc chat force model config hasFailed options
  = (trace, Returns r) ->
  (compressionStatus (info r) = NOOP
   /\ trace = []
   /\ newHistory r = None
   /\ messagesPreserved (info r) = None
   /\ messagesCompressed (info r) = None
   /\ newTokenCount (info r) = originalTokenCount (info r))
  \/ (exists toCompress toKeep summaryResponse requestParts,
        planSplit (curatedHistory chat) options = Returns (toCompress, toKeep)
        /\ toCompress <> []
        /\ generateSummary svc (toCompress ++ [summaryRequest])
             (getChatCompressionPrompt svc (goalOf options))
           = Returns summaryResponse
        /\ requestPartsOf svc (extraHistoryOf summaryResponse toKeep)
           = Returns requestParts
        /\ trace = fullTrace svc toCompress toKeep options requestParts
                     (originalTokenCount (info r)) (newTokenCount (info r))
        /\ compressionStatus (info r) <> NOOP
        /\ messagesPreserved (info r) = Some (List.length toKeep)
        /\ messagesCompressed (info r) = Some (List.length toCompress)
        /\ List.length toCompress + List.length toKeep
           = List.length (curatedHistory chat)
        /\ goalWasSelected (info r) = Some (truthy (goalOf options))
        /\ discardedContextSummary (info r)
           = extractDiscardedContextSummary (summaryText summaryResponse)
        /\ newHistory r
           = match compressionStatus (info r) with
             | COMPRESSED => Some (extraHistoryOf summaryResponse toKeep)
             | _ => None
             end).
Proof.
  intro H. unfold compress in H.
  assert (Hnoop : forall original,
             (trace, Returns r) = ret (noopResult original original) ->
             compressionStatus (info r) = NOOP
             /\ trace = []
             /\ newHistory r = None
             /\ messagesPreserved (info r) = None
             /\ messagesCompressed (info r) = None
             /\ newTokenCount (info r) = originalTokenCount (info r)).
  { intros original Hr. injection Hr as -> ->. repeat split. }
  destruct (_ || _); [left; exact (Hnoop _ (eq_sym H))|].
  destruct (_ && _); [left; exact (Hnoop _ (eq_sym H))|].
  destruct (planSplit (curatedHistory chat) options)
    as [[toCompress toKeep]|e] eqn:Hsplit; [|discriminate H].
  unfold lift, bind at 1 in H. cbn [app] in H.
  destruct (List.length toCompress =? 0)%nat eqn:Hlen;
    [left; exact (Hnoop _ (eq_sym H))|].
  clear Hnoop. right. unfold call, emit, ret, bind in H.
  fold (goalOf options) in H.
  destruct (generateSummary svc _ _) as [summaryResponse|e] eqn:Hsum;
    [|discriminate H].
  unfold lift in H.
  change (getInitialChatHistory svc _)
    with (getInitialChatHistory svc (extraHistoryOf summaryResponse toKeep))
    in H.
  destruct (getInitialChatHistory svc _) as [fullNewHistory|e] eqn:Hfull;
    [|discriminate H].
  exists toCompress, toKeep, summaryResponse, (partsOf fullNewHistory).
  split; [reflexivity|].
  split; [intros ->; discriminate Hlen|].
  split; [exact Hsum|].
  split; [unfold requestPartsOf; rewrite Hfull; reflexivity|].
  pose proof (planSplit_app _ _ _ _ Hsplit) as [_ Hadd].
  fold (partsOf fullNewHistory) in H.
  destruct (calculateRequestTokenCount svc (partsOf fullNewHistory))
    as [count|e]; [|discriminate H].
  destruct (gt count (lastPromptTokenCount chat));
    injection H as <- <-;
    cbn [info compressionStatus newTokenCount originalTokenCount newHistory
         messagesPreserved messagesCompressed goalWasSelected
         discardedContextSummary];
    repeat split; try discriminate; exact Hadd.
Qed.

(** [compress] rejects in four ways only: with the error of the split
    plan, before any call; with the rejection of the summarization model,
    after that one call; with the rejection of [getInitialChatHistory],
    after the summarization call has resolved and before the token count;
    or with the rejection of the token counter, after the two recorded
    calls.  A rejected attempt logs no telemetry. *)
Theorem compress_rejections (chat : GeminiChat) (force : bool)
    (model : string) (config : Config) (hasFailed : bool)
    (options : option CompressionOptions)
    (trace : list Event) (e : Thrown) :
  compress svc chat force model config hasFailed options
  = (trace, Throws e) ->
  ((trace = [] /\ planSplit (curatedHistory chat) options = Throws e)
   \/ (exists toCompress toKeep,
         planSplit (curatedHistory chat) options
         = Returns (toCompress, toKeep)
         /\ trace = [SummarizationCall (toCompress ++ [summaryRequest])
                       (getChatCompressionPrompt svc (goalOf options))]
         /\ generateSummary svc (toCompress ++ [summaryRequest])
              (getChatCompressionPrompt svc (goalOf options)) = Throws e)
   \/ (exists toCompress toKeep summaryResponse,
         planSplit (curatedHistory chat) options
         = Returns (toCompress, toKeep)
         /\ trace = [SummarizationCall (toCompress ++ [summaryRequest])
                       (getChatCompressionPrompt svc (goalOf options))]
         /\ generateSummary svc (toCompress ++ [summaryRequest])
              (getChatCompressionPrompt svc (goalOf options))
            = Returns summaryResponse
         /\ getInitialChatHistory svc
              (extraHistoryOf summaryResponse toKeep) = Throws e)
   \/ (exists toCompress toKeep summaryResponse requestParts,
         planSplit (curatedHistory chat) options
         = Returns (toCompress, toKeep)
         /\ requestPartsOf svc (extraHistoryOf summaryResponse toKeep)
            = Returns requestParts
         /\ trace = [SummarizationCall (toCompress ++ [summaryRequest])
                       (getChatCompressionPrompt svc (goalOf options));
                     TokenCountCall requestParts]
         /\ calculateRequestTokenCount svc requestParts = Throws e))
  /\ (forall before after goal preserved compressed reason,
        ~ In (ChatCompressionLogged before after goal preserved compressed
                reason) trace).
Proof.
  intro H. unfold compress in H.
  destruct (_ || _); [discriminate H|].
  destruct (_ && _); [discriminate H|].
  destruct (planSplit (curatedHistory chat) options)
    as [[toCompress toKeep]|e0] eqn:Hsplit.
  - unfold lift, bind at 1 in H. cbn [app] in H.
    destruct (List.length toCompress =? 0)%nat; [discriminate H|].
    unfold call, emit, ret, bind, lift in H. fold (goalOf options) in H.
    destruct (generateSummary svc _ _) as [summaryResponse|e1] eqn:Hsum.
    + change (getInitialChatHistory svc _)
        with (getInitialChatHistory svc
                (extraHistoryOf summaryResponse toKeep)) in H.
      destruct (getInitialChatHistory svc _) as [fullNewHistory|e3]
        eqn:Hfull.
      * fold (partsOf fullNewHistory) in H.
        destruct (calculateRequestTokenCount svc (partsOf fullNewHistory))
          as [count|e2] eqn:Hcount.
        -- destruct (gt count (lastPromptTokenCount chat)); discriminate H.
        -- injection H as <- <-. split.
           ++ right; right; right.
              exists toCompress, toKeep, summaryResponse,
                (partsOf fullNewHistory).
              split; [reflexivity|].
              split; [unfold requestPartsOf; rewrite Hfull; reflexivity|].
              split; [reflexivity | exact Hcount].
           ++ intros b a g p c r [Hin|[Hin|[]]]; discriminate Hin.
      * injection H as <- <-. split.
        -- right; right; left. exists toCompress, toKeep, summaryResponse.
           split; [reflexivity|]. split; [reflexivity|].
           split; [exact Hsum | exact Hfull].
        -- intros b a g p c r [Hin|[]]; discriminate Hin.
    + injection H as <- <-. split.
      * right; left. exists toCompress, toKeep. repeat split. exact Hsum.
      * intros b a g p c r [Hin|[]]; discriminate Hin.
  - injection H as <- <-. split.
    + left. split; reflexivity.
    + intros b a g p c r [].
Qed.

End CompactionExecutorMore.

(** A goal-directed plan on the ten messages cuts at index 8; a percentage
    plan that asks to keep everything throws. *)
Example planSplit_goal_directed :
  planSplit (J := Examples.stringifier) Examples.tenMessages
    (Some (createCompressionOptions (Some "Fixing the login test")))
  = Returns (firstn 8 Examples.tenMessages, skipn 8 Examples.tenMessages).
Proof. vm_compute. reflexivity. Qed.

Example planSplit_keep_everything_throws :
  planSplit (J := Examples.stringifier) Examples.tenMessages
    (Some {| userGoal := None; preserveStrategy := Some percentage;
             optPreserveThreshold := Some n1 |})
  = Throws (ErrorObject "Fraction must be between 0 and 1").
Proof. vm_compute. reflexivity. Qed.

Lemma compress_returned_shape_witness :
  exists toCompress toKeep summaryResponse requestParts,
    Examples.shrinkingTrace
    = fullTrace (Examples.services (of_Z 600)) toCompress toKeep None
        requestParts (of_Z 1000) (of_Z 600)
    /\ List.length toCompress + List.length toKeep = 10
    /\ newHistory Examples.shrinkingResult
       = Some (extraHistoryOf summaryResponse toKeep).
Proof.
  destruct (compress_returned_shape (J := Examples.stringifier)
              (Examples.services (of_Z 600)) (Examples.chatWith 1000) true
              "m" defaultConfig false None
              Examples.shrinkingTrace Examples.shrinkingResult)
    as [[Hn _]|[c [k [s [ps [_ [_ [_ [_ [Ht [_ [_ [_ [Hl [_ [_ Hh]]]]]]]]]]]]]]]].
  - vm_compute. reflexivity.
  - discriminate Hn.
  - exists c, k, s, ps. split; [exact Ht|]. split; [exact Hl | exact Hh].
Defined.

(** When the history builder rejects, [compress] rejects with its error
    after the summarization call, before any token count. *)
Example compress_history_builder_rejects :
  compress (J := Examples.stringifier) MoreExamples.noHistoryServices
    (Examples.chatWith 1000) true "m" defaultConfig false None
  = ([SummarizationCall
        (firstn 8 Examples.tenMessages ++ [summaryRequest]) "prompt"],
     Throws (ErrorObject "no environment")).
Proof. vm_compute. reflexivity. Qed.

Lemma compress_rejections_witness :
  MoreExamples.failingTrace
  = [SummarizationCall
       (firstn 8 Examples.tenMessages ++ [summaryRequest]) "prompt"]
  /\ forall before after goal preserved compressed reason,
       ~ In (ChatCompressionLogged before after goal preserved compressed
               reason) MoreExamples.failingTrace.
Proof.
  split; [vm_compute; reflexivity|].
  apply (compress_rejections (J := Examples.stringifier)
           MoreExamples.failingServices (Examples.chatWith 1000) true "m"
           defaultConfig false None MoreExamples.failingTrace
           (ErrorObject "503")).
  vm_compute. reflexivity.
Defined.

(* ================================================================== *)
(** * More on the TriggerEvaluator and the GuardState *)
(* ================================================================== *)

Section ClientMore.
Context {J : Stringifier}.
Variable svc : Services.
Variable model : string.
Variable newGeminiChat : list Content -> Completion GeminiChat.

(** The three fields of a trigger decision agree: the reason is one of six,
    [shouldCompress] holds exactly for the reasons ['utilization_threshold']
    and ['absolute_tokens'], [isSafetyValve] exactly for the first of them,
    and no decision to compress is taken while the lock is held. *)
Theorem trigger_decision_consistent (cl : GeminiClient) (now : number) :
  let d := shouldTriggerCompression svc model cl now in
  In (Trigger.reason d) triggerReasons
  /\ (Trigger.shouldCompress d = true
      <-> Trigger.reason d = "utilization_threshold"
          \/ Trigger.reason d = "absolute_tokens")
  /\ (Trigger.isSafetyValve d = true
      <-> Trigger.reason d = "utilization_threshold")
  /\ (Trigger.shouldCompress d = true -> isCompressing cl = false).
Proof.
  cbv zeta. unfold shouldTriggerCompression, triggerReasons.
  repeat match goal with
         | |- context [if ?b then _ else _] => destruct b
         end;
    cbn [decision Trigger.reason Trigger.shouldCompress Trigger.isSafetyValve];
    (split; [simpl; tauto|]);
    repeat split; try discriminate; try reflexivity; try tauto;
    try (intros [H|H]; discriminate H); auto.
Qed.

Lemma compress_COMPRESSED_history (chat : GeminiChat) (force : bool)
    (config : Config) (hasFailed : bool)
    (options : option CompressionOptions)
    (trace : list Event) (r : CompressResult) :
  compress svc chat force model config hasFailed options
  = (trace, Returns r) ->
  compressionStatus (info r) = COMPRESSED ->
  exists h, newHistory r = Some h.
Proof.
  intros H Hs. unfold compress in H.
  assert (Hnoop : forall a b, (trace, Returns r) = ret (noopResult a b) ->
                              exists h, newHistory r = Some h).
  { intros a b Hr. injection Hr as _ ->. discriminate Hs. }
  destruct (_ || _); [exact (Hnoop _ _ (eq_sym H))|].
  destruct (_ && _); [exact (Hnoop _ _ (eq_sym H))|].
  destruct (planSplit _ _) as [[toCompress toKeep]|e]; [|discriminate H].
  unfold lift, bind at 1 in H. cbn [app] in H.
  destruct (_ =? 0)%nat; [exact (Hnoop _ _ (eq_sym H))|].
  unfold call, emit, ret, bind, lift in H.
  destruct (generateSummary svc _ _); [|discriminate H].
  destruct (getInitialChatHistory svc _); [|discriminate H].
  destruct (calculateRequestTokenCount svc _); [|discriminate H].
  destruct (gt _ _); injection H as <- <-; [discriminate Hs|].
  eexists. reflexivity.
Qed.


Lemma tryCompressChat_unfold (cl : GeminiClient) (force : bool)
    (options : option CompressionOptions) (now : number) :
  tryCompressChat svc model newGeminiChat cl force options now
  = let run :=
      compress svc (chat cl) force model (config cl)
        (hasFailedCompressionAttempt cl) options in
    let '(cl', result) :=
      tryCompressChat_exit svc newGeminiChat (set_isCompressing true cl)
        force (snd run) now in
    (cl', fst run, result).
Proof.
  unfold tryCompressChat, tryCompressChat_enter.
  cbn [chat config hasFailedCompressionAttempt set_isCompressing].
  destruct (compress _ _ _ _ _ _ _) as [trace outcome]. reflexivity.
Qed.

(** What a call of [tryCompressChat] that returns has done, by the status
    it returns. *)
Lemma tryCompressChat_exit_returns (cl cl' : GeminiClient) (force : bool)
    (r : CompressResult) (now : number) (i : ChatCompressionInfo) :
  tryCompressChat_exit svc newGeminiChat cl force (Returns r) now
  = (cl', Returns i) ->
  i = info r
  /\ match compressionStatus (info r) with
     | COMPRESSION_FAILED_INFLATED_TOKEN_COUNT =>
         cl' = set_isCompressing false
                 (set_hasFailedCompressionAttempt (negb force) cl)
     | COMPRESSED =>
         match newHistory r with
         | Some h =>
             exists chat',
               startChat_exit newGeminiChat (getInitialChatHistory svc h)
               = Returns chat'
               /\ cl' = {| config := config cl;
                           chat := chat';
                           hasFailedCompressionAttempt := false;
                           messagesSinceLastCompress := n0;
                           lastCompressionTime := now;
                           isCompressing := false;
                           forceFullIdeContext := true |}
         | None => cl' = set_isCompressing false cl
         end
     | NOOP => cl' = set_isCompressing false cl
     end.
Proof.
  unfold tryCompressChat_exit, afterCompress. intro H.
  destruct (compressionStatus (info r)).
  - destruct (newHistory r) as [h|].
    + unfold startChat, startChat_enter in H.
      destruct (startChat_exit newGeminiChat (getInitialChatHistory svc h))
        as [chat'|e]; cbn in H; [|discriminate H].
      injection H as <- <-. split; [reflexivity|].
      exists chat'. split; reflexivity.
    + injection H as <- <-. split; reflexivity.
  - injection H as <- <-. rewrite andb_true_r. split; reflexivity.
  - injection H as <- <-. split; reflexivity.
Qed.

(** The sticky failure: after an attempt that was not forced ended with the
    inflated status, the flag is set, and every further attempt that is not
    forced ends at once with [NOOP] and counts 0, calls nothing and leaves
    the client as it is. *)
Theorem sticky_failure_blocks_next_attempt (cl cl1 : GeminiClient)
    (options : option CompressionOptions) (now : number)
    (trace1 : list Event) (info1 : ChatCompressionInfo) :
  tryCompressChat svc model newGeminiChat cl false options now
  = (cl1, trace1, Returns info1) ->
  compressionStatus info1 = COMPRESSION_FAILED_INFLATED_TOKEN_COUNT ->
  hasFailedCompressionAttempt cl1 = true
  /\ (forall options' now',
        tryCompressChat svc model newGeminiChat cl1 false options' now'
        = (cl1, [], Returns (info (noopResult n0 n0)))).
Proof.
  intros H Hs. rewrite tryCompressChat_unfold in H. cbv zeta in H.
  destruct (compress _ _ _ _ _ _ _) as [trace [r|e]]; cbn [fst snd] in H;
    [|discriminate H].
  destruct (tryCompressChat_exit svc newGeminiChat (set_isCompressing true cl)
              false (Returns r) now) as [c res] eqn:Hexit.
  injection H as -> _ ->.
  destruct (tryCompressChat_exit_returns _ _ _ _ _ _ Hexit) as [-> Hcl].
  rewrite Hs in Hcl. subst cl1.
  split; [reflexivity|].
  intros options' now'. rewrite tryCompressChat_unfold. cbv zeta.
  unfold compress.
  cbn [hasFailedCompressionAttempt set_isCompressing
       set_hasFailedCompressionAttempt negb andb].
  rewrite orb_true_r. reflexivity.
Qed.



(** What a selection does.  It changes nothing of the client but the
    configuration, and that only for ['disable'], which clears the
    interactive flag, and ['less_frequent'], which sets the two thresholds.
    The options carry the strategy ['since-last-prompt'] and a goal for
    every selection but the empty string: the selected text for a goal, the
    word ['auto'] for [null] and the three words of the prompt. *)
Theorem handleCompressionSelection_effects (cl : GeminiClient)
    (selection : option string) :
  let '(cl', feedback, options) := handleCompressionSelection cl selection in
  sameButConfig cl cl'
  /\ config cl'
     = (match selection with
        | Some "disable" => setCompressionInteractive false (config cl)
        | Some "less_frequent" =>
            setCompressionMinMessages (cappedMessages (config cl))
              (setCompressionTriggerTokens (cappedTokens (config cl))
                 (config cl))
        | _ => config cl
        end)
  /\ options
     = (if isKeyword selection then createCompressionOptions (Some "auto")
        else createCompressionOptions selection)
  /\ (preserveStrategy options = Some percentage <-> selection = Some "")
  /\ (selection <> Some "" ->
      preserveStrategy options = Some since_last_prompt
      /\ userGoal options
         = if isKeyword selection then Some "auto" else selection).
Proof.
  unfold handleCompressionSelection, isKeyword, sameButConfig.
  destruct selection as [sel|].
  - destruct (String.eqb_spec sel "disable") as [->|Hd].
    { cbn. repeat split; try discriminate. }
    destruct (String.eqb_spec sel "less_frequent") as [->|Hl].
    { cbn. repeat split; try discriminate. }
    destruct (String.eqb_spec sel "auto") as [->|Ha].
    { cbn. repeat split; try discriminate. }
    cbn [orb].
    assert (Hcfg : config cl
                   = match sel with
                     | "disable" => setCompressionInteractive false (config cl)
                     | "less_frequent" =>
                         setCompressionMinMessages (cappedMessages (config cl))
                           (setCompressionTriggerTokens
                              (cappedTokens (config cl)) (config cl))
                     | _ => config cl
                     end).
    { destruct (String.eqb sel "disable") eqn:E1;
        [apply String.eqb_eq in E1; contradiction|].
      destruct (String.eqb sel "less_frequent") eqn:E2;
        [apply String.eqb_eq in E2; contradiction|].
      clear - E1 E2. revert E1 E2.
      repeat match goal with
             | |- context [match ?x with _ => _ end] => destruct x
             end; intros; try reflexivity; cbn in *; discriminate. }
    split; [repeat split|]. split; [exact Hcfg|]. split; [reflexivity|].
    destruct sel as [|c t]; cbn.
    + split; [split; reflexivity|]. intro H. contradiction H. reflexivity.
    + split; [split; intro H; discriminate H|]. intros _. split; reflexivity.
  - cbn. repeat split; try discriminate.
Qed.

End ClientMore.

Lemma sticky_failure_blocks_next_attempt_witness :
  hasFailedCompressionAttempt MoreExamples.inflatedClient = true
  /\ (forall options' now',
        tryCompressChat (J := Examples.stringifier)
          (Examples.services (of_Z 700000)) "m" Examples.newGeminiChat
          MoreExamples.inflatedClient false options' now'
        = (MoreExamples.inflatedClient, [],
           Returns (info (noopResult n0 n0)))).
Proof.
  refine (sticky_failure_blocks_next_attempt (J := Examples.stringifier)
            (Examples.services (of_Z 700000)) "m" Examples.newGeminiChat
            (Examples.clientWith 600000 30) MoreExamples.inflatedClient
            None Examples.clock (snd (fst MoreExamples.inflatedRun))
            {| originalTokenCount := of_Z 600000;
               newTokenCount := of_Z 700000;
               compressionStatus := COMPRESSION_FAILED_INFLATED_TOKEN_COUNT;
               messagesPreserved := Some 2;
               messagesCompressed := Some 8;
               goalWasSelected := Some false;
               discardedContextSummary := Some "old chatter" |} _ _);
    vm_compute; reflexivity.
Defined.

(* ================================================================== *)
(** * More on the SelectionCoordinator *)
(* ================================================================== *)

Section SelectionMore.
Context {J : Stringifier}.
Variable svc : Services.
Variable model : string.
Variable newGeminiChat : list Content -> Completion GeminiChat.
Variable generateContent : list Content -> RaceOutcome.

(** The cases in which no prompt is asked for, with their reason. *)
Ltac skip_case r :=
  cbn [prepShouldPromptUser extractedGoals skipReason useBasicCompression
       selectedGoal shouldPrompt reason fallbackToBasicCompression negb];
  split; [reflexivity|];
  split; [split; [let H := fresh in intro H; discriminate H
                 | intros (? & ? & ? & ? & ? & ?); congruence]|];
  split; [split; [reflexivity|]; split; [reflexivity|];
          exists r; split; [reflexivity | simpl; tauto]
         | intros; congruence].

(** When [prepareDeliberateCompression] asks for a prompt and when not.
    It asks exactly when the feature is enabled, the safety valve is off,
    auto-skip is off and the model call won the race with at least one
    goal; the goals handed to the prompt are then those parsed, so the
    prompt never comes with an empty list.  Otherwise it hands over no goals,
    asks for basic compression and gives one of five reasons; a failed
    model call is reported as ['no_goals'], and ['extraction_failed'] is
    never given. *)
Theorem prepareDeliberateCompression_decision (history : list Content)
    (config : Config) (isSafetyValve : bool) :
  let prep :=
    prepareDeliberateCompression history generateContent config
      isSafetyValve in
  let outcome := generateContent (extractionContents history None) in
  selectedGoal prep = None
  /\ (prepShouldPromptUser prep = true
      <-> deliberateCompressionEnabled config = true
          /\ isSafetyValve = false
          /\ deliberateCompressionAutoSkip config = false
          /\ exists response,
               outcome = ResponseWins response
               /\ parseGoals (responseText response) <> [])
  /\ (if prepShouldPromptUser prep
      then skipReason prep = None
           /\ exists response,
                outcome = ResponseWins response
                /\ parseGoals (responseText response) <> []
                /\ extractedGoals prep
                   = Some (parseGoals (responseText response))
      else extractedGoals prep = None
           /\ useBasicCompression prep = Some true
           /\ exists reason,
                skipReason prep = Some reason /\ In reason skipReasons)
  /\ (forall e,
        outcome = ResponseFails e -> looksLikeTimeout e = false ->
        deliberateCompressionEnabled config = true -> isSafetyValve = false ->
        skipReason prep = Some "no_goals").
Proof.
  set (outcome := generateContent (extractionContents history None)).
  cbv zeta.
  unfold prepareDeliberateCompression, extractGoals, skipReasons.
  fold outcome.
  assert (Hfold : forall e, match e with
                    | ErrorObject message => String.eqb message "Timeout"
                    | NonError _ => false
                    end = looksLikeTimeout e) by reflexivity.
  destruct (deliberateCompressionEnabled config) eqn:He; cbn [negb];
    [|skip_case "disabled"].
  destruct outcome as [response|e|] eqn:Ho; cbn [raceResult];
    unfold shouldPromptUser; cbn [error goals];
    (destruct isSafetyValve; [skip_case "safety_valve"|]).
  - fold (responseText response).
    destruct (parseGoals (responseText response)) as [|g gs] eqn:Hg;
      [skip_case "no_goals"|].
    cbn [List.length Nat.eqb].
    destruct (deliberateCompressionAutoSkip config) eqn:Ha;
      [skip_case "auto_skip_enabled"|].
    cbn [prepShouldPromptUser extractedGoals skipReason useBasicCompression
         selectedGoal shouldPrompt reason fallbackToBasicCompression negb].
    split; [reflexivity|].
    split; [split; [intros _|reflexivity]|].
    + repeat split. exists response. split; [reflexivity|]. rewrite Hg. discriminate.
    + split; [split; [reflexivity|] | intros; congruence].
      exists response. rewrite Hg.
      split; [reflexivity|]. split; [discriminate|reflexivity].
  - rewrite Hfold. destruct (looksLikeTimeout e) eqn:Ht;
      cbn [String.eqb Ascii.eqb Bool.eqb List.length Nat.eqb goals error].
    + skip_case "extraction_timeout".
    + skip_case "no_goals".
  - skip_case "extraction_timeout".
Qed.

End SelectionMore.

(* ================================================================== *)
(** * The post-response check *)
(* ================================================================== *)

Section PostResponseMore.
Context {J : Stringifier}.
Variable svc : Services.
Variable model : string.
Variable newGeminiChat : list Content -> Completion GeminiChat.
Variable generateContent : list Content -> RaceOutcome.

Lemma shouldCompress_unlocked (cl : GeminiClient) (now : number) :
  Trigger.shouldCompress (shouldTriggerCompression svc model cl now) = true ->
  isCompressing cl = false.
Proof.
  unfold shouldTriggerCompression.
  destruct (isCompressing cl); [discriminate | reflexivity].
Qed.

Lemma handleCompressionSelection_lock (cl : GeminiClient)
    (selection : option string) :
  isCompressing (fst (fst (handleCompressionSelection cl selection)))
  = isCompressing cl.
Proof.
  unfold handleCompressionSelection. destruct selection as [sel|]; [|reflexivity].
  destruct (String.eqb sel "disable"); [reflexivity|].
  destruct (String.eqb sel "less_frequent"); [reflexivity|].
  destruct (String.eqb sel "auto"); reflexivity.
Qed.

Lemma compressAndReport_facts (cl : GeminiClient) (feedback : list Event)
    (options : CompressionOptions) (later : number) :
  let '(cl', events, result) :=
    compressAndReport svc model newGeminiChat cl feedback options later in
  isCompressing cl' = false
  /\ (forall compressed,
        result = Returns (Some compressed) ->
        compressionStatus compressed = COMPRESSED
        /\ messagesSinceLastCompress cl' = n0
        /\ lastCompressionTime cl' = later
        /\ hasFailedCompressionAttempt cl' = false).
Proof.
  unfold compressAndReport. rewrite tryCompressChat_unfold. cbv zeta.
  destruct (compress _ _ _ _ _ _ _) as [trace [r|e]] eqn:Hrun;
    cbn [snd fst].
  - pose proof (tryCompressChat_exit_unlocks svc newGeminiChat
                  (set_isCompressing true cl) true (Returns r) later) as Hu.
    destruct (tryCompressChat_exit svc newGeminiChat
                (set_isCompressing true cl) true (Returns r) later)
      as [c res] eqn:Hexit.
    cbn [fst] in Hu. split; [exact Hu|]. intros compressed Hc.
    destruct res as [i|e]; [|discriminate Hc].
    destruct (tryCompressChat_exit_returns svc newGeminiChat _ _ _ _ _ _ Hexit)
      as [-> Hcl].
    destruct (compressionStatus (info r)) eqn:Hs; try discriminate Hc.
    injection Hc as <-. split; [exact Hs|].
    destruct (compress_COMPRESSED_history _ _ _ _ _ _ _ _ _ Hrun Hs) as [h Hh].
    rewrite Hh in Hcl. destruct Hcl as [chat' [_ ->]]. repeat split.
  - cbn [tryCompressChat_exit]. split; [reflexivity|].
    intros compressed Hc. discriminate Hc.
Qed.

Variable onShowCompressionPrompt :
  list string -> bool -> Completion (option string).

(** [handlePostResponseCompression]: the lock is as it was before the
    call; with a negative trigger decision nothing is changed, nothing is
    emitted and [undefined] is returned; and a [ChatCompressed] event is
    returned only for the status [COMPRESSED], with the counters of the
    client reset and the failure flag cleared. *)
Theorem handlePostResponseCompression_outcome (cl : GeminiClient)
    (now later : number) :
  let d := shouldTriggerCompression svc model cl now in
  let '(cl', events, result) :=
    handlePostResponseCompression svc model newGeminiChat generateContent
      onShowCompressionPrompt cl now later in
  isCompressing cl' = isCompressing cl
  /\ (Trigger.shouldCompress d = false ->
      cl' = cl /\ events = [] /\ result = Returns None)
  /\ (forall compressed,
        result = Returns (Some compressed) ->
        compressionStatus compressed = COMPRESSED
        /\ messagesSinceLastCompress cl' = n0
        /\ lastCompressionTime cl' = later
        /\ hasFailedCompressionAttempt cl' = false).
Proof.
  cbv zeta. unfold handlePostResponseCompression.
  destruct (Trigger.shouldCompress (shouldTriggerCompression svc model cl now))
    eqn:Hd; cbn [negb].
  2:{ split; [reflexivity|]. split; [intros _; repeat split|].
      intros c Hc. discriminate Hc. }
  pose proof (shouldCompress_unlocked cl now Hd) as Hlock.
  assert (Hend : forall c fb opts,
             let '(cl', events, result) :=
               compressAndReport svc model newGeminiChat c fb opts later in
             isCompressing cl' = isCompressing cl
             /\ (true = false ->
                 cl' = cl /\ events = [] /\ result = Returns None)
             /\ (forall compressed,
                   result = Returns (Some compressed) ->
                   compressionStatus compressed = COMPRESSED
                   /\ messagesSinceLastCompress cl' = n0
                   /\ lastCompressionTime cl' = later
                   /\ hasFailedCompressionAttempt cl' = false)).
  { intros c fb opts.
    pose proof (compressAndReport_facts c fb opts later) as H.
    destruct (compressAndReport svc model newGeminiChat c fb opts later)
      as [[cl' ev] res].
    destruct H as [H1 H2]. split; [congruence|]. split; [discriminate|exact H2]. }
  destruct (compressionInteractive (config cl)); [|apply Hend].
  destruct (prepShouldPromptUser _); [|apply Hend].
  destruct (extractedGoals _) as [gs|]; [|apply Hend].
  destruct (onShowCompressionPrompt gs _) as [selection|e].
  - destruct (handleCompressionSelection cl selection) as [[c1 fb] opts].
    apply Hend.
  - split; [reflexivity|]. split; [discriminate|].
    intros c Hc. discriminate Hc.
Qed.

Lemma prepare_safety_valve (history : list Content) (config : Config) :
  prepShouldPromptUser
    (prepareDeliberateCompression history generateContent config true)
  = false.
Proof.
  unfold prepareDeliberateCompression.
  destruct (deliberateCompressionEnabled config); [|reflexivity]. cbn [negb].
  destruct (extractGoals _ _ _); reflexivity.
Qed.

(** The prompt callback is consulted only for a positive decision that is
    no safety valve, in interactive mode, when the preparation asks for the
    prompt: otherwise the call does not depend on the callback.  When it is
    consulted and rejects, the rejection is passed on, the client is
    unchanged and nothing is compacted. *)
Theorem prompt_consulted_only_for_goals
    (onShow onShow' : list string -> bool -> Completion (option string))
    (cl : GeminiClient) (now later : number) :
  let d := shouldTriggerCompression svc model cl now in
  let prep :=
    prepareDeliberateCompression (curatedHistory (chat cl)) generateContent
      (config cl) (Trigger.isSafetyValve d) in
  let run f :=
    handlePostResponseCompression svc model newGeminiChat generateContent f
      cl now later in
  (Trigger.isSafetyValve d = true
   \/ compressionInteractive (config cl) = false
   \/ prepShouldPromptUser prep = false ->
   run onShow = run onShow')
  /\ (forall gs e,
        Trigger.shouldCompress d = true ->
        compressionInteractive (config cl) = true ->
        prepShouldPromptUser prep = true ->
        extractedGoals prep = Some gs ->
        onShow gs (Trigger.isSafetyValve d) = Throws e ->
        run onShow = (cl, [], Throws e)).
Proof.
  cbv zeta. unfold handlePostResponseCompression. split.
  - intros H.
    destruct (negb _); [reflexivity|].
    destruct (compressionInteractive (config cl)) eqn:Hi; [|reflexivity].
    destruct H as [H|[H|H]]; [|discriminate H|].
    + rewrite H, prepare_safety_valve. reflexivity.
    + rewrite H. reflexivity.
  - intros gs e Hd Hi Hp Hg He.
    rewrite Hd, Hi, Hp, Hg, He. reflexivity.
Qed.

End PostResponseMore.

(* ================================================================== *)
(** * A single call, await by await *)
(* ================================================================== *)

(** The lock invariant of a single call on a run to its end: the trigger,
    the preparation, the answer to the prompt, [compress] and
    [startChat]. *)
Lemma single_call_lock_witness :
  lockMatches Examples.session0
  /\ Forall resumesFirst
       (Examples.untilPrompt
        ++ Resume 0 (Some "Fixing the login test") Examples.clock
           :: Examples.finishCall 0)%list
  /\ lockMatches
       (Examples.runSession Examples.session0
          (Examples.untilPrompt
           ++ Resume 0 (Some "Fixing the login test") Examples.clock
              :: Examples.finishCall 0)%list).
Proof.
  assert (H0 : lockMatches Examples.session0) by (vm_compute; reflexivity).
  assert (H1 : Forall resumesFirst
                 (Examples.untilPrompt
                  ++ Resume 0 (Some "Fixing the login test") Examples.clock
                     :: Examples.finishCall 0)%list)
    by (repeat constructor).
  split; [exact H0|]. split; [exact H1|].
  exact (single_call_lock (J := Examples.stringifier)
           (Examples.services (of_Z 600)) "m" Examples.newGeminiChat
           Examples.generateContent _ Examples.session0 H0 H1).
Defined.

(** On that run the call awaits [startChat] after [compress] has settled:
    the lock is still held, and it is released when the call ends. *)
Example lock_held_while_startChat_awaited :
  let s :=
    Examples.runSession Examples.session0
      (Examples.untilPrompt
       ++ [Resume 0 (Some "Fixing the login test") Examples.clock;
           Resume 0 None Examples.clock])%list in
  let s' := Examples.runSession s [Resume 0 None Examples.clock] in
  map inCompress (attempts s) = [false]
  /\ map inTryCompressChat (attempts s) = [true]
  /\ isCompressing (client s) = true
  /\ map Examples.statusOf (attempts s') = [Some COMPRESSED]
  /\ isCompressing (client s') = false.
Proof. cbv zeta. repeat split; vm_compute; reflexivity. Qed.

(** When [startChat] rejects after a [COMPRESSED] result, the call rejects
    with its error: the lock is released, the two flags of [startChat] are
    written, and the chat and the counters are as before. *)
Example startChat_rejection_run :
  let cl := Examples.clientWith 45000 30 in
  let '(cl', _, result) :=
    tryCompressChat (J := Examples.stringifier)
      (Examples.services (of_Z 600)) "m" MoreExamples.brokenChat cl true
      None Examples.clock in
  result = Throws (ErrorObject "Failed to initialize chat: no tools")
  /\ isCompressing cl' = false
  /\ forceFullIdeContext cl' = true
  /\ hasFailedCompressionAttempt cl' = false
  /\ chat cl' = chat cl
  /\ messagesSinceLastCompress cl' = messagesSinceLastCompress cl
  /\ lastCompressionTime cl' = lastCompressionTime cl.
Proof. vm_compute. repeat split. Qed.

(* ================================================================== *)
(** * The end of the selection flow *)
(* ================================================================== *)

(** [completeFlow] does not read the preparation result.  Its flag
    [goalWasSelected] is the truthiness of the goal its options carry: when
    it is set the options carry the selection itself with the strategy
    ['since-last-prompt'], otherwise they carry no goal and the strategy
    ['percentage']; a threshold is never set.  [handleUserSelection] always
    proceeds and passes the selection on. *)
Theorem completeFlow_flag (prep prep' : DeliberateCompressionPrepareResult)
    (selection : option string) (timedOut : option bool) :
  let '(options, flag) := completeFlow prep selection in
  completeFlow prep' selection = (options, flag)
  /\ flag = truthy (userGoal options)
  /\ optPreserveThreshold options = None
  /\ (flag = true ->
      userGoal options = selection
      /\ preserveStrategy options = Some since_last_prompt)
  /\ (flag = false ->
      userGoal options = None
      /\ preserveStrategy options = Some percentage)
  /\ Selection.shouldProceed (handleUserSelection selection timedOut) = true
  /\ Selection.selectedGoal (handleUserSelection selection timedOut)
     = selection.
Proof.
  unfold completeFlow, createCompressionOptions.
  destruct (truthy selection) eqn:Ht; cbn [userGoal optPreserveThreshold
    preserveStrategy handleUserSelection Selection.shouldProceed
    Selection.selectedGoal].
  - split; [reflexivity|]. split; [symmetry; exact Ht|].
    split; [reflexivity|]. split; [intros _; split; reflexivity|].
    split; [intro H; discriminate H|]. split; reflexivity.
  - split; [reflexivity|]. split; [reflexivity|].
    split; [reflexivity|]. split; [intro H; discriminate H|].
    split; [intros _; split; reflexivity|]. split; reflexivity.
Qed.

(* ================================================================== *)
(** * Two runs of the post-response check *)
(* ================================================================== *)

(** A client at 45000 tokens after 30 messages: the goals are extracted and
    the prompt is shown.  When the prompt rejects, the call rejects with the
    same error and the client is as before. *)
Example prompt_rejection_run :
  handlePostResponseCompression (J := Examples.stringifier)
    (Examples.services (of_Z 600)) "m" Examples.newGeminiChat
    Examples.generateContent MoreExamples.closedPrompt
    (Examples.clientWith 45000 30) Examples.clock Examples.clock
  = (Examples.clientWith 45000 30, [], Throws (ErrorObject "prompt closed")).
Proof. vm_compute. reflexivity. Qed.

(** When the prompt answers with the first goal, the history is compacted
    towards that goal and the event is returned. *)
Example prompt_answer_run :
  let '(cl', _, result) :=
    handlePostResponseCompression (J := Examples.stringifier)
      (Examples.services (of_Z 600)) "m" Examples.newGeminiChat
      Examples.generateContent MoreExamples.firstGoal
      (Examples.clientWith 45000 30) Examples.clock Examples.clock in
  messagesSinceLastCompress cl' = n0
  /\ match result with
     | Returns (Some compressed) =>
         compressionStatus compressed = COMPRESSED
         /\ goalWasSelected compressed = Some true
     | _ => False
     end.
Proof. vm_compute. split; [reflexivity|split; reflexivity]. Qed.
